(** * New-flow: supervision and time-series synchronisation core

    A shallow embedding of the Python sources

      - [ParserPost.py]    (timeline normalisation, hourly buckets, tracking
                            merge and horizon, the posts to fetch),
      - [parser_events.py] (bounded intake queue, its consumer, HTTP intake),
      - [parsers_bridge.py] (health classifier, worker start, stop and
                            restart, starts that overlap, control actions,
                            account ids),

    then the vocabulary in which their properties are stated, then the
    properties and their proofs.

    Conventions.  A Python [str] is a list of Unicode code points; a JSON-like
    Python object is a [Py.value]; a [dict] keeps its insertion order, as
    Python's does, and is an association list.  Times are counted in
    microseconds, the resolution of [datetime]; Unix times are IEEE doubles.
    Functions of the Python standard library that the sources call but do
    not define ([datetime.fromisoformat], [datetime.isoformat],
    [datetime.timestamp], [repr]) are the fields of the interface [PyLib];
    [Iso8601.library] implements it. *)

From Stdlib Require Import ZArith List Bool Lia String Ascii Floats.
From Stdlib Require Import DecimalN Permutation.
Import ListNotations.
Open Scope Z_scope.

(* ================================================================== *)
(** ** Python values *)

Module Py.

(** A Python string: its code points. *)
Definition str := list N.

(** A literal of the source, written as a Rocq string of ASCII characters. *)
Definition lit (s : string) : str :=
  map N_of_ascii (list_ascii_of_string s).

Fixpoint str_eqb (a b : str) : bool :=
  match a, b with
  | [], [] => true
  | x :: a', y :: b' => N.eqb x y && str_eqb a' b'
  | _, _ => false
  end.

(** [str.isspace] on one code point: the characters [str.strip()] removes. *)
Definition isspace (c : N) : bool :=
  ((9 <=? c) && (c <=? 13) || (28 <=? c) && (c <=? 32)
   || (c =? 133) || (c =? 160) || (c =? 5760)
   || (8192 <=? c) && (c <=? 8202)
   || (c =? 8232) || (c =? 8233) || (c =? 8239) || (c =? 8287)
   || (c =? 12288))%N.

Fixpoint lstrip (s : str) : str :=
  match s with
  | [] => []
  | c :: r => if isspace c then lstrip r else s
  end.

Definition rstrip (s : str) : str := rev (lstrip (rev s)).

(** [s.strip()] *)
Definition strip (s : str) : str := rstrip (lstrip s).

(** [s.startswith(p)] *)
Fixpoint startswith (s p : str) : bool :=
  match p, s with
  | [], _ => true
  | x :: p', y :: s' => N.eqb x y && startswith s' p'
  | _ :: _, [] => false
  end.

(** [s.endswith(p)] *)
Definition endswith (s p : str) : bool := startswith (rev s) (rev p).

(** [s[:-1]] *)
Definition drop_last (s : str) : str := removelast s.

(** JSON-like objects: what [json.loads] returns and the sources build. *)
#[local] Set Warnings "-register-all".
Inductive value :=
| VNone
| VBool (b : bool)
| VInt (z : Z)
| VFloat (f : float)
| VStr (s : str)
| VList (l : list value)
| VDict (d : list (str * value)).

Definition dict := list (str * value).

(** [d.get(k)], [None] of the option standing for an absent key. *)
Fixpoint lookup (d : dict) (k : str) : option value :=
  match d with
  | [] => None
  | (k', v) :: r => if str_eqb k k' then Some v else lookup r k
  end.

(** [d.get(k, default)] *)
Definition get (d : dict) (k : str) (default : value) : value :=
  match lookup d k with Some v => v | None => default end.

(** [d[k] = v]: an existing key keeps its place, a new one goes last. *)
Fixpoint set (d : dict) (k : str) (v : value) : dict :=
  match d with
  | [] => [(k, v)]
  | (k', v') :: r =>
      if str_eqb k k' then (k', v) :: r else (k', v') :: set r k v
  end.

(** [d.values()] *)
Definition values (d : dict) : list value := map snd d.

(** [bool(v)] *)
Definition truthy (v : value) : bool :=
  match v with
  | VNone => false
  | VBool b => b
  | VInt z => negb (z =? 0)
  | VFloat f => negb (PrimFloat.eqb f 0)
  | VStr s => match s with [] => false | _ => true end
  | VList l => match l with [] => false | _ => true end
  | VDict d => match d with [] => false | _ => true end
  end.

(** [isinstance(v, int)]: [bool] is a subclass of [int]. *)
Definition isinstance_int (v : value) : bool :=
  match v with VBool _ | VInt _ => true | _ => false end.

(** The integer an [int] instance denotes in arithmetic. *)
Definition int_of (v : value) : option Z :=
  match v with
  | VBool b => Some (if b then 1 else 0)
  | VInt z => Some z
  | _ => None
  end.

Definition isinstance_dict (v : value) : bool :=
  match v with VDict _ => true | _ => false end.

(** Exceptions the modelled code can raise. *)
Inductive exn := OverflowError | AttributeError | QueueFull | OSError.

Inductive result (A : Type) :=
| Ok (a : A)
| Raise (e : exn).
Arguments Ok {A} a.
Arguments Raise {A} e.

Definition bind {A B} (r : result A) (k : A -> result B) : result B :=
  match r with Ok a => k a | Raise e => Raise e end.

End Py.

Notation "x <- r ;; k" := (Py.bind r (fun x => k))
  (at level 61, r at next level, right associativity).

(* ================================================================== *)
(** ** [datetime] and [timedelta] *)

Module DateTime.

(** An aware [datetime]: the wall-clock reading, in microseconds since
    0001-01-01T00:00:00, and the offset of its [tzinfo] from UTC. *)
Record datetime := mk { wall : Z; utcoffset : Z }.

Definition HOUR : Z := 3600 * 1000000.
Definition MINUTE : Z := 60 * 1000000.
Definition SECOND : Z := 1000000.
Definition DAY : Z := 24 * HOUR.

(** [timedelta(hours=h)] *)
Definition hours (h : Z) : Z := h * HOUR.

(** The wall-clock readings a [datetime] can hold: years 1 to 9999. *)
Definition MAXWALL : Z := 3652059 * DAY.

Definition in_range (w : Z) : bool := (0 <=? w) && (w <? MAXWALL).

Definition valid (d : datetime) : bool :=
  in_range (wall d) && (- DAY <? utcoffset d) && (utcoffset d <? DAY).

(** The instant an aware datetime denotes; aware datetimes are compared,
    and subtracted, as instants. *)
Definition instant (d : datetime) : Z := wall d - utcoffset d.

Definition leb (a b : datetime) : bool := instant a <=? instant b.
Definition ltb (a b : datetime) : bool := instant a <? instant b.

(** [a - b], a [timedelta] in microseconds. *)
Definition sub (a b : datetime) : Z := instant a - instant b.

(** [d + delta]: the wall clock moves, the [tzinfo] stays; a result outside
    years 1..9999 raises [OverflowError]. *)
Definition add (d : datetime) (delta : Z) : Py.result datetime :=
  if in_range (wall d + delta)
  then Py.Ok (mk (wall d + delta) (utcoffset d))
  else Py.Raise Py.OverflowError.

(** [d.astimezone(tz)] for a fixed-offset [tz]: first to UTC, then to [tz];
    either step can leave the range. *)
Definition astimezone (d : datetime) (off : Z) : Py.result datetime :=
  u <- add (mk (wall d) 0) (- utcoffset d) ;;
  add (mk (wall u) off) off.

(** What [fromisoformat] returns: a naive or an aware datetime. *)
Inductive parsed :=
| Naive (w : Z)
| Aware (d : datetime).

Definition parsed_valid (p : parsed) : bool :=
  match p with
  | Naive w => in_range w
  | Aware d => valid d
  end.

(** [timezone.utc] *)
Definition utc : Z := 0.

(** [datetime.min.replace(tzinfo=timezone.utc)] *)
Definition min_utc : datetime := mk 0 utc.

Definition is_digit (c : N) : bool := ((48 <=? c) && (c <=? 57))%N.

(** The shape of an ISO-8601 rendering that the sources depend on: it
    starts with a digit of the year and ends with a digit of the offset. *)
Definition iso_shape (s : Py.str) : bool :=
  match s with
  | [] => false
  | a :: _ => is_digit a && is_digit (last s 0%N)
  end.

End DateTime.

(** The Python standard library, as far as the sources use it. *)
Class PyLib := {
  fromisoformat : Py.str -> option DateTime.parsed;
  isoformat : DateTime.datetime -> Py.str;
  timestamp : DateTime.datetime -> float;
  repr : Py.value -> Py.str
}.

(** What the library's documentation promises of these functions:
    [fromisoformat] inverts [isoformat], returns datetimes in range, and
    [isoformat] prints digits at both ends. *)
Class PyLibLaws (L : PyLib) : Prop := {
  fromisoformat_isoformat :
    forall d, DateTime.valid d = true ->
              fromisoformat (isoformat d) = Some (DateTime.Aware d);
  fromisoformat_valid :
    forall s p, fromisoformat s = Some p -> DateTime.parsed_valid p = true;
  isoformat_shape :
    forall d, DateTime.valid d = true -> DateTime.iso_shape (isoformat d) = true
}.

(** [str(v)] *)
Definition py_str `{PyLib} (v : Py.value) : Py.str :=
  match v with
  | Py.VStr s => s
  | _ => repr v
  end.

(* ================================================================== *)
(** ** ParserPost.py *)

Module ParserPost.
Import Py.

Section WithLibrary.
Context {L : PyLib}.

Definition TRACK_METRICS : list str :=
  [lit "views"; lit "likes"; lit "comments"; lit "repost"; lit "shared"].

(** [MSK_TZ = timezone(timedelta(hours=3))] *)
Definition MSK_TZ : Z := DateTime.hours 3.

(** [_parse_ts]: [None] for an empty or unparsable string; a trailing [Z]
    is read as [+00:00]; a naive result is taken as UTC. *)
Definition _parse_ts (value : str) : option DateTime.datetime :=
  match value with
  | [] => None
  | _ =>
      let value :=
        if endswith value (lit "Z") then drop_last value ++ lit "+00:00"
        else value in
      match fromisoformat value with
      | Some (DateTime.Naive w) => Some (DateTime.mk w DateTime.utc)
      | Some (DateTime.Aware d) => Some d
      | None => None
      end
  end.

Definition two_digits (n : Z) : str :=
  [Z.to_N (48 + n / 10); Z.to_N (48 + n mod 10)].

(** [f"{d:%H:%M}"] *)
Definition format_HM (d : DateTime.datetime) : str :=
  two_digits ((DateTime.wall d / DateTime.HOUR) mod 24) ++ lit ":" ++
  two_digits ((DateTime.wall d / DateTime.MINUTE) mod 60).

(** [_format_hour_range]: both ends in Moscow time, joined by an en dash. *)
Definition _format_hour_range (start_ts end_ts : DateTime.datetime)
  : result str :=
  start_msk <- DateTime.astimezone start_ts MSK_TZ ;;
  end_msk <- DateTime.astimezone end_ts MSK_TZ ;;
  Ok (format_HM start_msk ++ [8211%N] ++ format_HM end_msk).

(** [_metric_value]: the metric when it is an [int], else [None]. *)
Definition _metric_value (point : value) (metric : str) : option Z :=
  match point with
  | VDict p =>
      let value := get p metric VNone in
      if isinstance_int value then int_of value else None
  | _ => None
  end.

(** The loop of [_value_at_time], entered with the value found so far. *)
Fixpoint value_at_time_loop (value : option Z) (timeline : list Py.value)
  (target_ts : DateTime.datetime) (metric : str) : result (option Z) :=
  match timeline with
  | [] => Ok value
  | point :: rest =>
      match point with
      | VDict p =>
          match _parse_ts (py_str (get p (lit "ts_utc") (VStr []))) with
          | None => Ok value
          | Some ts =>
              if DateTime.ltb target_ts ts then Ok value
              else
                let value :=
                  match _metric_value point metric with
                  | Some current => Some current
                  | None => value
                  end in
                value_at_time_loop value rest target_ts metric
          end
      | _ => Raise AttributeError
      end
  end.

(** [_value_at_time]: the last known value of [metric] at or before
    [target_ts]; the scan stops at the first point that is later or has no
    readable timestamp. *)
Definition _value_at_time (timeline : list value)
  (target_ts : DateTime.datetime) (metric : str) : result (option Z) :=
  value_at_time_loop None timeline target_ts metric.

Definition or_else (v : option Z) (d : Z) : Z :=
  match v with Some x => x | None => d end.

(** The body of [for hour in range(1, 25)], over the hours still to do. *)
Fixpoint hourly_loop (hrs : list Z) (prev_value : Z)
  (timeline : list value) (start_ts : DateTime.datetime) (metric : str)
  : result (list value) :=
  match hrs with
  | [] => Ok []
  | hour :: more =>
      end_ts <- DateTime.add start_ts (DateTime.hours hour) ;;
      found <- _value_at_time timeline end_ts metric ;;
      let value := or_else found prev_value in
      begin_ts <- DateTime.add end_ts (- DateTime.hours 1) ;;
      range <- _format_hour_range begin_ts end_ts ;;
      let row := VDict [ (lit "hour", VInt hour);
                         (lit "range", VStr range);
                         (lit "delta", VInt (value - prev_value)) ] in
      rows <- hourly_loop more value timeline start_ts metric ;;
      Ok (row :: rows)
  end.

(** [range(1, 25)] *)
Definition hours_1_24 : list Z := map Z.of_nat (seq 1 24).

(** [_compute_hourly_metric] *)
Definition _compute_hourly_metric (timeline : list value)
  (start_ts : DateTime.datetime) (metric : str) : result (list value) :=
  base <- _value_at_time timeline start_ts metric ;;
  hourly_loop hours_1_24 (or_else base 0) timeline start_ts metric.

(** One pass of the loop of [_normalize_timeline]: the key and the point an
    entry contributes, if any. *)
Definition normalize_entry (entry : value) : option (str * value) :=
  match entry with
  | VDict e =>
      let ts_utc := strip (py_str (get e (lit "ts_utc") (VStr []))) in
      match _parse_ts ts_utc with
      | None => None
      | Some ts =>
          let point :=
            fold_left
              (fun point metric =>
                 let value := get e metric VNone in
                 set point metric
                     (if isinstance_int value then value else VNone))
              TRACK_METRICS
              [(lit "ts_utc", VStr (isoformat ts))] in
          Some (isoformat ts, VDict point)
      end
  | _ => None
  end.

Definition bucket_step (bucket : dict) (entry : value) : dict :=
  match normalize_entry entry with
  | Some (k, point) => set bucket k point
  | None => bucket
  end.

(** The key [sorted] orders the points by. *)
Definition sort_key (p : value) : DateTime.datetime :=
  match p with
  | VDict d =>
      match _parse_ts (py_str (get d (lit "ts_utc") VNone)) with
      | Some ts => ts
      | None => DateTime.min_utc
      end
  | _ => DateTime.min_utc
  end.

(** [sorted(xs, key=sort_key)]: a stable sort. *)
Fixpoint insert_sorted (x : value) (l : list value) : list value :=
  match l with
  | [] => [x]
  | y :: r =>
      if DateTime.leb (sort_key x) (sort_key y) then x :: l
      else y :: insert_sorted x r
  end.

Definition sorted (l : list value) : list value :=
  fold_right insert_sorted [] l.

(** [_normalize_timeline]: one point per timestamp, the last one written,
    in time order. *)
Definition _normalize_timeline (raw_timeline : value) : list value :=
  match raw_timeline with
  | VList l => sorted (values (fold_left bucket_step l []))
  | _ => []
  end.

(** The merge of two timelines: [_normalize_timeline] of their
    concatenation, as in [_merge_tracking]. *)
Definition merge (A B : list value) : list value :=
  _normalize_timeline (VList (A ++ B)).

(** [json.loads(json.dumps(v))]: a deep copy, the same value. *)
Definition json_copy (v : value) : value := v.

Definition as_dict (v : value) : dict :=
  match v with VDict d => d | _ => [] end.

(** [_normalize_tracking] *)
Definition _normalize_tracking (raw_tracking : value) : dict :=
  let tracking := as_dict raw_tracking in
  let out : dict := [] in
  let started_dt :=
    _parse_ts (py_str (get tracking (lit "started_at_utc") (VStr []))) in
  let out :=
    match started_dt with
    | Some d => set out (lit "started_at_utc") (VStr (isoformat d))
    | None => out
    end in
  let timeline := _normalize_timeline (get tracking (lit "timeline") VNone) in
  let out :=
    match timeline with
    | [] => out
    | _ => set out (lit "timeline") (VList timeline)
    end in
  let history := get tracking (lit "history_24h") VNone in
  if isinstance_dict history
  then set out (lit "history_24h") (json_copy history)
  else out.

(** A rank, compared as Python compares tuples. *)
Definition rank := (float * Z * Z)%type.

Definition rank_ltb (a b : rank) : bool :=
  let '(a1, a2, a3) := a in
  let '(b1, b2, b3) := b in
  if negb (PrimFloat.eqb a1 b1) then PrimFloat.ltb a1 b1
  else if negb (a2 =? b2) then a2 <? b2
  else a3 <? b3.

(** [_tracking_rank] *)
Definition _tracking_rank (tracking : dict) : rank :=
  let started :=
    _parse_ts (py_str (get tracking (lit "started_at_utc") (VStr []))) in
  let start_rank :=
    match started with
    | Some d => timestamp d
    | None => PrimFloat.infinity
    end in
  let timeline := get tracking (lit "timeline") (VList []) in
  let timeline_len :=
    match timeline with
    | VList l => Z.of_nat (List.length l)
    | _ => 0
    end in
  let finalized :=
    if isinstance_dict (get tracking (lit "history_24h") VNone)
       && truthy (get (as_dict (get tracking (lit "history_24h") (VDict [])))
                      (lit "finalized") VNone)
    then 1 else 0 in
  (start_rank, - finalized, - timeline_len).

(** [x or []] for a timeline field. *)
Definition or_empty (v : option value) : list value :=
  match v with
  | Some (VList l) => l
  | _ => []
  end.

(** [min] of the start candidates; the first one wins a tie. *)
Definition min_started (cands : list DateTime.datetime)
  : option DateTime.datetime :=
  match cands with
  | [] => None
  | c :: rest =>
      Some (fold_left (fun m x => if DateTime.ltb x m then x else m) rest c)
  end.

(** [_merge_tracking] *)
Definition _merge_tracking (base_tracking extra_tracking : value) : dict :=
  let base := _normalize_tracking base_tracking in
  let extra := _normalize_tracking extra_tracking in
  let started_candidates :=
    fold_left
      (fun acc candidate =>
         match _parse_ts candidate with
         | Some ts => acc ++ [ts]
         | None => acc
         end)
      [ py_str (get base (lit "started_at_utc") (VStr []));
        py_str (get extra (lit "started_at_utc") (VStr [])) ]
      [] in
  let started_dt := min_started started_candidates in
  let timeline :=
    _normalize_timeline
      (VList (or_empty (lookup base (lit "timeline"))
              ++ or_empty (lookup extra (lit "timeline")))) in
  let out : dict := [] in
  let out :=
    match started_dt with
    | Some d => set out (lit "started_at_utc") (VStr (isoformat d))
    | None => out
    end in
  let out :=
    match timeline with
    | [] => out
    | _ => set out (lit "timeline") (VList timeline)
    end in
  let base_hist :=
    if isinstance_dict (get base (lit "history_24h") VNone)
    then get base (lit "history_24h") VNone else VDict [] in
  let extra_hist :=
    if isinstance_dict (get extra (lit "history_24h") VNone)
    then get extra (lit "history_24h") VNone else VDict [] in
  let best_hist :=
    if rank_ltb
         (_tracking_rank [ (lit "history_24h", extra_hist);
                           (lit "timeline", get extra (lit "timeline") (VList [])) ])
         (_tracking_rank [ (lit "history_24h", base_hist);
                           (lit "timeline", get base (lit "timeline") (VList [])) ])
    then extra_hist else base_hist in
  if truthy best_hist then set out (lit "history_24h") best_hist else out.

(** [int(delta.total_seconds() // 3600)] then the two clamps.  The float
    quotient is exact here: a [timedelta] is a whole number of microseconds,
    [total_seconds()] is its correctly rounded quotient by [10**6], and no
    rounding moves a value across a multiple of 3600 or across 86400; so
    the result is the floor of the exact quotient, clamped. *)
Definition ready_hours_of (delta : Z) : Z :=
  let ready_hours := delta / DateTime.HOUR in
  let ready_hours := if ready_hours <? 0 then 0 else ready_hours in
  if 24 <? ready_hours then 24 else ready_hours.

(** The loop [for metric in TRACK_METRICS] of [_update_history_24h]. *)
Fixpoint metrics_loop (ms : list str) (metrics : dict)
  (timeline : list value) (started_dt : DateTime.datetime) (ready_hours : Z)
  : result dict :=
  match ms with
  | [] => Ok metrics
  | metric :: more =>
      all_rows <- _compute_hourly_metric timeline started_dt metric ;;
      metrics_loop more
        (set metrics metric (VList (firstn (Z.to_nat ready_hours) all_rows)))
        timeline started_dt ready_hours
  end.

(** [_update_history_24h] *)
Definition _update_history_24h (tracking : dict) (now_ts : DateTime.datetime)
  : result dict :=
  let started_dt :=
    _parse_ts (py_str (get tracking (lit "started_at_utc") (VStr []))) in
  let timeline := get tracking (lit "timeline") (VList []) in
  match started_dt, timeline with
  | Some started_dt, VList timeline =>
      let ready_hours := ready_hours_of (DateTime.sub now_ts started_dt) in
      metrics <- metrics_loop TRACK_METRICS [] timeline started_dt ready_hours ;;
      let history : dict :=
        [ (lit "start_ts_utc", VStr (isoformat started_dt));
          (lit "ready_hours", VInt ready_hours);
          (lit "finalized", VBool (24 <=? ready_hours));
          (lit "updated_at_utc", VStr (isoformat now_ts));
          (lit "metrics", VDict metrics) ] in
      history <-
        (if 24 <=? ready_hours
         then completed <- DateTime.add started_dt (DateTime.hours 24) ;;
              Ok (set history (lit "completed_at_utc")
                      (VStr (isoformat completed)))
         else Ok history) ;;
      Ok (set tracking (lit "history_24h") (VDict history))
  | _, _ => Ok tracking
  end.

End WithLibrary.
End ParserPost.

(* ================================================================== *)
(** ** parser_events.py *)

Module ParserEvents.
Import Py.

(** [asyncio.Queue(maxsize)]: its bound and the items waiting, oldest
    first.  A bound of zero or less means no bound. *)
Record queue := mkQueue { maxsize : Z; items : list value }.

(** [Queue.qsize] *)
Definition qsize (q : queue) : Z := Z.of_nat (List.length (items q)).

(** [Queue.full] *)
Definition full (q : queue) : bool :=
  if maxsize q <=? 0 then false else maxsize q <=? qsize q.

(** [Queue.put_nowait] *)
Definition put_nowait (q : queue) (item : value) : result queue :=
  if full q then Raise QueueFull
  else Ok (mkQueue (maxsize q) (items q ++ [item])).

(** What the consumer's [Queue.get] does once an item is there. *)
Definition get_item (q : queue) : option (value * queue) :=
  match items q with
  | [] => None
  | e :: rest => Some (e, mkQueue (maxsize q) rest)
  end.

(** [_QUEUE_SIZE], when the environment does not set it. *)
Definition DEFAULT_QUEUE_SIZE : Z := 200.

Section WithLibrary.
Context {L : PyLib}.

(** [_normalize_stats_map]: the entries with a non-blank key and a [dict]
    value, under the stripped key. *)
Definition _normalize_stats_map (raw : value) : dict :=
  match raw with
  | VDict d =>
      fold_left
        (fun out kv =>
           let target := strip (py_str (VStr (fst kv))) in
           match target with
           | [] => out
           | _ => if isinstance_dict (snd kv) then set out target (snd kv)
                  else out
           end)
        d []
  | _ => []
  end.

Definition recognized_type (event_type : str) : bool :=
  str_eqb event_type (lit "accounts_stats_batch")
  || str_eqb event_type (lit "posts_stats_batch").

(** [enqueue_parser_event], on the queue it is given: the answer and the
    queue afterwards. *)
Definition enqueue_parser_event (event : value) (q : queue)
  : (bool * str) * queue :=
  match event with
  | VDict ev =>
      let event_type := strip (py_str (get ev (lit "type") (VStr []))) in
      if negb (recognized_type event_type)
      then ((false, lit "invalid_type"), q)
      else if negb (truthy (VDict (_normalize_stats_map
                                     (get ev (lit "stats_by_url") VNone))))
      then ((false, lit "empty_stats"), q)
      else
        match put_nowait q event with
        | Ok q' => ((true, lit "queued"), q')
        | Raise _ => ((false, lit "queue_full"), q)
        end
  | _ => ((false, lit "invalid_payload"), q)
  end.

(** An event that passes the checks made before the queue is tried. *)
Definition well_formed (event : value) : bool :=
  match event with
  | VDict ev =>
      recognized_type (strip (py_str (get ev (lit "type") (VStr []))))
      && truthy (VDict (_normalize_stats_map
                          (get ev (lit "stats_by_url") VNone)))
  | _ => false
  end.

(** Submissions one after the other: the answers, and the queue left. *)
Fixpoint submit_all (events : list value) (q : queue)
  : list (bool * str) * queue :=
  match events with
  | [] => ([], q)
  | e :: more =>
      let '(answer, q') := enqueue_parser_event e q in
      let '(answers, q'') := submit_all more q' in
      (answer :: answers, q'')
  end.

End WithLibrary.
End ParserEvents.

(* ================================================================== *)
(** ** parsers_bridge.py *)

Module ParsersBridge.
Import Py.

Definition RESTART_INTERVAL_SEC : float := 3600.
Definition HEALTH_TIMEOUT_SEC : float := 300.
Definition HEALTH_START_GRACE_SEC : float := 90.

(** [bool(x)] for a [float] or [None]. *)
Definition truthy_time (t : option float) : bool :=
  match t with
  | Some x => negb (PrimFloat.eqb x 0)
  | None => false
  end.

Section WithLibrary.
Context {L : PyLib}.

(** [_parse_iso_to_epoch] *)
Definition _parse_iso_to_epoch (value : str) : option float :=
  match value with
  | [] => None
  | _ =>
      let value :=
        if endswith value (lit "Z") then drop_last value ++ lit "+00:00"
        else value in
      match fromisoformat value with
      | Some (DateTime.Naive w) => Some (timestamp (DateTime.mk w DateTime.utc))
      | Some (DateTime.Aware d) => Some (timestamp d)
      | None => None
      end
  end.

(** [_read_health], given what the file holds: [None] when it cannot be
    read or is not JSON. *)
Definition _read_health (content : option value) : dict :=
  match content with
  | Some (VDict d) => d
  | _ => []
  end.

(** [_health_stale], given the clock reading [now] of [time.time()] and
    the content of the health file. *)
Definition _health_stale (content : option value) (started_at : option float)
  (now : float) : bool * str :=
  if truthy_time started_at
     && PrimFloat.ltb (PrimFloat.sub now (match started_at with
                                          | Some t => t
                                          | None => 0%float
                                          end))
                      HEALTH_START_GRACE_SEC
  then (false, [])
  else
    let health := _read_health content in
    match health with
    | [] => (true, lit "health_missing")
    | _ =>
        let req_epoch :=
          _parse_iso_to_epoch
            (py_str (get health (lit "last_request_ts_utc") (VStr []))) in
        let resp_epoch :=
          _parse_iso_to_epoch
            (py_str (get health (lit "last_response_ts_utc") (VStr []))) in
        match req_epoch with
        | None => (true, lit "no_request")
        | Some req =>
            if PrimFloat.ltb HEALTH_TIMEOUT_SEC (PrimFloat.sub now req)
            then (true, lit "request_timeout")
            else
              match resp_epoch with
              | None => (true, lit "no_response")
              | Some resp =>
                  if PrimFloat.ltb HEALTH_TIMEOUT_SEC (PrimFloat.sub now resp)
                  then (true, lit "response_timeout")
                  else (false, [])
              end
        end
    end.

End WithLibrary.

(** The two worker kinds; each has its script
    ([POSTS_PARSER_PATH], [ACCOUNTS_PARSER_PATH]). *)
Inductive kind := Posts | Accounts.

(** A [subprocess.Popen] handle. *)
Record process := mkProcess { pid : Z }.

(** An open log stream and whether it has been closed. *)
Record log_handle := mkLog { closed : bool }.

(** The module's globals. *)
Record state := mkState {
  _posts_process : option process;
  _accounts_process : option process;
  _posts_started_at : option float;
  _accounts_started_at : option float;
  _posts_log_handle : option log_handle;
  _accounts_log_handle : option log_handle;
  _watchdog_started : bool;
  _posts_expected_running : bool;
  _accounts_expected_running : bool
}.

(** What the operating system answers during one call. *)
Record os := mkOs {
  (** [proc.poll()]: [None] while the process runs *)
  poll : process -> option Z;
  (** [_find_pids_for_script(script)]: the pids of the processes whose
      command line contains the script's name *)
  find_pids : kind -> list Z;
  (** [script.exists()] *)
  script_exists : kind -> bool;
  (** [time.time()] *)
  time : float;
  (** [subprocess.Popen(...)]: the new handle, or the error raised *)
  popen : kind -> result process
}.

(** What a call does to the outside. *)
Inductive effect :=
| OpenLog (k : kind)
| Spawn (k : kind) (p : process)
| StartWatchdogThread.

(** [_is_running] *)
Definition _is_running (w : os) (proc : option process) : bool :=
  match proc with
  | Some p => match poll w p with None => true | Some _ => false end
  | None => false
  end.

(** [_system_has_process] *)
Definition _system_has_process (w : os) (script : kind) : bool :=
  match find_pids w script with [] => false | _ => true end.

(** [_ensure_watchdog] *)
Definition _ensure_watchdog (s : state) : state * list effect :=
  if _watchdog_started s then (s, [])
  else (mkState (_posts_process s) (_accounts_process s)
                (_posts_started_at s) (_accounts_started_at s)
                (_posts_log_handle s) (_accounts_log_handle s)
                true
                (_posts_expected_running s) (_accounts_expected_running s),
        [StartWatchdogThread]).

Definition log_usable (h : option log_handle) : bool :=
  match h with
  | Some l => negb (closed l)
  | None => false
  end.

(** [start_posts_parser]: the globals afterwards, what was done outside,
    and the exception that escaped, if one did. *)
Definition start_posts_parser (w : os) (s : state)
  : state * list effect * option exn :=
  let s := mkState (_posts_process s) (_accounts_process s)
                   (_posts_started_at s) (_accounts_started_at s)
                   (_posts_log_handle s) (_accounts_log_handle s)
                   (_watchdog_started s)
                   true (_accounts_expected_running s) in
  if _is_running w (_posts_process s) || _system_has_process w Posts then
    let s := mkState (_posts_process s) (_accounts_process s)
                     (match _posts_started_at s with
                      | None => Some (time w)
                      | Some t => Some t
                      end)
                     (_accounts_started_at s)
                     (_posts_log_handle s) (_accounts_log_handle s)
                     (_watchdog_started s)
                     (_posts_expected_running s)
                     (_accounts_expected_running s) in
    let '(s, eff) := _ensure_watchdog s in
    (s, eff, None)
  else if negb (script_exists w Posts) then (s, [], None)
  else
    let '(handle, eff_log) :=
      if log_usable (_posts_log_handle s)
      then (_posts_log_handle s, [])
      else (Some (mkLog false), [OpenLog Posts]) in
    let s := mkState (_posts_process s) (_accounts_process s)
                     (_posts_started_at s) (_accounts_started_at s)
                     handle (_accounts_log_handle s)
                     (_watchdog_started s)
                     (_posts_expected_running s)
                     (_accounts_expected_running s) in
    match popen w Posts with
    | Raise e => (s, eff_log, Some e)
    | Ok p =>
        let s := mkState (Some p) (_accounts_process s)
                         (Some (time w)) (_accounts_started_at s)
                         (_posts_log_handle s) (_accounts_log_handle s)
                         (_watchdog_started s)
                         (_posts_expected_running s)
                         (_accounts_expected_running s) in
        let '(s, eff) := _ensure_watchdog s in
        (s, eff_log ++ [Spawn Posts p] ++ eff, None)
    end.

(** [start_accounts_parser] *)
Definition start_accounts_parser (w : os) (s : state)
  : state * list effect * option exn :=
  let s := mkState (_posts_process s) (_accounts_process s)
                   (_posts_started_at s) (_accounts_started_at s)
                   (_posts_log_handle s) (_accounts_log_handle s)
                   (_watchdog_started s)
                   (_posts_expected_running s) true in
  if _is_running w (_accounts_process s) || _system_has_process w Accounts then
    let s := mkState (_posts_process s) (_accounts_process s)
                     (_posts_started_at s)
                     (match _accounts_started_at s with
                      | None => Some (time w)
                      | Some t => Some t
                      end)
                     (_posts_log_handle s) (_accounts_log_handle s)
                     (_watchdog_started s)
                     (_posts_expected_running s)
                     (_accounts_expected_running s) in
    let '(s, eff) := _ensure_watchdog s in
    (s, eff, None)
  else if negb (script_exists w Accounts) then (s, [], None)
  else
    let '(handle, eff_log) :=
      if log_usable (_accounts_log_handle s)
      then (_accounts_log_handle s, [])
      else (Some (mkLog false), [OpenLog Accounts]) in
    let s := mkState (_posts_process s) (_accounts_process s)
                     (_posts_started_at s) (_accounts_started_at s)
                     (_posts_log_handle s) handle
                     (_watchdog_started s)
                     (_posts_expected_running s)
                     (_accounts_expected_running s) in
    match popen w Accounts with
    | Raise e => (s, eff_log, Some e)
    | Ok p =>
        let s := mkState (_posts_process s) (Some p)
                         (_posts_started_at s) (Some (time w))
                         (_posts_log_handle s) (_accounts_log_handle s)
                         (_watchdog_started s)
                         (_posts_expected_running s)
                         (_accounts_expected_running s) in
        let '(s, eff) := _ensure_watchdog s in
        (s, eff_log ++ [Spawn Accounts p] ++ eff, None)
    end.

(** The processes a list of effects spawned. *)
Definition spawned (effs : list effect) : list (kind * process) :=
  flat_map (fun e => match e with Spawn k p => [(k, p)] | _ => [] end) effs.

(** [normalize_account] *)
Definition normalize_account (value : str) : str :=
  let value := strip value in
  match value with
  | [] => []
  | _ =>
      if startswith value (lit "http://") || startswith value (lit "https://")
      then value
      else
        let value :=
          if startswith value (lit "@") then tl value else value in
        lit "https://www.threads.com/@" ++ value
  end.

End ParsersBridge.

(* ================================================================== *)
(** ** More of Python's built-ins *)

Module Builtins.
Import Py.

(** [for item in v]: the items of a list, the characters of a string, the
    keys of a dictionary; any other value is not iterable ([TypeError]),
    which is [None] here. *)
Definition iterate (v : value) : option (list value) :=
  match v with
  | VList l => Some l
  | VStr s => Some (map (fun c => VStr [c]) s)
  | VDict d => Some (map (fun kv => VStr (fst kv)) d)
  | _ => None
  end.

(** [d.setdefault(k, v)]: the dictionary afterwards and the value
    returned. *)
Definition setdefault (d : dict) (k : str) (v : value) : dict * value :=
  match lookup d k with
  | Some x => (d, x)
  | None => (set d k v, v)
  end.

End Builtins.

(* ================================================================== *)
(** ** ParserPost.py: the tracking horizon and the posts to fetch *)

Module ParserPostTracking.
Import Py Builtins ParserPost.

(** [_ensure_stats]: [data] afterwards and the [stats] dictionary returned,
    which is the one stored in [data].  A [stats] entry that is not a
    dictionary has no [setdefault]. *)
Definition _ensure_stats (data : dict) : result (dict * dict) :=
  let '(data, stats) := setdefault data (lit "stats") (VDict []) in
  match stats with
  | VDict stats =>
      let '(stats, _) := setdefault stats (lit "accounts") (VDict []) in
      let '(stats, _) := setdefault stats (lit "posts") (VDict []) in
      Ok (set data (lit "stats") (VDict stats), stats)
  | _ => Raise AttributeError
  end.

(** The files of [USERS_DIR]: [None] when the directory does not exist;
    each file with its path and its content, [None] when it cannot be
    read as JSON. *)
Definition directory := option (list (str * option value)).

(** [_load_users]: the files that hold a dictionary. *)
Definition _load_users (dir : directory) : list (str * value) :=
  match dir with
  | None => []
  | Some files =>
      flat_map
        (fun file =>
           match snd file with
           | Some (VDict d) => [(fst file, VDict d)]
           | _ => []
           end)
        files
  end.

Section WithLibrary.
Context {L : PyLib}.

(** The body of the inner loop of [_collect_posts], on the list [posts]
    and the set [seen]. *)
Definition collect_step (st : list str * list str) (item : value)
  : list str * list str :=
  let '(posts, seen) := st in
  let value := strip (py_str item) in
  match value with
  | [] => st
  | _ =>
      if existsb (str_eqb value) seen then st
      else (posts ++ [value], value :: seen)
  end.

(** [data.get("posts", []) if isinstance(data, dict) else []] *)
Definition posts_field (data : value) : value :=
  match data with
  | VDict d => get d (lit "posts") (VList [])
  | _ => VList []
  end.

Fixpoint collect_loop (users : list (str * value)) (st : list str * list str)
  : option (list str * list str) :=
  match users with
  | [] => Some st
  | (_, data) :: more =>
      match iterate (posts_field data) with
      | Some items => collect_loop more (fold_left collect_step items st)
      | None => None
      end
  end.

(** [_collect_posts], over the users as pairs of a path and the content of
    the file; [None] when a [posts] field is not iterable. *)
Definition _collect_posts (users : list (str * value)) : option (list str) :=
  match collect_loop users ([], []) with
  | Some (posts, _) => Some posts
  | None => None
  end.

(** The comprehension of [_apply_tracking_horizon]: the points whose
    timestamp parses and is not after [horizon]. *)
Fixpoint within_horizon (timeline : list value) (horizon : DateTime.datetime)
  : result (list value) :=
  match timeline with
  | [] => Ok []
  | point :: rest =>
      match point with
      | VDict p =>
          let keep :=
            match _parse_ts (py_str (get p (lit "ts_utc") (VStr []))) with
            | Some ts => DateTime.leb ts horizon
            | None => false
            end in
          kept <- within_horizon rest horizon ;;
          Ok (if keep then point :: kept else kept)
      | _ => Raise AttributeError
      end
  end.

(** [_apply_tracking_horizon] *)
Definition _apply_tracking_horizon (tracking : dict) : result dict :=
  let started_dt :=
    _parse_ts (py_str (get tracking (lit "started_at_utc") (VStr []))) in
  let timeline := _normalize_timeline (get tracking (lit "timeline") VNone) in
  match started_dt with
  | None => Ok (set tracking (lit "timeline") (VList timeline))
  | Some started_dt =>
      horizon <- DateTime.add started_dt (DateTime.hours 24) ;;
      kept <- within_horizon timeline horizon ;;
      Ok (set tracking (lit "timeline") (VList kept))
  end.

(** One pass of the inner loop of [_collect_global_post_tracking]. *)
Definition global_step (global_map : dict) (url : str) (snapshot : value)
  : dict :=
  match snapshot with
  | VDict snap =>
      let tracking := _normalize_tracking (get snap (lit "tracking") VNone) in
      match tracking with
      | [] => global_map
      | _ =>
          let prev := get global_map url VNone in
          set global_map url (VDict (_merge_tracking prev (VDict tracking)))
      end
  | _ => global_map
  end.

(** [stats.get("posts", {})] of a user, with the defaults of the source. *)
Definition posts_stats_of (data : value) : value :=
  let stats :=
    match data with
    | VDict d => get d (lit "stats") (VDict [])
    | _ => VDict []
    end in
  match stats with
  | VDict s => get s (lit "posts") (VDict [])
  | _ => VDict []
  end.

(** [_collect_global_post_tracking] *)
Definition _collect_global_post_tracking (users : list (str * value)) : dict :=
  fold_left
    (fun global_map user =>
       match posts_stats_of (snd user) with
       | VDict posts_stats =>
           fold_left (fun g kv => global_step g (fst kv) (snd kv))
                     posts_stats global_map
       | _ => global_map
       end)
    users [].

End WithLibrary.
End ParserPostTracking.

(* ================================================================== *)
(** ** parser_events.py: the consumer and the HTTP intake *)

Module ParserEventsWorker.
Import Py Builtins ParserEvents.

(** What [_apply_event_sync] does with an event: it returns without a
    call, hands the normalised statistics to
    [_update_users_accounts_stats] or to [_update_users_posts_stats], or
    raises. *)
Inductive applied :=
| Returns
| UpdatesAccounts (stats_by_url : dict)
| UpdatesPosts (stats_by_url : dict)
| RaisesValueError (event_type : str)
| RaisesAttributeError.

(** A request as the handler reads it: the [X-Parser-Token] header, if
    sent, and the body, [None] when it is not JSON. *)
Record request := mkRequest {
  token_header : option str;
  body : option value
}.

(** A JSON response. *)
Record response := mkResponse {
  status_code : Z;
  content : dict
}.

Section WithLibrary.
Context {L : PyLib}.

(** [_apply_event_sync] *)
Definition _apply_event_sync (event : value) : applied :=
  match event with
  | VDict ev =>
      let event_type := strip (py_str (get ev (lit "type") (VStr []))) in
      let stats_by_url :=
        _normalize_stats_map (get ev (lit "stats_by_url") VNone) in
      if negb (truthy (VDict stats_by_url)) then Returns
      else if str_eqb event_type (lit "accounts_stats_batch")
      then UpdatesAccounts stats_by_url
      else if str_eqb event_type (lit "posts_stats_batch")
      then UpdatesPosts stats_by_url
      else RaisesValueError event_type
  | _ => RaisesAttributeError
  end.

Definition failure (code : Z) (error : string) : response :=
  mkResponse code [ (lit "ok", VBool false); (lit "error", VStr (lit error)) ].

(** [parser_events_ingest], given the value of [PARSER_INTERNAL_TOKEN]
    in the environment, if set, the reading [_utc_now_iso()] of the clock,
    and the queue: the response and the queue afterwards. *)
Definition parser_events_ingest (env_token : option str) (now_iso : str)
  (req : request) (q : queue) : response * queue :=
  let expected_token :=
    strip (match env_token with Some t => t | None => [] end) in
  let incoming_token :=
    strip (match token_header req with Some t => t | None => [] end) in
  if truthy (VStr expected_token)
     && negb (str_eqb incoming_token expected_token)
  then (failure 403 "forbidden", q)
  else
    match body req with
    | None => (failure 400 "invalid_json", q)
    | Some (VDict payload) =>
        let '(payload, _) :=
          setdefault payload (lit "received_at_utc") (VStr now_iso) in
        let '((ok, reason), q) := enqueue_parser_event (VDict payload) q in
        if negb ok then
          (mkResponse (if str_eqb reason (lit "queue_full") then 429 else 400)
                      [ (lit "ok", VBool false); (lit "error", VStr reason) ],
           q)
        else
          (mkResponse 200 [ (lit "ok", VBool true);
                            (lit "status", VStr (lit "queued"));
                            (lit "queue_size", VInt (qsize q)) ],
           q)
    | Some _ => (failure 400 "invalid_payload", q)
    end.

End WithLibrary.
End ParserEventsWorker.

(* ================================================================== *)
(** ** parsers_bridge.py: stopping, restarting and the control actions *)

Module ParsersBridgeControl.
Import Py Builtins ParsersBridge ParserPostTracking.

(** What a call does to the outside: an effect of [start], the
    termination of an owned process, [kill] of a pid, the closing of a
    log stream, a pause. *)
Inductive operation :=
| Started (e : effect)
| Terminate (p : process)
| Kill (pid : Z)
| CloseLog (k : kind) (h : log_handle)
| Sleep (seconds : Z).

(** [_close_log_handle] *)
Definition _close_log_handle (k : kind) (handle : option log_handle)
  : list operation :=
  match handle with
  | None => []
  | Some h => [CloseLog k h]
  end.

(** [stop_posts_parser] *)
Definition stop_posts_parser (w : os) (s : state) : state * list operation :=
  let s := mkState (_posts_process s) (_accounts_process s)
                   (_posts_started_at s) (_accounts_started_at s)
                   (_posts_log_handle s) (_accounts_log_handle s)
                   (_watchdog_started s)
                   false (_accounts_expected_running s) in
  let '(s, terminated) :=
    match _posts_process s with
    | Some p =>
        if _is_running w (Some p)
        then (mkState None (_accounts_process s)
                      None (_accounts_started_at s)
                      (_posts_log_handle s) (_accounts_log_handle s)
                      (_watchdog_started s)
                      (_posts_expected_running s)
                      (_accounts_expected_running s),
              [Terminate p])
        else (s, [])
    | None => (s, [])
    end in
  let killed := map Kill (find_pids w Posts) in
  let closing := _close_log_handle Posts (_posts_log_handle s) in
  (mkState (_posts_process s) (_accounts_process s)
           (_posts_started_at s) (_accounts_started_at s)
           None (_accounts_log_handle s)
           (_watchdog_started s)
           (_posts_expected_running s) (_accounts_expected_running s),
   terminated ++ killed ++ closing).

(** [stop_accounts_parser] *)
Definition stop_accounts_parser (w : os) (s : state) : state * list operation :=
  let s := mkState (_posts_process s) (_accounts_process s)
                   (_posts_started_at s) (_accounts_started_at s)
                   (_posts_log_handle s) (_accounts_log_handle s)
                   (_watchdog_started s)
                   (_posts_expected_running s) false in
  let '(s, terminated) :=
    match _accounts_process s with
    | Some p =>
        if _is_running w (Some p)
        then (mkState (_posts_process s) None
                      (_posts_started_at s) None
                      (_posts_log_handle s) (_accounts_log_handle s)
                      (_watchdog_started s)
                      (_posts_expected_running s)
                      (_accounts_expected_running s),
              [Terminate p])
        else (s, [])
    | None => (s, [])
    end in
  let killed := map Kill (find_pids w Accounts) in
  let closing := _close_log_handle Accounts (_accounts_log_handle s) in
  (mkState (_posts_process s) (_accounts_process s)
           (_posts_started_at s) (_accounts_started_at s)
           (_posts_log_handle s) None
           (_watchdog_started s)
           (_posts_expected_running s) (_accounts_expected_running s),
   terminated ++ killed ++ closing).

(** [posts_parser_running] *)
Definition posts_parser_running (w : os) (s : state) : bool :=
  _is_running w (_posts_process s) || _system_has_process w Posts.

(** [accounts_parser_running] *)
Definition accounts_parser_running (w : os) (s : state) : bool :=
  _is_running w (_accounts_process s) || _system_has_process w Accounts.

(** [restart_posts_parser]: the operating system answers [w_stop] during
    the stop and [w_start] during the start, a second later. *)
Definition restart_posts_parser (w_stop w_start : os) (s : state)
  : state * list operation * option exn :=
  let '(s, stopped) := stop_posts_parser w_stop s in
  let '(s, effects, raised) := start_posts_parser w_start s in
  (s, stopped ++ [Sleep 1] ++ map Started effects, raised).

(** [restart_accounts_parser] *)
Definition restart_accounts_parser (w_stop w_start : os) (s : state)
  : state * list operation * option exn :=
  let '(s, stopped) := stop_accounts_parser w_stop s in
  let '(s, effects, raised) := start_accounts_parser w_start s in
  (s, stopped ++ [Sleep 1] ++ map Started effects, raised).

(** The answers of the operating system during the calls one control
    action makes: to the stop and to the start of each kind. *)
Record answers := mkAnswers {
  at_stop : kind -> os;
  at_start : kind -> os
}.

(** One call after another; an exception ends the sequence. *)
Definition and_then (first : state * list operation * option exn)
  (next : state -> state * list operation * option exn)
  : state * list operation * option exn :=
  let '(s, done, raised) := first in
  match raised with
  | Some e => (s, done, Some e)
  | None =>
      let '(s, more, raised) := next s in
      (s, done ++ more, raised)
  end.

Definition starting (r : state * list effect * option exn)
  : state * list operation * option exn :=
  let '(s, effects, raised) := r in (s, map Started effects, raised).

Definition stopping (r : state * list operation)
  : state * list operation * option exn :=
  let '(s, done) := r in (s, done, None).

(** [restart_parsers] *)
Definition restart_parsers (W : answers) (s : state)
  : state * list operation * option exn :=
  and_then
    (restart_accounts_parser (at_stop W Accounts) (at_start W Accounts) s)
    (restart_posts_parser (at_stop W Posts) (at_start W Posts)).

(** [control_parsers_action] *)
Definition control_parsers_action (action : str) (W : answers) (s : state)
  : state * list operation * option exn :=
  if str_eqb action (lit "start_all") then
    and_then (starting (start_accounts_parser (at_start W Accounts) s))
             (fun s => starting (start_posts_parser (at_start W Posts) s))
  else if str_eqb action (lit "stop_all") then
    and_then (stopping (stop_accounts_parser (at_stop W Accounts) s))
             (fun s => stopping (stop_posts_parser (at_stop W Posts) s))
  else if str_eqb action (lit "restart_all") then restart_parsers W s
  else if str_eqb action (lit "start_posts") then
    starting (start_posts_parser (at_start W Posts) s)
  else if str_eqb action (lit "stop_posts") then
    stopping (stop_posts_parser (at_stop W Posts) s)
  else if str_eqb action (lit "restart_posts") then
    restart_posts_parser (at_stop W Posts) (at_start W Posts) s
  else if str_eqb action (lit "start_accounts") then
    starting (start_accounts_parser (at_start W Accounts) s)
  else if str_eqb action (lit "stop_accounts") then
    stopping (stop_accounts_parser (at_stop W Accounts) s)
  else if str_eqb action (lit "restart_accounts") then
    restart_accounts_parser (at_stop W Accounts) (at_start W Accounts) s
  else (s, [], None).

Section WithLibrary.
Context {L : PyLib}.

(** [any(str(item).strip() for item in items)] for a list; [False] for
    what is not a list. *)
Definition has_item (v : value) : bool :=
  match v with
  | VList items =>
      existsb (fun item => truthy (VStr (strip (py_str item)))) items
  | _ => false
  end.

(** [_has_posts_tasks] *)
Definition _has_posts_tasks (dir : directory) : bool :=
  match dir with
  | None => false
  | Some files =>
      existsb
        (fun file =>
           match snd file with
           | None => false
           | Some data =>
               has_item (match data with
                         | VDict d => get d (lit "posts") (VList [])
                         | _ => VList []
                         end)
           end)
        files
  end.

(** [_has_accounts_tasks] *)
Definition _has_accounts_tasks (dir : directory) : bool :=
  match dir with
  | None => false
  | Some files =>
      existsb
        (fun file =>
           match snd file with
           | None => false
           | Some data =>
               has_item (match data with
                         | VDict d => get d (lit "accounts") (VList [])
                         | _ => VList []
                         end)
           end)
        files
  end.

End WithLibrary.
End ParsersBridgeControl.

(* ================================================================== *)
(** * [parsers_bridge.py]: a start in two parts

    The start functions take no lock, and two threads call them: the
    daemon thread that [_ensure_watchdog] starts runs [_watchdog_loop],
    which calls [start_posts_parser] and [start_accounts_parser]; the
    thread that serves a request runs [control_parsers_action].  Between
    the test of a call, which runs the process listing, and its [Popen]
    the other thread can run.  Each start function is cut here at its
    test: the first part sets the flag and evaluates the condition of the
    [if], the second part is the rest of the body, given what the test
    found; it reads the globals as they are when it runs. *)

Module ParsersBridgeThreads.
Import Py ParsersBridge.

(** [start_posts_parser] up to the condition of its [if]. *)
Definition start_posts_test (w : os) (s : state) : state * bool :=
  let s := mkState (_posts_process s) (_accounts_process s)
                   (_posts_started_at s) (_accounts_started_at s)
                   (_posts_log_handle s) (_accounts_log_handle s)
                   (_watchdog_started s)
                   true (_accounts_expected_running s) in
  (s, _is_running w (_posts_process s) || _system_has_process w Posts).

(** [start_posts_parser] after the test, which gave [found]. *)
Definition start_posts_rest (found : bool) (w : os) (s : state)
  : state * list effect * option exn :=
  if found then
    let s := mkState (_posts_process s) (_accounts_process s)
                     (match _posts_started_at s with
                      | None => Some (time w)
                      | Some t => Some t
                      end)
                     (_accounts_started_at s)
                     (_posts_log_handle s) (_accounts_log_handle s)
                     (_watchdog_started s)
                     (_posts_expected_running s)
                     (_accounts_expected_running s) in
    let '(s, eff) := _ensure_watchdog s in
    (s, eff, None)
  else if negb (script_exists w Posts) then (s, [], None)
  else
    let '(handle, eff_log) :=
      if log_usable (_posts_log_handle s)
      then (_posts_log_handle s, [])
      else (Some (mkLog false), [OpenLog Posts]) in
    let s := mkState (_posts_process s) (_accounts_process s)
                     (_posts_started_at s) (_accounts_started_at s)
                     handle (_accounts_log_handle s)
                     (_watchdog_started s)
                     (_posts_expected_running s)
                     (_accounts_expected_running s) in
    match popen w Posts with
    | Raise e => (s, eff_log, Some e)
    | Ok p =>
        let s := mkState (Some p) (_accounts_process s)
                         (Some (time w)) (_accounts_started_at s)
                         (_posts_log_handle s) (_accounts_log_handle s)
                         (_watchdog_started s)
                         (_posts_expected_running s)
                         (_accounts_expected_running s) in
        let '(s, eff) := _ensure_watchdog s in
        (s, eff_log ++ [Spawn Posts p] ++ eff, None)
    end.

(** [start_accounts_parser] up to the condition of its [if]. *)
Definition start_accounts_test (w : os) (s : state) : state * bool :=
  let s := mkState (_posts_process s) (_accounts_process s)
                   (_posts_started_at s) (_accounts_started_at s)
                   (_posts_log_handle s) (_accounts_log_handle s)
                   (_watchdog_started s)
                   (_posts_expected_running s) true in
  (s, _is_running w (_accounts_process s) || _system_has_process w Accounts).

(** [start_accounts_parser] after the test, which gave [found]. *)
Definition start_accounts_rest (found : bool) (w : os) (s : state)
  : state * list effect * option exn :=
  if found then
    let s := mkState (_posts_process s) (_accounts_process s)
                     (_posts_started_at s)
                     (match _accounts_started_at s with
                      | None => Some (time w)
                      | Some t => Some t
                      end)
                     (_posts_log_handle s) (_accounts_log_handle s)
                     (_watchdog_started s)
                     (_posts_expected_running s)
                     (_accounts_expected_running s) in
    let '(s, eff) := _ensure_watchdog s in
    (s, eff, None)
  else if negb (script_exists w Accounts) then (s, [], None)
  else
    let '(handle, eff_log) :=
      if log_usable (_accounts_log_handle s)
      then (_accounts_log_handle s, [])
      else (Some (mkLog false), [OpenLog Accounts]) in
    let s := mkState (_posts_process s) (_accounts_process s)
                     (_posts_started_at s) (_accounts_started_at s)
                     (_posts_log_handle s) handle
                     (_watchdog_started s)
                     (_posts_expected_running s)
                     (_accounts_expected_running s) in
    match popen w Accounts with
    | Raise e => (s, eff_log, Some e)
    | Ok p =>
        let s := mkState (_posts_process s) (Some p)
                         (_posts_started_at s) (Some (time w))
                         (_posts_log_handle s) (_accounts_log_handle s)
                         (_watchdog_started s)
                         (_posts_expected_running s)
                         (_accounts_expected_running s) in
        let '(s, eff) := _ensure_watchdog s in
        (s, eff_log ++ [Spawn Accounts p] ++ eff, None)
    end.

End ParsersBridgeThreads.

(* ================================================================== *)
(** * The vocabulary of the properties *)

(** ** Strings without whitespace at the ends *)

Module StrDefs.
Import Py.

(** A string that does not begin with whitespace. *)
Definition hd_ok (s : str) : bool :=
  match s with
  | [] => true
  | c :: _ => negb (isspace c)
  end.

(** A string with no whitespace at either end. *)
Definition clean (s : str) : bool := hd_ok s && hd_ok (rev s).

End StrDefs.

(** ** The conditions of the staleness classifier *)

Module HealthDefs.
Import Py ParsersBridge.

(** [now - t] is more than the timeout. *)
Definition exceeds (now : float) (t : option float) : Prop :=
  exists x, t = Some x
            /\ PrimFloat.ltb HEALTH_TIMEOUT_SEC (PrimFloat.sub now x) = true.

(** A start time is recorded and [now] is less than the grace period
    after it. *)
Definition in_grace (started_at : option float) (now : float) : Prop :=
  exists t, started_at = Some t /\ PrimFloat.eqb t 0 = false
            /\ PrimFloat.ltb (PrimFloat.sub now t) HEALTH_START_GRACE_SEC
               = true.

Section WithLibrary.
Context {L : PyLib}.

(** The request and response times the classifier reads off the record. *)
Definition last_request (content : option value) : option float :=
  _parse_iso_to_epoch
    (py_str (get (_read_health content) (lit "last_request_ts_utc") (VStr []))).

Definition last_response (content : option value) : option float :=
  _parse_iso_to_epoch
    (py_str (get (_read_health content) (lit "last_response_ts_utc") (VStr []))).

End WithLibrary.

(** Case analysis on the classifier's answer: splits the goal, uses up
    impossible equations between answers and options, and closes what is
    left by choosing the disjunct and the witness at hand. *)
Ltac classify_step :=
  match goal with
  | |- _ /\ _ => split
  | |- _ <-> _ => split
  | |- ~ _ => intro
  | |- _ -> _ => intro
  | H : _ /\ _ |- _ => destruct H
  | H : exists _, _ |- _ => destruct H
  | H : _ \/ _ |- _ => destruct H
  | H : Some _ = None |- _ => discriminate H
  | H : None = Some _ |- _ => discriminate H
  | H : _ :: _ = [] |- _ => discriminate H
  | H : Some _ = Some _ |- _ => injection H as H; subst
  | H : (_, _) = (_, _) |- _ => vm_compute in H; first [discriminate H | clear H]
  | H : fst (_, _) = _ |- _ => simpl in H; first [discriminate H | clear H]
  | H : ~ _ |- False => apply H; clear H
  end.

Ltac classify :=
  repeat classify_step;
  try reflexivity; try congruence; try discriminate;
  try solve [eauto 8];
  exfalso;
  match goal with H : ~ _ |- _ => solve [apply H; eauto 8] end.

End HealthDefs.

(** ** Live workers and runs of the supervisor *)

Module SupervisorDefs.
Import Py ParsersBridge ParsersBridgeThreads.

(** An instance of the kind is live: the owned handle runs, or the process
    enumeration finds the script. *)
Definition live (w : os) (s : state) (k : kind) : bool :=
  match k with
  | Posts => _is_running w (_posts_process s) || _system_has_process w Posts
  | Accounts =>
      _is_running w (_accounts_process s) || _system_has_process w Accounts
  end.

(** [t] if a start time is recorded, else the clock. *)
Definition started_or (w : os) (t : option float) : option float :=
  match t with
  | None => Some (time w)
  | Some x => Some x
  end.

Definition watchdog_effect (s : state) : list effect :=
  if _watchdog_started s then [] else [StartWatchdogThread].

(** The call of [start] for a kind. *)
Definition start (k : kind) (w : os) (s : state)
  : state * list effect * option exn :=
  match k with
  | Posts => start_posts_parser w s
  | Accounts => start_accounts_parser w s
  end.

(** The state a call of [start] leaves when an instance is live: the kind
    is expected to run, its start time is recorded if it was not, the
    watchdog is on; the process handles and log handles are untouched. *)
Definition marked (k : kind) (w : os) (s : state) : state :=
  match k with
  | Posts =>
      mkState (_posts_process s) (_accounts_process s)
              (started_or w (_posts_started_at s)) (_accounts_started_at s)
              (_posts_log_handle s) (_accounts_log_handle s)
              true true (_accounts_expected_running s)
  | Accounts =>
      mkState (_posts_process s) (_accounts_process s)
              (_posts_started_at s) (started_or w (_accounts_started_at s))
              (_posts_log_handle s) (_accounts_log_handle s)
              true (_posts_expected_running s) true
  end.

(** *** Runs of the supervisor

    The processes of the two scripts that are alive, each with its kind.
    They need not be the supervisor's: a worker outlives the server that
    launched it, and the next server finds it only through the process
    listing. *)

Definition kind_eqb (a b : kind) : bool :=
  match a, b with
  | Posts, Posts | Accounts, Accounts => true
  | _, _ => false
  end.

Definition alive := list (kind * process).

Definition of_kind (k : kind) (W : alive) : alive :=
  filter (fun kp => kind_eqb (fst kp) k) W.

Definition at_most_one (W : alive) : Prop :=
  forall k, (List.length (of_kind k W) <= 1)%nat.

(** The handle the supervisor holds for a kind. *)
Definition owned (k : kind) (s : state) : option process :=
  match k with
  | Posts => _posts_process s
  | Accounts => _accounts_process s
  end.

(** The operating system [w] lets the supervisor, whose globals are [s],
    see the live processes [W]: each of them is the handle held for its
    kind and polls as running, or has its pid in the listing of its
    script. *)
Definition shows (w : os) (s : state) (W : alive) : Prop :=
  forall k p, In (k, p) W ->
    (owned k s = Some p /\ poll w p = None) \/ In (pid p) (find_pids w k).

(** An operating system that reports exactly the live processes: a handle
    polls as running while its process is alive, and the listing of a
    script gives the live processes of its kind. *)
Definition os_of (W : alive) (script : kind -> bool) (now : float)
  (launch : kind -> result process) : os :=
  mkOs (fun p => if existsb (fun kp => pid (snd kp) =? pid p) W
                 then None else Some 0)
       (fun k => map (fun kp => pid (snd kp)) (of_kind k W))
       script now launch.

(** One step of a run in which the calls do not overlap: a whole call of
    [start], made while the operating system shows the live processes,
    after which the spawned process is alive too; or the exit of a live
    process. *)
Inductive step : alive * state -> alive * state -> Prop :=
| step_start k w W s :
    shows w s W ->
    step (W, s)
         (spawned (snd (fst (start k w s))) ++ W, fst (fst (start k w s)))
| step_exit W1 x W2 s :
    step (W1 ++ x :: W2, s) (W1 ++ W2, s).

Inductive run : alive * state -> alive * state -> Prop :=
| run_done c : run c c
| run_step c c' c'' : run c c' -> step c' c'' -> run c c''.

(** *** Calls that overlap

    The two parts of a call of [start]. *)

Definition start_test (k : kind) (w : os) (s : state) : state * bool :=
  match k with
  | Posts => start_posts_test w s
  | Accounts => start_accounts_test w s
  end.

Definition start_rest (k : kind) (found : bool) (w : os) (s : state)
  : state * list effect * option exn :=
  match k with
  | Posts => start_posts_rest found w s
  | Accounts => start_accounts_rest found w s
  end.

(** The calls that have made their test and not yet acted on it: the
    kind, and what the test found. *)
Definition calls := list (kind * bool).

(** One step of a run in which calls of [start] may overlap, against an
    operating system that reports exactly the live processes: a call makes
    its test; a call that has made its test runs the rest of its body; a
    live process exits. *)
Inductive overlap : alive * state * calls -> alive * state * calls -> Prop :=
| overlap_test k script now launch W s pending :
    overlap (W, s, pending)
            (W, fst (start_test k (os_of W script now launch) s),
             pending ++ [(k, snd (start_test k (os_of W script now launch) s))])
| overlap_rest k found script now launch W s before after :
    overlap (W, s, before ++ (k, found) :: after)
            (spawned (snd (fst (start_rest k found
                                  (os_of W script now launch) s))) ++ W,
             fst (fst (start_rest k found (os_of W script now launch) s)),
             before ++ after)
| overlap_exit W1 x W2 s pending :
    overlap (W1 ++ x :: W2, s, pending) (W1 ++ W2, s, pending).

Inductive overlap_run
  : alive * state * calls -> alive * state * calls -> Prop :=
| overlap_done c : overlap_run c c
| overlap_step c c' c'' :
    overlap_run c c' -> overlap c' c'' -> overlap_run c c''.

End SupervisorDefs.

(** ** The keys of a dictionary *)

Module DictDefs.
Import Py.

Definition keys (d : dict) : list str := map fst d.

End DictDefs.

(** ** Stable insertion sort *)

Module SortDefs.
Section Stable.
Context {A : Type} (key : A -> Z).

(** Insertion in front of the first element whose key is not smaller. *)
Fixpoint ins (x : A) (l : list A) : list A :=
  match l with
  | [] => [x]
  | y :: r => if key x <=? key y then x :: l else y :: ins x r
  end.

Definition isort (l : list A) : list A := fold_right ins [] l.

(** The elements of one key, in the order the list has them. *)
Definition cls (i : Z) (l : list A) : list A :=
  filter (fun a => key a =? i) l.

Fixpoint ordered (l : list A) : Prop :=
  match l with
  | [] => True
  | x :: r => (forall y, In y r -> key x <= key y) /\ ordered r
  end.

End Stable.

End SortDefs.

(** ** Buckets and keyed points of a timeline *)

Module TimelineDefs.
Import Py SortDefs ParserPost.

Section WithLibrary.
Context {L : PyLib}.

(** The instant a point is sorted by, and the instant a bucket key
    denotes. *)
Definition inst (p : value) : Z := DateTime.instant (sort_key p).

Definition kinst (k : str) : Z :=
  match _parse_ts k with
  | Some ts => DateTime.instant ts
  | None => 0
  end.

Definition entry_of (e : value) : list (str * value) :=
  match normalize_entry e with
  | Some kp => [kp]
  | None => []
  end.

(** The keyed points a raw timeline contributes, in its order. *)
Definition entries (l : list value) : list (str * value) :=
  flat_map entry_of l.

(** The writes [bucket[k] = point], one after the other. *)
Definition build_from (b : dict) (es : list (str * value)) : dict :=
  fold_left (fun b kp => set b (fst kp) (snd kp)) es b.

Definition kcls (i : Z) (b : list (str * value)) : list (str * value) :=
  filter (fun kp => kinst (fst kp) =? i) b.

Definition clean_metric (v : value) : value :=
  if isinstance_int v then v else VNone.

Definition point_of (k : str) (e : dict) : dict :=
  [ (lit "ts_utc", VStr k);
    (lit "views", clean_metric (get e (lit "views") VNone));
    (lit "likes", clean_metric (get e (lit "likes") VNone));
    (lit "comments", clean_metric (get e (lit "comments") VNone));
    (lit "repost", clean_metric (get e (lit "repost") VNone));
    (lit "shared", clean_metric (get e (lit "shared") VNone)) ].

(** A keyed point that normalisation leaves alone and whose key denotes
    the instant it is sorted by. *)
Definition wk (kp : str * value) : Prop :=
  normalize_entry (snd kp) = Some kp /\ inst (snd kp) = kinst (fst kp).

Definition bucket_of (l : list value) : dict := build_from [] (entries l).

(** Points of the two timelines that fall on the same instant are the
    same point once normalised. *)
Definition agree (A B : list value) : Prop :=
  forall a b ka pa kb pb,
    In a A -> In b B ->
    normalize_entry a = Some (ka, pa) ->
    normalize_entry b = Some (kb, pb) ->
    inst pa = inst pb -> pa = pb.

End WithLibrary.

End TimelineDefs.

(** ** Windows, hourly rows and histories *)

Module HistoryDefs.
Import Py ParserPost.

(** Unfolds the constants of time so that [lia] sees numbers. *)
Ltac dt_unfold :=
  unfold MSK_TZ, DateTime.leb, DateTime.ltb, DateTime.sub, DateTime.in_range,
    DateTime.hours, DateTime.MAXWALL, DateTime.DAY, DateTime.HOUR,
    DateTime.MINUTE, DateTime.SECOND, DateTime.instant in *;
  cbn [DateTime.wall DateTime.utcoffset] in *.

Ltac dt_lia := dt_unfold; lia.

(** The start of a window whose 24 hours, and their rendering in Moscow
    time, stay within the years a [datetime] can hold. *)
Definition window_ok (start : DateTime.datetime) : Prop :=
  0 <= DateTime.wall start
  /\ DateTime.wall start + DateTime.DAY < DateTime.MAXWALL
  /\ 0 <= DateTime.instant start
  /\ DateTime.instant start + DateTime.DAY + MSK_TZ < DateTime.MAXWALL.

Definition all_dicts (tl : list value) : Prop :=
  Forall (fun p => isinstance_dict p = true) tl.

Section WithLibrary.
Context {L : PyLib}.

(** The value [_value_at_time] finds, as a function of the target
    instant. *)
Fixpoint value_at (value : option Z) (tl : list Py.value) (tau : Z)
  (metric : str) : option Z :=
  match tl with
  | [] => value
  | point :: rest =>
      match point with
      | VDict p =>
          match _parse_ts (py_str (get p (lit "ts_utc") (VStr []))) with
          | None => value
          | Some ts =>
              if tau <? DateTime.instant ts then value
              else value_at
                     (match _metric_value point metric with
                      | Some current => Some current
                      | None => value
                      end) rest tau metric
          end
      | _ => value
      end
  end.

(** The wall clock of Moscow at an instant. *)
Definition msk_of (d : DateTime.datetime) : DateTime.datetime :=
  DateTime.mk (DateTime.instant d + MSK_TZ) MSK_TZ.

Definition range_text (b e : DateTime.datetime) : str :=
  format_HM (msk_of b) ++ [8211%N] ++ format_HM (msk_of e).

(** [start + timedelta(hours=h)] when it stays in range. *)
Definition plus_hours (start : DateTime.datetime) (h : Z) : DateTime.datetime :=
  DateTime.mk (DateTime.wall start + DateTime.hours h)
              (DateTime.utcoffset start).

(** The rows [_compute_hourly_metric] builds. *)
Fixpoint rows_of (hrs : list Z) (prev : Z) (tl : list value)
  (start : DateTime.datetime) (metric : str) : list value :=
  match hrs with
  | [] => []
  | h :: more =>
      let v := or_else (value_at None tl
                          (DateTime.instant start + DateTime.hours h) metric)
                       prev in
      VDict [ (lit "hour", VInt h);
              (lit "range", VStr (range_text (plus_hours start (h - 1))
                                             (plus_hours start h)));
              (lit "delta", VInt (v - prev)) ]
      :: rows_of more v tl start metric
  end.

(** The rows of the whole day for one metric. *)
Definition hourly_rows (tl : list value) (start : DateTime.datetime)
  (metric : str) : list value :=
  rows_of hours_1_24
          (or_else (value_at None tl (DateTime.instant start) metric) 0)
          tl start metric.

(** The [metrics] dictionary [_update_history_24h] builds. *)
Definition metrics_of (ms : list str) (acc : dict) (tl : list value)
  (start : DateTime.datetime) (ready_hours : Z) : dict :=
  fold_left
    (fun acc metric =>
       set acc metric
           (VList (firstn (Z.to_nat ready_hours) (hourly_rows tl start metric))))
    ms acc.

(** The history written for a window that starts at [start], read at
    [now]. *)
Definition history_at (tl : list value) (start now : DateTime.datetime)
  : dict :=
  let ready_hours := ready_hours_of (DateTime.sub now start) in
  let history : dict :=
    [ (lit "start_ts_utc", VStr (isoformat start));
      (lit "ready_hours", VInt ready_hours);
      (lit "finalized", VBool (24 <=? ready_hours));
      (lit "updated_at_utc", VStr (isoformat now));
      (lit "metrics",
       VDict (metrics_of TRACK_METRICS [] tl start ready_hours)) ] in
  if 24 <=? ready_hours
  then history ++ [ (lit "completed_at_utc",
                     VStr (isoformat (plus_hours start 24))) ]
  else history.

(** The history of a tracking record. *)
Definition history_of (tracking : dict) : dict :=
  as_dict (get tracking (lit "history_24h") VNone).

Definition history_field (tracking : dict) (k : str) : value :=
  get (history_of tracking) k VNone.

(** The [hour] and the [delta] of a row. *)
Definition row_hour (row : value) : value :=
  get (as_dict row) (lit "hour") VNone.

Definition row_delta (row : value) : value :=
  get (as_dict row) (lit "delta") VNone.

(** The hourly buckets of a window, counted from 0: bucket [k] is the
    hour that begins [k] hours after the start,
    [[start + k h, start + (k+1) h)], so that an instant falls in the
    bucket [floor (elapsed / 1h)].  Its row is the element [k] of the
    list [_compute_hourly_metric] returns, the one appended for
    [hour = k + 1]: its range begins at [end_ts - 1h = start + k h] and
    its delta is the value at [start + (k+1) h] minus the value at
    [start + k h]. *)
Definition hour_bucket_of (start ts : DateTime.datetime) : Z :=
  (DateTime.instant ts - DateTime.instant start) / DateTime.HOUR.

Definition hour_bucket (k : nat) (rows : list value) : value :=
  nth k rows VNone.

End WithLibrary.

End HistoryDefs.

(** ** An implementation of the library interface

    ISO-8601 timestamps in the form [datetime.isoformat] prints them,
    Unix time, and [repr]: the interface [PyLib] is inhabited, and the
    model runs on concrete inputs.  The properties are proved for every
    library that satisfies [PyLibLaws]; this one, narrower than Python's,
    serves to evaluate them on the examples. *)

Module Iso8601.
Import Py.

(** *** The proleptic Gregorian calendar, as [datetime] counts days *)

Definition is_leap (y : Z) : bool :=
  (y mod 4 =? 0) && (negb (y mod 100 =? 0) || (y mod 400 =? 0)).

Definition days_before_year (y : Z) : Z :=
  (y - 1) * 365 + (y - 1) / 4 - (y - 1) / 100 + (y - 1) / 400.

Definition leap_day (y : Z) : Z := if is_leap y then 1 else 0.

Definition days_in_month (y m : Z) : Z :=
  if m =? 2 then 28 + leap_day y
  else if (m =? 4) || (m =? 6) || (m =? 9) || (m =? 11) then 30
  else 31.

Definition days_before_month (y m : Z) : Z :=
  if m =? 1 then 0
  else if m =? 2 then 31
  else leap_day y +
       (if m =? 3 then 59 else if m =? 4 then 90 else if m =? 5 then 120
        else if m =? 6 then 151 else if m =? 7 then 181
        else if m =? 8 then 212 else if m =? 9 then 243
        else if m =? 10 then 273 else if m =? 11 then 304 else 334).

(** Days since 0001-01-01, which is day 0. *)
Definition days_of_ymd (y m d : Z) : Z :=
  days_before_year y + days_before_month y m + d - 1.

(** The month and the day of the month of the [n]-th day of a year. *)
Definition month_day (y n : Z) : Z * Z :=
  let f := leap_day y in
  if n <? 31 then (1, n + 1)
  else if n <? 59 + f then (2, n - 31 + 1)
  else if n <? 90 + f then (3, n - (59 + f) + 1)
  else if n <? 120 + f then (4, n - (90 + f) + 1)
  else if n <? 151 + f then (5, n - (120 + f) + 1)
  else if n <? 181 + f then (6, n - (151 + f) + 1)
  else if n <? 212 + f then (7, n - (181 + f) + 1)
  else if n <? 243 + f then (8, n - (212 + f) + 1)
  else if n <? 273 + f then (9, n - (243 + f) + 1)
  else if n <? 304 + f then (10, n - (273 + f) + 1)
  else if n <? 334 + f then (11, n - (304 + f) + 1)
  else (12, n - (334 + f) + 1).

Definition ymd_of_days (n : Z) : Z * Z * Z :=
  let n400 := n / 146097 in
  let n := n mod 146097 in
  let n100 := n / 36524 in
  let n := n mod 36524 in
  let n4 := n / 1461 in
  let n := n mod 1461 in
  let n1 := n / 365 in
  let n := n mod 365 in
  let year := n400 * 400 + n100 * 100 + n4 * 4 + n1 + 1 in
  if (n1 =? 4) || (n100 =? 4) then (year - 1, 12, 31)
  else let '(m, d) := month_day year n in (year, m, d).

Definition valid_ymd (y m d : Z) : bool :=
  (1 <=? y) && (y <=? 9999) && (1 <=? m) && (m <=? 12)
  && (1 <=? d) && (d <=? days_in_month y m).

(** *** Digits *)

Definition digit (n : Z) : N := Z.to_N (48 + n).

(** [n] as [w] decimal digits, zeros in front. *)
Fixpoint pad (w : nat) (n : Z) : str :=
  match w with
  | O => []
  | S w' => digit (n / 10 ^ Z.of_nat w') :: pad w' (n mod 10 ^ Z.of_nat w')
  end.

(** Reads exactly [w] decimal digits. *)
Fixpoint take_num (w : nat) (acc : Z) (s : str) : option (Z * str) :=
  match w with
  | O => Some (acc, s)
  | S w' =>
      match s with
      | c :: r =>
          if DateTime.is_digit c
          then take_num w' (10 * acc + (Z.of_N c - 48)) r
          else None
      | [] => None
      end
  end.

Definition expect (c : N) (s : str) : option str :=
  match s with
  | x :: r => if N.eqb x c then Some r else None
  | [] => None
  end.

(** An optional fraction of a second: a dot and six digits. *)
Definition take_fraction (s : str) : option (Z * str) :=
  match s with
  | c :: r => if (c =? 46)%N then take_num 6 0 r else Some (0, s)
  | [] => Some (0, s)
  end.

Definition print_fraction (us : Z) : str :=
  if us =? 0 then [] else 46%N :: pad 6 us.

(** *** Printing *)

Definition print_date_time (w : Z) : str :=
  let '(y, m, d) := ymd_of_days (w / DateTime.DAY) in
  let tod := w mod DateTime.DAY in
  pad 4 y ++ 45%N :: pad 2 m ++ 45%N :: pad 2 d ++ 84%N ::
  pad 2 (tod / DateTime.HOUR) ++ 58%N ::
  pad 2 ((tod / DateTime.MINUTE) mod 60) ++ 58%N ::
  pad 2 ((tod / DateTime.SECOND) mod 60) ++
  print_fraction (tod mod DateTime.SECOND).

Definition print_offset (off : Z) : str :=
  let a := Z.abs off in
  (if off <? 0 then 45%N else 43%N) ::
  pad 2 (a / DateTime.HOUR) ++ 58%N ::
  pad 2 ((a / DateTime.MINUTE) mod 60) ++
  (if a mod DateTime.MINUTE =? 0 then []
   else 58%N :: pad 2 ((a / DateTime.SECOND) mod 60)
        ++ print_fraction (a mod DateTime.SECOND)).

(** [d.isoformat()] for an aware [d]. *)
Definition iso_print (d : DateTime.datetime) : str :=
  print_date_time (DateTime.wall d) ++ print_offset (DateTime.utcoffset d).

(** *** Parsing *)

Definition obind {A B} (o : option A) (k : A -> option B) : option B :=
  match o with Some a => k a | None => None end.

Notation "' p <-- o ;;; k" := (obind o (fun p => k))
  (at level 61, p pattern, o at next level, right associativity).

Definition parse_date_time (s : str) : option (Z * str) :=
  ' (y, s) <-- take_num 4 0 s ;;; ' s <-- expect 45 s ;;;
  ' (m, s) <-- take_num 2 0 s ;;; ' s <-- expect 45 s ;;;
  ' (d, s) <-- take_num 2 0 s ;;; ' s <-- expect 84 s ;;;
  ' (hh, s) <-- take_num 2 0 s ;;; ' s <-- expect 58 s ;;;
  ' (mm, s) <-- take_num 2 0 s ;;; ' s <-- expect 58 s ;;;
  ' (ss, s) <-- take_num 2 0 s ;;;
  ' (us, s) <-- take_fraction s ;;;
  if valid_ymd y m d && (hh <? 24) && (mm <? 60) && (ss <? 60)
  then Some (days_of_ymd y m d * DateTime.DAY + hh * DateTime.HOUR
             + mm * DateTime.MINUTE + ss * DateTime.SECOND + us, s)
  else None.

Definition parse_offset_tail (s : str) : option Z :=
  match s with
  | [] => Some 0
  | _ =>
      ' s <-- expect 58 s ;;;
      ' (ss, s) <-- take_num 2 0 s ;;;
      ' (us, s) <-- take_fraction s ;;;
      match s with
      | [] => if ss <? 60 then Some (ss * DateTime.SECOND + us) else None
      | _ => None
      end
  end.

Definition parse_offset (s : str) : option Z :=
  ' (hh, s) <-- take_num 2 0 s ;;; ' s <-- expect 58 s ;;;
  ' (mm, s) <-- take_num 2 0 s ;;;
  ' rest <-- parse_offset_tail s ;;;
  if (hh <? 24) && (mm <? 60)
  then Some (hh * DateTime.HOUR + mm * DateTime.MINUTE + rest)
  else None.

(** [datetime.fromisoformat] on the renderings of [isoformat], aware or
    naive.  The other forms that Python reads (a space for the [T], a date
    alone, a time without seconds) are not read here. *)
Definition iso_parse (s : str) : option DateTime.parsed :=
  ' (w, s) <-- parse_date_time s ;;;
  match s with
  | [] => if DateTime.in_range w then Some (DateTime.Naive w) else None
  | c :: r =>
      if (c =? 43)%N || (c =? 45)%N then
        ' a <-- parse_offset r ;;;
        let d := DateTime.mk w (if (c =? 45)%N then - a else a) in
        if DateTime.valid d then Some (DateTime.Aware d) else None
      else None
  end.

(** What may follow a fraction: nothing, or a character that is not a
    dot. *)
Definition no_dot (s : str) : Prop :=
  match s with
  | c :: _ => (c =? 46)%N = false
  | [] => True
  end.

Definition offset_tail (a : Z) : str :=
  if a mod DateTime.MINUTE =? 0 then []
  else 58%N :: pad 2 ((a / DateTime.SECOND) mod 60)
       ++ print_fraction (a mod DateTime.SECOND).

(** *** The other fields of the interface *)

(** Seconds since 1970-01-01T00:00:00Z. *)
Definition EPOCH : Z := 719162 * DateTime.DAY.

Definition float_of_Z (z : Z) : float :=
  if z <? 0 then PrimFloat.opp (PrimFloat.of_uint63 (Uint63.of_Z (- z)))
  else PrimFloat.of_uint63 (Uint63.of_Z z).

(** [datetime.timestamp] of an aware datetime, computed as the double
    nearest to the count of microseconds since 1970, divided by 10^6:
    two roundings, which give Python's value on the instants of the
    examples and may differ from it in the last place far from 1970. *)
Definition unix_timestamp (d : DateTime.datetime) : float :=
  PrimFloat.div (float_of_Z (DateTime.instant d - EPOCH)) 1000000.

Fixpoint uint_digits (u : Decimal.uint) : str :=
  match u with
  | Decimal.Nil => []
  | Decimal.D0 u => 48%N :: uint_digits u
  | Decimal.D1 u => 49%N :: uint_digits u
  | Decimal.D2 u => 50%N :: uint_digits u
  | Decimal.D3 u => 51%N :: uint_digits u
  | Decimal.D4 u => 52%N :: uint_digits u
  | Decimal.D5 u => 53%N :: uint_digits u
  | Decimal.D6 u => 54%N :: uint_digits u
  | Decimal.D7 u => 55%N :: uint_digits u
  | Decimal.D8 u => 56%N :: uint_digits u
  | Decimal.D9 u => 57%N :: uint_digits u
  end.

(** [repr], as far as the examples need it: every float is rendered as
    [float], every list as [[...]] and every dict as [{...}], which are
    not Python's renderings; no example reads them. *)
Definition py_repr (v : value) : str :=
  match v with
  | VNone => lit "None"
  | VBool true => lit "True"
  | VBool false => lit "False"
  | VInt z => (if z <? 0 then [45%N] else [])
              ++ uint_digits (N.to_uint (Z.abs_N z))
  | VFloat _ => lit "float"
  | VStr s => s
  | VList _ => lit "[...]"
  | VDict _ => lit "{...}"
  end.

Definition library : PyLib :=
  Build_PyLib iso_parse iso_print unix_timestamp py_repr.

End Iso8601.

(** ** Two windows of one post *)

Module TrackingDefs.
Import Py ParserPost.

(** Two windows of one post: [late] started on 2 January and is
    finalized, [early] started on 1 January and is three hours in. *)
Definition late : value :=
  VDict [ (lit "started_at_utc", VStr (lit "2024-01-02T00:00:00+00:00"));
          (lit "history_24h",
           VDict [ (lit "ready_hours", VInt 24);
                   (lit "finalized", VBool true) ]) ].

Definition early : value :=
  VDict [ (lit "started_at_utc", VStr (lit "2024-01-01T00:00:00+00:00"));
          (lit "history_24h",
           VDict [ (lit "ready_hours", VInt 3);
                   (lit "finalized", VBool false) ]) ].

End TrackingDefs.

(** ** Concrete inputs *)

Module ExampleData.
Import Py ParserPost.

(** 2024-01-01T00:00:00+00:00 and instants after it. *)
Definition t0 : DateTime.datetime :=
  DateTime.mk (738885 * DateTime.DAY) DateTime.utc.

Definition after (d : DateTime.datetime) (delta : Z) : DateTime.datetime :=
  DateTime.mk (DateTime.wall d + delta) (DateTime.utcoffset d).

Definition point (ts : string) (views : Z) : value :=
  VDict [ (lit "ts_utc", VStr (lit ts)); (lit "views", VInt views) ].

(** The timeline of the specification's example. *)
Definition three_points : list value :=
  [ point "2024-01-01T00:00:00+00:00" 10;
    point "2024-01-01T01:10:00+00:00" 20;
    point "2024-01-01T02:10:00+00:00" 35 ].

Definition tracked : dict :=
  [ (lit "started_at_utc", VStr (lit "2024-01-01T00:00:00+00:00"));
    (lit "timeline", VList three_points) ].

Definition clock (h m sec : Z) : Z :=
  h * DateTime.HOUR + m * DateTime.MINUTE + sec * DateTime.SECOND.

(** *** Timelines *)

Definition A1 : list value := [ point "2024-01-01T00:00:00+00:00" 1 ].

Definition B1 : list value := [ point "2024-01-01T00:00:00+00:00" 2 ].

Definition B2 : list value := [ point "2024-01-01T01:10:00+00:00" 2 ].

Definition normal_point (ts : string) (views : Z) : value :=
  VDict [ (lit "ts_utc", VStr (lit ts)); (lit "views", VInt views);
          (lit "likes", VNone); (lit "comments", VNone);
          (lit "repost", VNone); (lit "shared", VNone) ].

(** *** Hourly buckets and history *)

Definition d0 : dict :=
  [ (lit "ts_utc", VStr (lit "2024-01-01T00:00:00+00:00"));
    (lit "views", VInt 10) ].

Definition d1 : dict :=
  [ (lit "ts_utc", VStr (lit "2024-01-01T01:10:00+00:00"));
    (lit "views", VInt 20) ].

Definition d2 : dict :=
  [ (lit "ts_utc", VStr (lit "2024-01-01T02:10:00+00:00"));
    (lit "views", VInt 35) ].

Definition now1 : DateTime.datetime := after t0 (clock 24 0 1).

Definition now2 : DateTime.datetime := after t0 (clock 24 0 2).

(** *** The intake queue *)

Definition empty_batch : dict :=
  [ (lit "type", VStr (lit "accounts_stats_batch"));
    (lit "stats_by_url", VDict []) ].

Definition posts_batch : value :=
  VDict [ (lit "type", VStr (lit "posts_stats_batch"));
          (lit "stats_by_url",
           VDict [ (lit "https://www.threads.com/@a/post/1",
                    VDict [ (lit "views", VInt 7) ]) ]) ].

Definition full_queue : ParserEvents.queue :=
  ParserEvents.mkQueue 2 [posts_batch; posts_batch].

(** *** The staleness classifier *)

Definition heartbeat : option value :=
  Some (VDict [ (lit "kind", VStr (lit "posts"));
                (lit "last_request_ts_utc",
                 VStr (lit "2024-01-01T00:00:00+00:00"));
                (lit "last_response_ts_utc",
                 VStr (lit "2024-01-01T00:00:00+00:00")) ]).

(** The worker started 100 s before its last request, which was at Unix
    time 1704067200. *)
Definition started : option float := Some 1704067100%float.

(** *** Starting a worker *)

Definition idle : ParsersBridge.state :=
  ParsersBridge.mkState None None None None None None false false false.

(** The enumeration finds a posts worker, pid 4242, that the supervisor
    does not own. *)
Definition world : ParsersBridge.os :=
  ParsersBridge.mkOs
    (fun _ => None)
    (fun k => match k with
              | ParsersBridge.Posts => [4242]
              | ParsersBridge.Accounts => []
              end)
    (fun _ => true)
    1704067200%float
    (fun _ => Ok (ParsersBridge.mkProcess 5000)).

(** That posts worker. *)
Definition stray : SupervisorDefs.alive :=
  [ (ParsersBridge.Posts, ParsersBridge.mkProcess 4242) ].

(** A [Popen] that succeeds and gives the process [n]. *)
Definition launches (n : Z) (k : ParsersBridge.kind)
  : result ParsersBridge.process :=
  Ok (ParsersBridge.mkProcess n).

(** The posts worker has been started and has exited, and the watchdog
    has forgotten its handle and its start time: the worker is still
    expected to run. *)
Definition after_exit : ParsersBridge.state :=
  ParsersBridge.mkState None None None None
                        (Some (ParsersBridge.mkLog false)) None
                        true true false.

(** The supervisor after two launches of the posts worker: it holds the
    second process. *)
Definition holding_second : ParsersBridge.state :=
  ParsersBridge.mkState (Some (ParsersBridge.mkProcess 5001)) None
                        (Some 1704067200%float) None
                        (Some (ParsersBridge.mkLog false)) None
                        true true false.

(** Two posts workers. *)
Definition twins : SupervisorDefs.alive :=
  [ (ParsersBridge.Posts, ParsersBridge.mkProcess 5001);
    (ParsersBridge.Posts, ParsersBridge.mkProcess 5000) ].

End ExampleData.

(** ** Points of a normalised timeline *)

Module PointDefs.
Import Py ParserPost DictDefs TimelineDefs.

Section WithLibrary.
Context {L : PyLib}.

(** The [ts_utc] of a point. *)
Definition ts_of (p : value) : value := get (as_dict p) (lit "ts_utc") VNone.

(** A point as [_normalize_timeline] writes it: a dictionary with the
    timestamp and the five metrics, in this order, the timestamp printed by
    [isoformat], each metric an [int] or [None]. *)
Definition point_shape (p : value) : Prop :=
  exists d ts,
    p = VDict d
    /\ keys d = lit "ts_utc" :: TRACK_METRICS
    /\ get d (lit "ts_utc") VNone = VStr (isoformat ts)
    /\ Forall (fun m => get d m VNone = VNone
                        \/ isinstance_int (get d m VNone) = true)
              TRACK_METRICS.

(** A point whose timestamp reads back as the datetime it is sorted by. *)
Definition stamped (p : value) : Prop :=
  exists d,
    p = VDict d
    /\ _parse_ts (py_str (get d (lit "ts_utc") (VStr []))) = Some (sort_key p).

(** The points at or before an instant. *)
Definition upto (tau : Z) (tl : list value) : list value :=
  filter (fun p => inst p <=? tau) tl.

(** The value of a metric at the last point that has one. *)
Definition last_value (tl : list value) (metric : str) : option Z :=
  fold_left
    (fun acc p =>
       match _metric_value p metric with
       | Some v => Some v
       | None => acc
       end)
    tl None.

(** A timeline that normalisation leaves as it is: its points are
    normalised, under distinct keys, in time order. *)
Definition normal (tl : list value) : Prop :=
  Forall (fun p => exists k, wk (k, p)) tl
  /\ NoDup (keys (entries tl))
  /\ SortDefs.ordered inst tl.

End WithLibrary.
End PointDefs.

(** ** The start and the timeline of a tracking record *)

Module WindowDefs.
Import Py ParserPost.

Section WithLibrary.
Context {L : PyLib}.

(** The start time a tracking record resolves to. *)
Definition start_of (tracking : dict) : option DateTime.datetime :=
  _parse_ts (py_str (get tracking (lit "started_at_utc") (VStr []))).

(** The timeline a tracking record normalises to. *)
Definition timeline_of (tracking : dict) : list value :=
  _normalize_timeline (get tracking (lit "timeline") VNone).

(** The raw points of a tracking record. *)
Definition raw_points (tracking : value) : list value :=
  match get (as_dict tracking) (lit "timeline") VNone with
  | VList l => l
  | _ => []
  end.

(** The earlier of two optional starts; the first one on a tie. *)
Definition earliest (a b : option DateTime.datetime)
  : option DateTime.datetime :=
  match a, b with
  | Some x, Some y => Some (if DateTime.ltb y x then y else x)
  | Some x, None => Some x
  | None, Some y => Some y
  | None, None => None
  end.

End WithLibrary.
End WindowDefs.

(** ** Tracking records in normal form *)

Module RecordDefs.
Import Py ParserPost.

Section WithLibrary.
Context {L : PyLib}.

(** The record [_normalize_tracking] and [_merge_tracking] write from a
    start, a timeline and a history: each entry when it is there, in this
    order. *)
Definition assemble (s : option DateTime.datetime) (tl : list value)
  (h : option value) : dict :=
  match s with
  | Some d => [(lit "started_at_utc", VStr (isoformat d))]
  | None => []
  end
  ++ match tl with
     | [] => []
     | _ => [(lit "timeline", VList tl)]
     end
  ++ match h with
     | Some x => [(lit "history_24h", x)]
     | None => []
     end.

(** The history of a record, when it is a dictionary. *)
Definition history_in (tracking : dict) : option value :=
  let history := get tracking (lit "history_24h") VNone in
  if isinstance_dict history then Some history else None.

(** The history of a record, the empty one when it has none. *)
Definition history_or_empty (tracking : dict) : value :=
  match history_in tracking with
  | Some history => history
  | None => VDict []
  end.

(** 1 for a history marked finalized, else 0. *)
Definition finalized_flag (history : value) : Z :=
  if truthy (get (as_dict history) (lit "finalized") VNone) then 1 else 0.

(** The history [_merge_tracking] prefers: the finalized one of the two;
    failing that, the one of the record with more points; failing that,
    the base's. *)
Definition preferred (base_history extra_history : value)
  (base_points extra_points : list value) : value :=
  if (finalized_flag base_history <? finalized_flag extra_history)
     || (finalized_flag base_history =? finalized_flag extra_history)
        && (Z.of_nat (List.length base_points)
            <? Z.of_nat (List.length extra_points))
  then extra_history else base_history.

(** The raw points a stored snapshot holds for [url]. *)
Definition entry_points (url : str) (kv : str * value) : list value :=
  if str_eqb (fst kv) url then
    match snd kv with
    | VDict snapshot =>
        WindowDefs.raw_points (get snapshot (lit "tracking") VNone)
    | _ => []
    end
  else [].

(** The raw points the users hold for [url], in the order of the users. *)
Definition tracked_points (url : str) (users : list (str * value))
  : list value :=
  flat_map
    (fun user =>
       match ParserPostTracking.posts_stats_of (snd user) with
       | VDict posts_stats => flat_map (entry_points url) posts_stats
       | _ => []
       end)
    users.

End WithLibrary.
End RecordDefs.

(** ** The supervisor's state, kind by kind *)

Module ControlDefs.
Import Py ParsersBridge ParsersBridgeControl.

Definition other (k : kind) : kind :=
  match k with Posts => Accounts | Accounts => Posts end.

Definition process_of (k : kind) (s : state) : option process :=
  match k with
  | Posts => _posts_process s
  | Accounts => _accounts_process s
  end.

Definition started_at_of (k : kind) (s : state) : option float :=
  match k with
  | Posts => _posts_started_at s
  | Accounts => _accounts_started_at s
  end.

Definition log_handle_of (k : kind) (s : state) : option log_handle :=
  match k with
  | Posts => _posts_log_handle s
  | Accounts => _accounts_log_handle s
  end.

Definition expected_running (k : kind) (s : state) : bool :=
  match k with
  | Posts => _posts_expected_running s
  | Accounts => _accounts_expected_running s
  end.

(** The call of [stop] and of [restart] for a kind. *)
Definition stop (k : kind) (w : os) (s : state) : state * list operation :=
  match k with
  | Posts => stop_posts_parser w s
  | Accounts => stop_accounts_parser w s
  end.

Definition restart (k : kind) (w_stop w_start : os) (s : state)
  : state * list operation * option exn :=
  match k with
  | Posts => restart_posts_parser w_stop w_start s
  | Accounts => restart_accounts_parser w_stop w_start s
  end.

(** The actions [control_parsers_action] knows. *)
Definition known_actions : list str :=
  [ lit "start_all"; lit "stop_all"; lit "restart_all";
    lit "start_posts"; lit "stop_posts"; lit "restart_posts";
    lit "start_accounts"; lit "stop_accounts"; lit "restart_accounts" ].

(** The processes a list of operations spawned. *)
Definition launched (done : list operation) : list (kind * process) :=
  flat_map (fun o => match o with
                     | Started (Spawn k p) => [(k, p)]
                     | _ => []
                     end) done.

(** The worker of kind [k] is in [s'] as it was in [s]. *)
Definition same_worker (k : kind) (s s' : state) : Prop :=
  process_of k s' = process_of k s
  /\ started_at_of k s' = started_at_of k s
  /\ log_handle_of k s' = log_handle_of k s
  /\ expected_running k s' = expected_running k s.

End ControlDefs.

(** ** The loop of [_collect_posts] *)

Module PostsDefs.
Import Py StrDefs.

(** What the loop of [_collect_posts] keeps true of [posts] and
    [seen]. *)
Definition collected (st : list str * list str) : Prop :=
  NoDup (fst st)
  /\ (forall x, In x (fst st) <-> In x (snd st))
  /\ Forall (fun v => v <> [] /\ clean v = true) (fst st).

End PostsDefs.

(** ** More concrete inputs *)

Module SampleData.
Import Py ParserPost ParserPostTracking ExampleData.

(** A window that started on 1 January, with a point two days later. *)
Definition long_tracked : dict :=
  [ (lit "started_at_utc", VStr (lit "2024-01-01T00:00:00+00:00"));
    (lit "timeline",
     VList (three_points ++ [ point "2024-01-03T00:00:00+00:00" 50 ])) ].


(** A queue of capacity 2 that holds one event. *)
Definition half_queue : ParserEvents.queue :=
  ParserEvents.mkQueue 2 [posts_batch].

(** Nothing runs; the scripts are there and [Popen] answers pid 5000. *)
Definition quiet : ParsersBridge.os :=
  ParsersBridge.mkOs
    (fun _ => None) (fun _ => []) (fun _ => true)
    1704067200%float
    (fun _ => Ok (ParsersBridge.mkProcess 5000)).

(** A user file with two posts, one of them written twice, and a blank
    item; a file that is not JSON; a file that holds a list. *)
Definition posts_of_a : list value :=
  [ VStr (lit " https://www.threads.com/@a/post/1 ");
    VStr (lit "  ");
    VStr (lit "https://www.threads.com/@a/post/1");
    VStr (lit "https://www.threads.com/@a/post/2") ].

Definition users_dir : directory :=
  Some [ (lit "a.json", Some (VDict [ (lit "posts", VList posts_of_a) ]));
         (lit "b.json", None);
         (lit "c.json", Some (VList [])) ].

(** Two users that track the same post. *)
Definition snapshot_at (ts : string) (views : Z) : value :=
  VDict [ (lit "tracking",
           VDict [ (lit "timeline", VList [ point ts views ]) ]) ].

Definition tracker (ts : string) (views : Z) : value :=
  VDict [ (lit "stats",
           VDict [ (lit "posts",
                    VDict [ (lit "https://www.threads.com/@a/post/1",
                             snapshot_at ts views) ]) ]) ].

Definition two_trackers : list (str * value) :=
  [ (lit "a.json", tracker "2024-01-01T01:10:00+00:00" 20);
    (lit "b.json", tracker "2024-01-01T00:00:00+00:00" 10) ].

End SampleData.

(* ================================================================== *)
(** * Properties *)

(** ** Strings *)

Module StrFacts.
Import Py StrDefs.

Lemma str_eqb_eq (a b : str) : str_eqb a b = true <-> a = b.
Proof.
  revert b; induction a as [|x a IH]; intros [|y b]; simpl; split;
    try congruence; try reflexivity.
  - intros H. apply andb_true_iff in H as [Hx Hab].
    apply N.eqb_eq in Hx. apply IH in Hab. now subst.
  - intros H. injection H as -> ->.
    rewrite N.eqb_refl. simpl. now apply IH.
Qed.

Lemma str_eqb_refl (a : str) : str_eqb a a = true.
Proof. now apply str_eqb_eq. Qed.

Lemma str_eqb_neq (a b : str) : str_eqb a b = false <-> a <> b.
Proof.
  split.
  - intros H E. apply str_eqb_eq in E. congruence.
  - intros H. destruct (str_eqb a b) eqn:E; [|reflexivity].
    apply str_eqb_eq in E. contradiction.
Qed.

Lemma str_eqb_sym (a b : str) : str_eqb a b = str_eqb b a.
Proof.
  destruct (str_eqb a b) eqn:E.
  - apply str_eqb_eq in E. subst. now rewrite str_eqb_refl.
  - symmetry. apply str_eqb_neq. apply str_eqb_neq in E. congruence.
Qed.

Lemma hd_ok_lstrip (s : str) : hd_ok (lstrip s) = true.
Proof.
  induction s as [|c s IH]; simpl; [reflexivity|].
  destruct (isspace c) eqn:E; [exact IH|]. simpl. now rewrite E.
Qed.

Lemma lstrip_fixed (s : str) : hd_ok s = true -> lstrip s = s.
Proof.
  destruct s as [|c s]; simpl; [reflexivity|].
  now destruct (isspace c).
Qed.

Lemma lstrip_suffix (s : str) : exists p, s = p ++ lstrip s.
Proof.
  induction s as [|c s [p IH]]; simpl.
  - now exists [].
  - destruct (isspace c).
    + exists (c :: p). simpl. now f_equal.
    + now exists [].
Qed.

Lemma hd_ok_app (a b : str) : a <> [] -> hd_ok (a ++ b) = hd_ok a.
Proof. destruct a; [congruence|reflexivity]. Qed.

Lemma clean_strip (s : str) : clean (strip s) = true.
Proof.
  unfold clean, strip, rstrip.
  rewrite rev_involutive, hd_ok_lstrip, andb_true_r.
  destruct (lstrip_suffix (rev (lstrip s))) as [p Hp].
  remember (lstrip (rev (lstrip s))) as u.
  destruct u as [|c u]; [reflexivity|].
  assert (Ht : lstrip s = rev (c :: u) ++ rev p).
  { rewrite <- rev_app_distr, <- Hp. now rewrite rev_involutive. }
  rewrite <- (hd_ok_app (rev (c :: u)) (rev p)).
  - rewrite <- Ht. apply hd_ok_lstrip.
  - simpl. now destruct (rev u).
Qed.

Lemma strip_clean (s : str) : clean s = true -> strip s = s.
Proof.
  unfold clean, strip, rstrip. intros H.
  apply andb_true_iff in H as [H1 H2].
  rewrite (lstrip_fixed s H1), (lstrip_fixed (rev s) H2).
  apply rev_involutive.
Qed.

Lemma strip_idempotent (s : str) : strip (strip s) = strip s.
Proof. apply strip_clean, clean_strip. Qed.

(** A non-blank prefix in front and a clean non-empty tail give a clean
    string. *)
Lemma clean_prefixed (p s : str) (c : N) :
  isspace c = false -> hd_ok (rev p) = true ->
  hd_ok (rev s) = true -> clean (c :: p ++ s) = true.
Proof.
  intros Hc Hp Hs. unfold clean. simpl hd_ok at 1. rewrite Hc. simpl.
  destruct s as [|x s].
  - rewrite app_nil_r. simpl rev.
    destruct (rev p) as [|y r]; simpl in *; [now rewrite Hc|exact Hp].
  - rewrite rev_app_distr.
    rewrite <- app_assoc, hd_ok_app; [exact Hs|].
    simpl. now destruct (rev s).
Qed.

Lemma hd_ok_rev_tl (c : N) (s : str) :
  hd_ok (rev (c :: s)) = true -> hd_ok (rev s) = true.
Proof.
  simpl. destruct (rev s) eqn:E; [reflexivity|]. simpl. auto.
Qed.

End StrFacts.

(** ** Account identifiers ([normalize_account]) *)

Module AccountFacts.
Import Py StrDefs StrFacts ParsersBridge.

Lemma normalize_account_clean (v : str) :
  clean v = true -> v <> [] ->
  normalize_account v =
    if startswith v (lit "http://") || startswith v (lit "https://") then v
    else lit "https://www.threads.com/@"
         ++ (if startswith v (lit "@") then tl v else v).
Proof.
  intros Hc Hne. unfold normalize_account. rewrite (strip_clean v Hc).
  destruct v; [congruence|reflexivity].
Qed.

Lemma built_url_clean (v : str) :
  hd_ok (rev v) = true ->
  clean (lit "https://www.threads.com/@" ++ v) = true.
Proof.
  intros H.
  change (lit "https://www.threads.com/@" ++ v)
    with (104%N :: lit "ttps://www.threads.com/@" ++ v).
  apply clean_prefixed; [reflexivity|reflexivity|exact H].
Qed.

Lemma normalize_account_strip (s : str) :
  normalize_account s = normalize_account (strip s).
Proof. unfold normalize_account. now rewrite strip_idempotent. Qed.

(** C10.  [normalize_account] returns the empty string exactly when its
    argument strips to the empty string, otherwise a string that begins
    with "http://" or "https://"; and applying it twice is the same as
    applying it once. *)
Theorem normalize_account_canonical (s : str) :
  (normalize_account s = [] <-> strip s = [])
  /\ (normalize_account s = []
      \/ startswith (normalize_account s) (lit "http://") = true
      \/ startswith (normalize_account s) (lit "https://") = true)
  /\ normalize_account (normalize_account s) = normalize_account s.
Proof.
  rewrite (normalize_account_strip s).
  pose proof (clean_strip s) as Hc.
  remember (strip s) as v eqn:Hv. clear Hv s.
  destruct v as [|c v]; [repeat split; auto|].
  rewrite (normalize_account_clean (c :: v) Hc) by congruence.
  destruct (startswith (c :: v) (lit "http://")
            || startswith (c :: v) (lit "https://")) eqn:Hp.
  - repeat split; try congruence.
    + apply orb_true_iff in Hp. tauto.
    + rewrite (normalize_account_clean (c :: v) Hc) by congruence.
      now rewrite Hp.
  - assert (Hr : hd_ok (rev (if startswith (c :: v) (lit "@")
                             then tl (c :: v) else c :: v)) = true).
    { apply andb_true_iff in Hc as [_ Hc].
      destruct (startswith (c :: v) (lit "@")); [|exact Hc].
      now apply hd_ok_rev_tl in Hc. }
    set (w := if startswith (c :: v) (lit "@") then tl (c :: v) else c :: v)
      in *.
    repeat split; try discriminate.
    + right; right. reflexivity.
    + rewrite normalize_account_clean;
        [reflexivity | now apply built_url_clean | discriminate].
Qed.

End AccountFacts.

(** ** The intake queue ([enqueue_parser_event]) *)

Module QueueFacts.
Import Py ParserEvents.

Section WithLibrary.
Context {L : PyLib} {LL : PyLibLaws L}.

Lemma full_at_capacity (q : queue) :
  0 < maxsize q -> qsize q = maxsize q -> full q = true.
Proof.
  intros Hpos Hsz. unfold full.
  destruct (maxsize q <=? 0) eqn:E; [lia|]. lia.
Qed.

Lemma enqueue_well_formed (e : value) (q : queue) :
  well_formed e = true ->
  enqueue_parser_event e q =
    match put_nowait q e with
    | Ok q' => ((true, lit "queued"), q')
    | Raise _ => ((false, lit "queue_full"), q)
    end.
Proof.
  destruct e as [ | | | | | |ev]; try discriminate. simpl.
  intros H. apply andb_true_iff in H as [Ht Hs].
  now rewrite Ht, Hs.
Qed.

Lemma enqueue_full (e : value) (q : queue) :
  well_formed e = true -> full q = true ->
  enqueue_parser_event e q = ((false, lit "queue_full"), q).
Proof.
  intros Hw Hf. rewrite (enqueue_well_formed e q Hw).
  unfold put_nowait. now rewrite Hf.
Qed.

Lemma submit_all_full (es : list value) (q : queue) :
  full q = true -> forallb well_formed es = true ->
  submit_all es q = (map (fun _ => (false, lit "queue_full")) es, q).
Proof.
  intros Hf. induction es as [|e es IH]; simpl; [reflexivity|].
  intros H. apply andb_true_iff in H as [He Hes].
  rewrite (enqueue_full e q He Hf), (IH Hes). reflexivity.
Qed.

Lemma get_item_makes_room (q q' : queue) (e : value) :
  0 < maxsize q -> qsize q = maxsize q ->
  get_item q = Some (e, q') -> full q' = false.
Proof.
  unfold get_item, full, qsize. destruct q as [m its]; simpl.
  intros Hpos Hsz. destruct its as [|x rest]; [discriminate|].
  intros H. injection H as _ <-. simpl in *.
  destruct (m <=? 0); [reflexivity|]. lia.
Qed.

End WithLibrary.

(** C6.  An event of a recognized batch type whose [stats_by_url]
    normalizes to the empty map is answered [(False, "empty_stats")], and
    the queue is left as it was: nothing is put in it and its depth is the
    same. *)
Theorem empty_stats_rejected `{PyLib} (ev : dict) (q : queue) :
  recognized_type (strip (py_str (get ev (lit "type") (VStr [])))) = true ->
  _normalize_stats_map (get ev (lit "stats_by_url") VNone) = [] ->
  enqueue_parser_event (VDict ev) q = ((false, lit "empty_stats"), q)
  /\ qsize (snd (enqueue_parser_event (VDict ev) q)) = qsize q.
Proof.
  intros Ht Hs.
  assert (E : enqueue_parser_event (VDict ev) q
              = ((false, lit "empty_stats"), q)).
  { unfold enqueue_parser_event. now rewrite Ht, Hs. }
  now rewrite E.
Qed.

(** C7.  With a queue of capacity [N > 0] that already holds [N] events,
    every submission of a well-formed event, however many follow one
    another, is answered [(False, "queue_full")] and leaves the queue as
    it was; once the consumer has taken an item, the next well-formed
    submission is queued. *)
Theorem queue_full_until_drained `{PyLib} (N : Z) (q : queue) :
  0 < N -> maxsize q = N -> qsize q = N ->
  (forall es, forallb well_formed es = true ->
     submit_all es q = (map (fun _ => (false, lit "queue_full")) es, q))
  /\ (forall e q' e', get_item q = Some (e, q') -> well_formed e' = true ->
        enqueue_parser_event e' q'
        = ((true, lit "queued"), mkQueue N (items q' ++ [e']))).
Proof.
  intros Hpos Hm Hsz. split.
  - intros es Hes. apply submit_all_full; [|exact Hes].
    apply full_at_capacity; lia.
  - intros e q' e' Hget Hw.
    rewrite (enqueue_well_formed e' q' Hw). unfold put_nowait.
    rewrite (get_item_makes_room q q' e) by (try exact Hget; lia).
    unfold get_item in Hget. destruct (items q); [discriminate|].
    injection Hget as _ <-. simpl. now rewrite Hm.
Qed.

End QueueFacts.

(** ** The staleness classifier ([_health_stale]) *)

Module HealthFacts.
Import Py ParsersBridge HealthDefs.

Section WithLibrary.
Context {L : PyLib} {LL : PyLibLaws L}.

Lemma health_stale_in_grace content started_at now :
  in_grace started_at now -> _health_stale content started_at now = (false, []).
Proof.
  intros (t & -> & Ht & Hlt). unfold _health_stale. simpl.
  now rewrite Ht, Hlt.
Qed.

Lemma health_stale_after_grace content started_at now :
  ~ in_grace started_at now ->
  _health_stale content started_at now =
    match _read_health content with
    | [] => (true, lit "health_missing")
    | _ =>
        match last_request content with
        | None => (true, lit "no_request")
        | Some req =>
            if PrimFloat.ltb HEALTH_TIMEOUT_SEC (PrimFloat.sub now req)
            then (true, lit "request_timeout")
            else
              match last_response content with
              | None => (true, lit "no_response")
              | Some resp =>
                  if PrimFloat.ltb HEALTH_TIMEOUT_SEC (PrimFloat.sub now resp)
                  then (true, lit "response_timeout")
                  else (false, [])
              end
        end
    end.
Proof.
  intros Hg. unfold _health_stale.
  destruct (truthy_time started_at
            && PrimFloat.ltb
                 (PrimFloat.sub now
                    match started_at with Some t => t | None => 0%float end)
                 HEALTH_START_GRACE_SEC) eqn:E; [|reflexivity].
  exfalso. apply Hg. apply andb_true_iff in E as [E1 E2].
  destruct started_at as [t|]; [|discriminate].
  exists t. repeat split; [|exact E2].
  simpl in E1. now destruct (PrimFloat.eqb t 0).
Qed.

End WithLibrary.

(** C4.  Within the grace period after a recorded start the classifier
    answers not stale, with an empty reason, whatever the record holds.
    Otherwise it answers stale exactly when the record is unreadable or
    empty, or holds no request time, or the request is older than the
    timeout, or holds no response time, or the response is older than the
    timeout; each answer carries the reason of the first of these that
    applies, and a record that is not stale carries the empty reason. *)
Theorem health_stale_classification `{PyLib} (content : option value)
  (started_at : option float) (now : float) :
  (in_grace started_at now ->
     _health_stale content started_at now = (false, []))
  /\ (~ in_grace started_at now ->
      let r := _health_stale content started_at now in
      (fst r = true <->
         _read_health content = []
         \/ last_request content = None
         \/ exceeds now (last_request content)
         \/ last_response content = None
         \/ exceeds now (last_response content))
      /\ (r = (true, lit "health_missing") <-> _read_health content = [])
      /\ (r = (true, lit "no_request") <->
            _read_health content <> [] /\ last_request content = None)
      /\ (r = (true, lit "request_timeout") <->
            _read_health content <> [] /\ exceeds now (last_request content))
      /\ (r = (true, lit "no_response") <->
            _read_health content <> []
            /\ (exists x, last_request content = Some x)
            /\ ~ exceeds now (last_request content)
            /\ last_response content = None)
      /\ (r = (true, lit "response_timeout") <->
            _read_health content <> []
            /\ (exists x, last_request content = Some x)
            /\ ~ exceeds now (last_request content)
            /\ exceeds now (last_response content))
      /\ (fst r = false -> r = (false, []))).
Proof.
  split; [apply health_stale_in_grace|].
  intros Hg r. subst r. rewrite (health_stale_after_grace _ _ _ Hg).
  clear Hg. unfold exceeds.
  destruct (_read_health content) as [|kv h] eqn:Eh;
    [|destruct (last_request content) as [req|] eqn:Ereq;
      [destruct (PrimFloat.ltb HEALTH_TIMEOUT_SEC (PrimFloat.sub now req))
         eqn:Er;
       [|destruct (last_response content) as [resp|] eqn:Eresp;
         [destruct (PrimFloat.ltb HEALTH_TIMEOUT_SEC (PrimFloat.sub now resp))
            eqn:Ep|]]|]];
    classify.
Qed.

End HealthFacts.

(** ** Starting a worker ([start_posts_parser], [start_accounts_parser]) *)

Module SupervisorFacts.
Import Py ParsersBridge ParsersBridgeThreads SupervisorDefs.

Lemma start_posts_live (w : os) (s : state) :
  live w s Posts = true ->
  start_posts_parser w s =
    (mkState (_posts_process s) (_accounts_process s)
             (started_or w (_posts_started_at s)) (_accounts_started_at s)
             (_posts_log_handle s) (_accounts_log_handle s)
             true true (_accounts_expected_running s),
     watchdog_effect s, None).
Proof.
  unfold live, start_posts_parser, watchdog_effect, _ensure_watchdog.
  cbn [_posts_process _accounts_process _posts_started_at
       _accounts_started_at _posts_log_handle _accounts_log_handle
       _watchdog_started _posts_expected_running _accounts_expected_running].
  intros ->. unfold started_or.
  now destruct (_watchdog_started s), (_posts_started_at s).
Qed.

Lemma start_accounts_live (w : os) (s : state) :
  live w s Accounts = true ->
  start_accounts_parser w s =
    (mkState (_posts_process s) (_accounts_process s)
             (_posts_started_at s) (started_or w (_accounts_started_at s))
             (_posts_log_handle s) (_accounts_log_handle s)
             true (_posts_expected_running s) true,
     watchdog_effect s, None).
Proof.
  unfold live, start_accounts_parser, watchdog_effect, _ensure_watchdog.
  cbn [_posts_process _accounts_process _posts_started_at
       _accounts_started_at _posts_log_handle _accounts_log_handle
       _watchdog_started _posts_expected_running _accounts_expected_running].
  intros ->. unfold started_or.
  now destruct (_watchdog_started s), (_accounts_started_at s).
Qed.

Lemma spawned_watchdog (s : state) : spawned (watchdog_effect s) = [].
Proof. unfold watchdog_effect. now destruct (_watchdog_started s). Qed.

Lemma start_spawns_only_when_down (k : kind) (w : os) (s : state) :
  spawned (snd (fst (start k w s))) <> [] -> live w s k = false.
Proof.
  intros Hs. destruct (live w s k) eqn:E; [|reflexivity].
  exfalso. apply Hs. destruct k; simpl.
  - rewrite (start_posts_live w s E). apply spawned_watchdog.
  - rewrite (start_accounts_live w s E). apply spawned_watchdog.
Qed.

Lemma spawned_app (a b : list effect) :
  spawned (a ++ b) = spawned a ++ spawned b.
Proof. unfold spawned. apply flat_map_app. Qed.

Lemma start_spawns_at_most_one (k : kind) (w : os) (s : state) :
  spawned (snd (fst (start k w s))) = []
  \/ (live w s k = false
      /\ exists p, spawned (snd (fst (start k w s))) = [(k, p)]).
Proof.
  destruct (live w s k) eqn:Hl.
  - left. destruct k; simpl;
      [rewrite (start_posts_live w s Hl) | rewrite (start_accounts_live w s Hl)];
      apply spawned_watchdog.
  - destruct k; simpl in *; unfold start_posts_parser, start_accounts_parser;
      cbn [_posts_process _accounts_process _posts_started_at
           _accounts_started_at _posts_log_handle _accounts_log_handle
           _watchdog_started _posts_expected_running
           _accounts_expected_running];
      rewrite Hl.
    + destruct (script_exists w Posts); simpl; [|now left].
      destruct (log_usable (_posts_log_handle s));
        (destruct (popen w Posts) as [p|e]; [|now left]);
        right; (split; [reflexivity|]); exists p;
        unfold _ensure_watchdog; simpl;
        now destruct (_watchdog_started s).
    + destruct (script_exists w Accounts); simpl; [|now left].
      destruct (log_usable (_accounts_log_handle s));
        (destruct (popen w Accounts) as [p|e]; [|now left]);
        right; (split; [reflexivity|]); exists p;
        unfold _ensure_watchdog; simpl;
        now destruct (_watchdog_started s).
Qed.

Lemma of_kind_app (k : kind) (A B : alive) :
  of_kind k (A ++ B) = of_kind k A ++ of_kind k B.
Proof. apply filter_app. Qed.

Lemma in_of_kind (k : kind) (p : process) (W : alive) :
  In (k, p) W -> In (k, p) (of_kind k W).
Proof.
  intros Hin. apply filter_In. split; [exact Hin|]. now destruct k.
Qed.

Lemma of_kind_in (k : kind) (x : kind * process) (W : alive) :
  In x (of_kind k W) -> exists p, x = (k, p) /\ In (k, p) W.
Proof.
  intros Hin. apply filter_In in Hin. destruct Hin as [Hin Ek].
  destruct x as [k' p]. simpl in Ek.
  assert (k' = k) as -> by (destruct k', k; simpl in Ek; congruence).
  now exists p.
Qed.

(** A live process that the operating system shows is detected by the
    test of [start]: through [_is_running] when it is the owned handle,
    through [_system_has_process] when it is listed. *)
Lemma shown_is_live (k : kind) (w : os) (s : state) (W : alive) :
  shows w s W -> of_kind k W <> [] -> live w s k = true.
Proof.
  intros Hsh Hne.
  destruct (of_kind k W) as [|x rest] eqn:E; [congruence|].
  destruct (of_kind_in k x W) as (p & -> & Hin); [rewrite E; now left|].
  destruct (Hsh k p Hin) as [[Ho Hp]|Hl].
  - destruct k; simpl in *; unfold _is_running; rewrite Ho, Hp; reflexivity.
  - assert (Hs : _system_has_process w k = true).
    { unfold _system_has_process. now destruct (find_pids w k). }
    destruct k; simpl; rewrite Hs; apply orb_true_r.
Qed.

Lemma os_of_shows (W : alive) script now launch (s : state) :
  shows (os_of W script now launch) s W.
Proof.
  intros k p Hin. right. simpl.
  apply (in_map (fun kp => pid (snd kp)) (of_kind k W) (k, p)).
  now apply in_of_kind.
Qed.

Lemma start_keeps_at_most_one (k : kind) (w : os) (s : state) (W : alive) :
  shows w s W -> at_most_one W ->
  at_most_one (spawned (snd (fst (start k w s))) ++ W).
Proof.
  intros Hsh Hinv k'. rewrite of_kind_app.
  destruct (start_spawns_at_most_one k w s) as [->|(Hl & p & ->)];
    [apply Hinv|].
  simpl. destruct (kind_eqb k k') eqn:Ek; simpl; [|apply Hinv].
  assert (k = k') as <- by (destruct k, k'; simpl in Ek; congruence).
  destruct (of_kind k W) as [|x rest] eqn:E; [simpl; lia|].
  assert (Hlive : live w s k = true).
  { apply (shown_is_live k w s W Hsh). rewrite E. discriminate. }
  congruence.
Qed.

Lemma step_keeps_at_most_one (c c' : alive * state) :
  step c c' -> at_most_one (fst c) -> at_most_one (fst c').
Proof.
  intros Hstep Hinv. destruct Hstep as [k w W s Hsh|W1 x W2 s]; simpl in *.
  - now apply start_keeps_at_most_one.
  - intros k'. specialize (Hinv k'). rewrite of_kind_app in *.
    simpl in Hinv. rewrite length_app in *.
    destruct (kind_eqb (fst x) k'); simpl in Hinv; lia.
Qed.

Lemma run_keeps_at_most_one (c c' : alive * state) :
  run c c' -> at_most_one (fst c) -> at_most_one (fst c').
Proof.
  induction 1 as [c|c c' c'' _ IH Hstep]; intros Hinv.
  - exact Hinv.
  - apply (step_keeps_at_most_one c' c'' Hstep). now apply IH.
Qed.

(** A call of [start] is its test followed at once by the rest of its
    body. *)
Lemma start_in_two_parts (k : kind) (w : os) (s : state) :
  start k w s
  = start_rest k (snd (start_test k w s)) w (fst (start_test k w s)).
Proof. destruct k; reflexivity. Qed.

(** A step of a run without overlap is two steps of a run with overlap,
    the test and the rest, with nothing between them. *)
Lemma whole_call_overlap (k : kind) script now launch (W : alive)
  (s : state) :
  overlap_run (W, s, [])
    (spawned (snd (fst (start k (os_of W script now launch) s))) ++ W,
     fst (fst (start k (os_of W script now launch) s)), []).
Proof.
  rewrite start_in_two_parts.
  eapply overlap_step; [eapply overlap_step; [apply overlap_done|]|].
  - apply (overlap_test k script now launch W s []).
  - apply (overlap_rest k _ script now launch W _ [] []).
Qed.

(** Two calls of [start] for the same kind that overlap: both make their
    test, then both run the rest of their body. *)
Lemma overlapping_calls (k : kind) script now launch1 launch2 (W : alive)
  (s : state) :
  let w1 := os_of W script now launch1 in
  let t1 := start_test k w1 s in
  let t2 := start_test k w1 (fst t1) in
  let r1 := start_rest k (snd t1) w1 (fst t2) in
  let W1 := spawned (snd (fst r1)) ++ W in
  let r2 := start_rest k (snd t2) (os_of W1 script now launch2)
                       (fst (fst r1)) in
  overlap_run (W, s, []) (spawned (snd (fst r2)) ++ W1, fst (fst r2), []).
Proof.
  intros w1 t1 t2 r1 W1 r2.
  apply (overlap_step _ (W1, fst (fst r1), [(k, snd t2)]));
    [apply (overlap_step _ (W, fst t2, [(k, snd t1); (k, snd t2)]));
       [apply (overlap_step _ (W, fst t1, [(k, snd t1)]));
          [apply (overlap_step _ (W, s, [])); [apply overlap_done|]|]|]|].
  - exact (overlap_test k script now launch1 W s []).
  - exact (overlap_test k script now launch1 W (fst t1) [(k, snd t1)]).
  - exact (overlap_rest k (snd t1) script now launch1 W (fst t2)
                        [] [(k, snd t2)]).
  - exact (overlap_rest k (snd t2) script now launch2 W1 (fst (fst r1))
                        [] []).
Qed.

(** C5 (amended).  When an instance of the kind is live, seen through the
    owned handle or through the process enumeration, [start] spawns no
    process and raises nothing: it marks the kind as expected to run,
    records the clock as start time if none is recorded, and makes sure
    the watchdog thread is on.  So a call of [start] made while the
    operating system shows the live processes, owned or not, leaves at
    most one instance of each kind alive if there was at most one; and in
    every run of such calls and of process exits, none overlapping
    another, that begins with at most one instance of each kind, at most
    one instance of each kind is alive at the end. *)
Theorem start_while_live (k : kind) (w : os) (s : state) :
  (live w s k = true ->
     start k w s = (marked k w s, watchdog_effect s, None)
     /\ spawned (snd (fst (start k w s))) = [])
  /\ (forall W, shows w s W -> at_most_one W ->
        at_most_one (spawned (snd (fst (start k w s))) ++ W))
  /\ (forall c c', at_most_one (fst c) -> run c c' -> at_most_one (fst c')).
Proof.
  split; [|split].
  - intros Hl.
    assert (E : start k w s = (marked k w s, watchdog_effect s, None)).
    { destruct k; simpl.
      - now apply start_posts_live.
      - now apply start_accounts_live. }
    split; [exact E|]. rewrite E. apply spawned_watchdog.
  - intros W Hsh Hinv. now apply start_keeps_at_most_one.
  - intros c c' Hinv Hrun. exact (run_keeps_at_most_one c c' Hrun Hinv).
Qed.

End SupervisorFacts.

(** ** Timestamps ([_parse_ts]) *)

Module ParseFacts.
Import Py StrDefs StrFacts ParserPost.

Lemma digit_not_space (c : N) :
  DateTime.is_digit c = true -> isspace c = false.
Proof.
  unfold DateTime.is_digit, isspace. intros H.
  apply andb_true_iff in H as [H1 H2].
  apply N.leb_le in H1, H2.
  repeat (apply orb_false_iff; split);
    try (apply andb_false_iff);
    try (apply N.eqb_neq; lia);
    try (right; apply N.leb_gt; lia);
    try (left; apply N.leb_gt; lia).
Qed.

Lemma hd_rev_last (s : str) (c : N) : hd c (rev s) = last s c.
Proof.
  induction s as [|x s IH] using rev_ind; [reflexivity|].
  rewrite rev_app_distr, last_last. reflexivity.
Qed.

Lemma iso_shape_clean (s : str) :
  DateTime.iso_shape s = true -> clean s = true.
Proof.
  unfold DateTime.iso_shape, clean. destruct s as [|a s]; [discriminate|].
  intros H. apply andb_true_iff in H as [Ha Hl].
  apply digit_not_space in Ha, Hl.
  cbn [hd_ok]. rewrite Ha. cbn [negb andb].
  pose proof (hd_rev_last (a :: s) 0%N) as E.
  destruct (rev (a :: s)) as [|y r] eqn:Er.
  - reflexivity.
  - cbn [hd] in E. subst y. cbn [hd_ok]. now rewrite Hl.
Qed.

Lemma iso_shape_no_Z (s : str) :
  DateTime.iso_shape s = true -> endswith s (lit "Z") = false.
Proof.
  unfold DateTime.iso_shape, endswith. destruct s as [|a s]; [discriminate|].
  intros H. apply andb_true_iff in H as [_ Hl].
  pose proof (hd_rev_last (a :: s) 0%N) as E.
  destruct (rev (a :: s)) as [|y r] eqn:Er; [reflexivity|].
  cbn [hd] in E. subst y.
  cbn [lit list_ascii_of_string map rev app startswith].
  destruct (N.eqb_spec (N_of_ascii "Z") (last (a :: s) 0%N)) as [E|E];
    [|reflexivity].
  rewrite <- E in Hl. discriminate.
Qed.

Section WithLibrary.
Context {L : PyLib} {LL : PyLibLaws L}.

Lemma parse_ts_isoformat (d : DateTime.datetime) :
  DateTime.valid d = true -> _parse_ts (isoformat d) = Some d.
Proof.
  intros Hv. unfold _parse_ts.
  pose proof (isoformat_shape d Hv) as Hs.
  rewrite (iso_shape_no_Z _ Hs), (fromisoformat_isoformat d Hv).
  destruct (isoformat d); [discriminate|reflexivity].
Qed.

Lemma parse_ts_valid (s : str) (d : DateTime.datetime) :
  _parse_ts s = Some d -> DateTime.valid d = true.
Proof.
  unfold _parse_ts. destruct s as [|c s]; [discriminate|].
  destruct (fromisoformat _) as [[w|d']|] eqn:E; try discriminate;
    intros H; injection H as <-; apply fromisoformat_valid in E; simpl in E.
  - unfold DateTime.valid. simpl. now rewrite E.
  - exact E.
Qed.

Lemma strip_isoformat (d : DateTime.datetime) :
  DateTime.valid d = true -> strip (isoformat d) = isoformat d.
Proof.
  intros Hv. apply strip_clean, iso_shape_clean, isoformat_shape, Hv.
Qed.

Lemma isoformat_nonempty (d : DateTime.datetime) :
  DateTime.valid d = true -> isoformat d <> [].
Proof.
  intros Hv E. pose proof (isoformat_shape d Hv) as Hs.
  rewrite E in Hs. discriminate.
Qed.

Lemma isoformat_injective (a b : DateTime.datetime) :
  DateTime.valid a = true -> DateTime.valid b = true ->
  isoformat a = isoformat b -> a = b.
Proof.
  intros Ha Hb E. pose proof (parse_ts_isoformat a Ha) as Pa.
  rewrite E, (parse_ts_isoformat b Hb) in Pa. congruence.
Qed.

End WithLibrary.

End ParseFacts.

(** ** Dictionaries *)

Module DictFacts.
Import Py StrDefs StrFacts DictDefs.

Lemma lookup_set_same (d : dict) k v : lookup (set d k v) k = Some v.
Proof.
  induction d as [|[k' v'] d IH]; simpl.
  - now rewrite str_eqb_refl.
  - destruct (str_eqb k k') eqn:E; simpl; rewrite E; auto.
Qed.

Lemma lookup_set_other (d : dict) k k' v :
  k <> k' -> lookup (set d k v) k' = lookup d k'.
Proof.
  intros Hne. induction d as [|[k0 v0] d IH]; simpl.
  - assert (str_eqb k' k = false) as -> by (apply str_eqb_neq; congruence).
    reflexivity.
  - destruct (str_eqb k k0) eqn:E; simpl.
    + apply str_eqb_eq in E. subst k0.
      assert (str_eqb k' k = false) as -> by (apply str_eqb_neq; congruence).
      reflexivity.
    + now rewrite IH.
Qed.

Lemma get_set_same (d : dict) k v dflt : get (set d k v) k dflt = v.
Proof. unfold get. now rewrite lookup_set_same. Qed.

Lemma get_set_other (d : dict) k k' v dflt :
  k <> k' -> get (set d k v) k' dflt = get d k' dflt.
Proof. intros H. unfold get. now rewrite lookup_set_other. Qed.

Lemma set_set (d : dict) k v v' : set (set d k v) k v' = set d k v'.
Proof.
  induction d as [|[k0 v0] d IH]; simpl.
  - now rewrite str_eqb_refl.
  - destruct (str_eqb k k0) eqn:E; simpl; rewrite E; [reflexivity|].
    now rewrite IH.
Qed.

Lemma lookup_None_keys (d : dict) k : lookup d k = None <-> ~ In k (keys d).
Proof.
  induction d as [|[k0 v0] d IH]; simpl; [tauto|].
  destruct (str_eqb k k0) eqn:E.
  - apply str_eqb_eq in E. subst. split; [discriminate|tauto].
  - apply str_eqb_neq in E. rewrite IH. split; [|tauto].
    intros H [H'|H']; [congruence|tauto].
Qed.

Lemma set_absent (d : dict) k v : ~ In k (keys d) -> set d k v = d ++ [(k, v)].
Proof.
  induction d as [|[k0 v0] d IH]; simpl; [reflexivity|].
  intros H. destruct (str_eqb k k0) eqn:E.
  - apply str_eqb_eq in E. subst. tauto.
  - rewrite IH; tauto.
Qed.

Lemma set_same (d : dict) k v : lookup d k = Some v -> set d k v = d.
Proof.
  induction d as [|[k0 v0] d IH]; simpl; [discriminate|].
  destruct (str_eqb k k0) eqn:E.
  - intros H. injection H as ->. reflexivity.
  - intros H. now rewrite IH.
Qed.

Lemma keys_set (d : dict) k v :
  keys (set d k v) = if existsb (str_eqb k) (keys d) then keys d
                     else keys d ++ [k].
Proof.
  induction d as [|[k0 v0] d IH]; simpl; [reflexivity|].
  destruct (str_eqb k k0) eqn:E; simpl; [reflexivity|].
  rewrite IH. now destruct (existsb (str_eqb k) (keys d)).
Qed.

Lemma in_keys_set (d : dict) k v k' :
  In k' (keys (set d k v)) <-> k' = k \/ In k' (keys d).
Proof.
  rewrite keys_set. destruct (existsb (str_eqb k) (keys d)) eqn:E.
  - split; [tauto|]. intros [->|H]; [|exact H].
    apply existsb_exists in E as (x & Hx & Ex).
    apply str_eqb_eq in Ex. now subst.
  - rewrite in_app_iff. simpl. intuition congruence.
Qed.

Lemma NoDup_keys_set (d : dict) k v :
  NoDup (keys d) -> NoDup (keys (set d k v)).
Proof.
  intros H. rewrite keys_set.
  destruct (existsb (str_eqb k) (keys d)) eqn:E; [exact H|].
  apply NoDup_app; [exact H|repeat constructor; simpl; tauto|].
  intros x Hx [Ek|[]]. subst x.
  assert (existsb (str_eqb k) (keys d) = true); [|congruence].
  apply existsb_exists. exists k. split; [exact Hx|apply str_eqb_refl].
Qed.

Lemma in_set (d : dict) k v kp :
  In kp (set d k v) -> kp = (k, v) \/ In kp d.
Proof.
  induction d as [|[k0 v0] d IH]; simpl.
  - intros [<-|[]]. now left.
  - destruct (str_eqb k k0) eqn:E; simpl.
    + apply str_eqb_eq in E. subst. intros [<-|H]; auto.
    + intros [<-|H]; auto. destruct (IH H); auto.
Qed.

(** Writes to different keys commute once the first key is present. *)
Lemma set_comm (d : dict) k v k' v' :
  k <> k' -> In k (keys d) ->
  set (set d k v) k' v' = set (set d k' v') k v.
Proof.
  intros Hne. induction d as [|[k0 v0] d IH]; simpl; [tauto|].
  intros Hin.
  destruct (str_eqb k k0) eqn:E, (str_eqb k' k0) eqn:E'; simpl;
    rewrite ?E, ?E'; try reflexivity.
  - apply str_eqb_eq in E, E'. congruence.
  - f_equal. apply IH. destruct Hin as [H|H]; [|exact H].
    apply str_eqb_neq in E. congruence.
Qed.

End DictFacts.

(** ** Stable sorting *)

Module SortFacts.
Import SortDefs.

Section Stable.
Context {A : Type} (key : A -> Z).

#[local] Abbreviation ins := (SortDefs.ins key).
#[local] Abbreviation isort := (SortDefs.isort key).
#[local] Abbreviation cls := (SortDefs.cls key).
#[local] Abbreviation ordered := (SortDefs.ordered key).

Lemma cls_app i l1 l2 : cls i (l1 ++ l2) = cls i l1 ++ cls i l2.
Proof. apply filter_app. Qed.

Lemma cls_ins i x l :
  cls i (ins x l) = if key x =? i then x :: cls i l else cls i l.
Proof.
  induction l as [|y r IH]; simpl.
  - reflexivity.
  - destruct (Z.leb_spec (key x) (key y)) as [Hle|Hlt]; simpl.
    + reflexivity.
    + rewrite IH.
      destruct (Z.eqb_spec (key x) i) as [Ex|Ex]; [|reflexivity].
      destruct (Z.eqb_spec (key y) i) as [Ey|Ey]; [lia|reflexivity].
Qed.

(** Stability: sorting keeps the order among the elements of one key. *)
Lemma cls_isort i l : cls i (isort l) = cls i l.
Proof.
  induction l as [|x l IH]; simpl; [reflexivity|].
  rewrite cls_ins, IH. reflexivity.
Qed.

Lemma in_ins x y l : In y (ins x l) <-> y = x \/ In y l.
Proof.
  induction l as [|z r IH]; simpl.
  - intuition.
  - destruct (key x <=? key z); simpl; [intuition|].
    rewrite IH. intuition.
Qed.

Lemma ordered_ins x l : ordered l -> ordered (ins x l).
Proof.
  induction l as [|y r IH]; simpl.
  - intros _. split; [intros y []|exact I].
  - intros [Hy Hr].
    destruct (Z.leb_spec (key x) (key y)) as [Hle|Hlt]; simpl.
    + split; [|split; assumption].
      intros z [<-|Hz]; [exact Hle|]. specialize (Hy z Hz). lia.
    + split; [|apply IH, Hr].
      intros z Hz. apply in_ins in Hz as [->|Hz]; [lia|now apply Hy].
Qed.

Lemma ordered_isort l : ordered (isort l).
Proof.
  induction l as [|x l IH]; simpl; [exact I|]. now apply ordered_ins.
Qed.

Lemma cls_nil_all l : (forall i, cls i l = []) -> l = [].
Proof.
  destruct l as [|x l]; [reflexivity|]. intros H.
  specialize (H (key x)). simpl in H. rewrite Z.eqb_refl in H. discriminate.
Qed.

Lemma in_cls i x l : In x (cls i l) <-> In x l /\ key x = i.
Proof. unfold cls. rewrite filter_In, Z.eqb_eq. reflexivity. Qed.

Lemma ordered_head_le x l y l' :
  ordered (y :: l') ->
  (forall i, cls i (x :: l) = cls i (y :: l')) -> key y <= key x.
Proof.
  intros [Hy _] H.
  assert (Hin : In x (cls (key x) (y :: l'))).
  { rewrite <- H. simpl. rewrite Z.eqb_refl. now left. }
  apply in_cls in Hin as [[<-|Hin] _]; [lia|now apply Hy].
Qed.

(** Two ordered lists with the same elements of each key, in the same
    order, are the same list. *)
Lemma ordered_cls_eq l1 l2 :
  ordered l1 -> ordered l2 -> (forall i, cls i l1 = cls i l2) -> l1 = l2.
Proof.
  revert l2. induction l1 as [|x l1 IH]; intros l2 H1 H2 H.
  - symmetry. apply cls_nil_all. intros i. now rewrite <- H.
  - destruct l2 as [|y l2].
    + apply cls_nil_all. exact H.
    + assert (Hk : key x = key y).
      { pose proof (ordered_head_le x l1 y l2 H2 H).
        pose proof (ordered_head_le y l2 x l1 H1 (fun i => eq_sym (H i))).
        lia. }
      pose proof (H (key x)) as Hx. simpl in Hx.
      rewrite <- Hk, Z.eqb_refl in Hx. injection Hx as <- Hx.
      f_equal. apply IH; [apply H1|apply H2|].
      intros i. specialize (H i). simpl in H.
      destruct (key x =? i); [now injection H|exact H].
Qed.

Lemma isort_cls_eq l1 l2 :
  (forall i, cls i l1 = cls i l2) -> isort l1 = isort l2.
Proof.
  intros H. apply ordered_cls_eq; try apply ordered_isort.
  intros i. now rewrite !cls_isort.
Qed.

End Stable.

(** All the elements of both lists are one and the same: the two orders
    of concatenation give the same list. *)
Lemma app_comm_constant {A : Type} (l1 l2 : list A) :
  (forall x y, In x l1 -> In y l2 -> x = y) ->
  l1 <> [] -> l2 <> [] -> l1 ++ l2 = l2 ++ l1.
Proof.
  intros H H1 H2.
  destruct l1 as [|a l1]; [congruence|]. destruct l2 as [|b l2]; [congruence|].
  assert (Ea : forall x, In x (a :: l1) -> x = a).
  { intros x Hx. rewrite (H x b Hx (or_introl eq_refl)).
    symmetry. apply H; now left. }
  assert (Eb : forall y, In y (b :: l2) -> y = a).
  { intros y Hy. symmetry. apply H; [now left|exact Hy]. }
  assert (R : forall l : list A, (forall x, In x l -> x = a) ->
                                 l = repeat a (List.length l)).
  { induction l as [|x l IHl]; simpl; [reflexivity|]. intros Hl.
    rewrite (Hl x (or_introl eq_refl)). f_equal. apply IHl.
    intros y Hy. apply Hl. now right. }
  rewrite (R _ Ea), (R _ Eb), <- !repeat_app. f_equal. lia.
Qed.

End SortFacts.

(** ** Timelines ([_normalize_timeline], [merge]) *)

Module TimelineFacts.
Import Py StrDefs StrFacts DictDefs DictFacts ParseFacts SortDefs SortFacts
  ParserPost TimelineDefs.

Section WithLibrary.
Context {L : PyLib} {LL : PyLibLaws L}.

Lemma sorted_isort (l : list value) : sorted l = isort inst l.
Proof.
  induction l as [|x l IH]; simpl; [reflexivity|]. rewrite IH.
  generalize (isort inst l). intros r.
  induction r as [|y r IHr]; simpl; [reflexivity|].
  unfold DateTime.leb, inst at 1 2. now rewrite IHr.
Qed.

Lemma entries_app (l1 l2 : list value) :
  entries (l1 ++ l2) = entries l1 ++ entries l2.
Proof. apply flat_map_app. Qed.

Lemma build_from_app b es1 es2 :
  build_from b (es1 ++ es2) = build_from (build_from b es1) es2.
Proof. apply fold_left_app. Qed.

Lemma bucket_entries (l : list value) (b : dict) :
  fold_left bucket_step l b = build_from b (entries l).
Proof.
  revert b. induction l as [|e l IH]; intros b; simpl; [reflexivity|].
  unfold entries in *. simpl. unfold build_from in *.
  rewrite fold_left_app, IH.
  unfold bucket_step, entry_of.
  now destruct (normalize_entry e) as [[k p]|].
Qed.

Lemma normalize_timeline_list (l : list value) :
  _normalize_timeline (VList l)
  = isort inst (values (build_from [] (entries l))).
Proof. simpl. now rewrite sorted_isort, bucket_entries. Qed.

Lemma clean_metric_idem v : clean_metric (clean_metric v) = clean_metric v.
Proof. now destruct v. Qed.

Lemma normalize_entry_dict (e : dict) :
  normalize_entry (VDict e) =
    match _parse_ts (strip (py_str (get e (lit "ts_utc") (VStr [])))) with
    | None => None
    | Some ts => Some (isoformat ts, VDict (point_of (isoformat ts) e))
    end.
Proof.
  unfold normalize_entry.
  destruct (_parse_ts _) as [ts|]; reflexivity.
Qed.

Lemma point_of_idem k e : point_of k (point_of k e) = point_of k e.
Proof.
  unfold point_of at 1.
  change (get (point_of k e) (lit "views") VNone)
    with (clean_metric (get e (lit "views") VNone)).
  change (get (point_of k e) (lit "likes") VNone)
    with (clean_metric (get e (lit "likes") VNone)).
  change (get (point_of k e) (lit "comments") VNone)
    with (clean_metric (get e (lit "comments") VNone)).
  change (get (point_of k e) (lit "repost") VNone)
    with (clean_metric (get e (lit "repost") VNone)).
  change (get (point_of k e) (lit "shared") VNone)
    with (clean_metric (get e (lit "shared") VNone)).
  rewrite !clean_metric_idem. reflexivity.
Qed.

Lemma normalize_entry_wk (e : value) (kp : str * value) :
  normalize_entry e = Some kp -> wk kp.
Proof.
  destruct e as [ | | | | | |d]; try discriminate.
  rewrite normalize_entry_dict.
  destruct (_parse_ts _) as [ts|] eqn:E; [|discriminate].
  intros H. injection H as <-.
  apply parse_ts_valid in E.
  assert (P : _parse_ts (strip (py_str (get (point_of (isoformat ts) d)
                                           (lit "ts_utc") (VStr []))))
              = Some ts).
  { change (get (point_of (isoformat ts) d) (lit "ts_utc") (VStr []))
      with (VStr (isoformat ts)).
    cbn [py_str]. rewrite (strip_isoformat ts E).
    now apply parse_ts_isoformat. }
  split; cbn [fst snd].
  - rewrite normalize_entry_dict, P, point_of_idem. reflexivity.
  - unfold inst, kinst, sort_key.
    change (get (point_of (isoformat ts) d) (lit "ts_utc") VNone)
      with (VStr (isoformat ts)).
    cbn [py_str]. now rewrite (parse_ts_isoformat ts E).
Qed.

Lemma wk_entries (l : list value) : Forall wk (entries l).
Proof.
  induction l as [|e l IH]; simpl; [constructor|].
  apply Forall_app. split; [|exact IH].
  unfold entry_of. destruct (normalize_entry e) as [kp|] eqn:E;
    [|constructor].
  constructor; [|constructor]. now apply (normalize_entry_wk e).
Qed.

Lemma wk_build b es :
  Forall wk b -> Forall wk es -> Forall wk (build_from b es).
Proof.
  revert b. induction es as [|[k p] es IH]; intros b Hb Hes; simpl;
    [exact Hb|].
  inversion Hes as [|? ? Hk Hes']; subst.
  apply IH; [|exact Hes'].
  apply Forall_forall. intros kp Hin. apply in_set in Hin as [->|Hin];
    [exact Hk|]. rewrite Forall_forall in Hb. now apply Hb.
Qed.

Lemma wk_filter f b : Forall wk b -> Forall wk (filter f b).
Proof.
  rewrite !Forall_forall. intros H x Hx. apply filter_In in Hx. now apply H.
Qed.

Lemma NoDup_keys_build b es :
  NoDup (keys b) -> NoDup (keys (build_from b es)).
Proof.
  revert b. induction es as [|[k p] es IH]; intros b Hb; simpl; [exact Hb|].
  apply IH. now apply NoDup_keys_set.
Qed.

Lemma NoDup_keys_filter f (b : dict) :
  NoDup (keys b) -> NoDup (keys (filter f b)).
Proof.
  induction b as [|[k v] b IH]; simpl; [constructor|].
  intros H. inversion H as [|? ? Hk Hb]; subst.
  destruct (f (k, v)); simpl; [|now apply IH].
  constructor; [|now apply IH].
  intros Hin. apply Hk. unfold keys in *.
  apply in_map_iff in Hin as (x & Hx & Hin).
  apply filter_In in Hin as [Hin _].
  apply in_map_iff. now exists x.
Qed.

(** Writing distinct keys into a dictionary that has none of them appends
    them. *)
Lemma build_fresh acc (b : dict) :
  NoDup (keys (acc ++ b)) -> build_from acc b = acc ++ b.
Proof.
  revert acc. induction b as [|[k v] b IH]; intros acc H; simpl.
  - now rewrite app_nil_r.
  - rewrite set_absent.
    + rewrite IH; rewrite <- app_assoc; [reflexivity|exact H].
    + unfold keys in H. rewrite map_app in H. simpl in H.
      apply NoDup_remove_2 in H. rewrite in_app_iff in H. tauto.
Qed.

Lemma build_nodup (b : dict) : NoDup (keys b) -> build_from [] b = b.
Proof. intros H. now apply (build_fresh [] b). Qed.

Lemma lookup_app_absent (p b : dict) k :
  ~ In k (keys p) -> lookup (p ++ b) k = lookup b k.
Proof.
  induction p as [|[k0 v0] p IH]; simpl; [reflexivity|].
  intros H. destruct (str_eqb k k0) eqn:E.
  - apply str_eqb_eq in E. subst. tauto.
  - apply IH. tauto.
Qed.

(** Writing a dictionary into itself changes nothing. *)
Lemma build_again (p b : dict) :
  NoDup (keys (p ++ b)) -> build_from (p ++ b) b = p ++ b.
Proof.
  revert p. induction b as [|[k v] b IH]; intros p H; simpl; [reflexivity|].
  rewrite set_same.
  - change (p ++ (k, v) :: b) with (p ++ [(k, v)] ++ b).
    rewrite app_assoc. apply IH. now rewrite <- app_assoc.
  - rewrite lookup_app_absent.
    + simpl. now rewrite str_eqb_refl.
    + unfold keys in H. rewrite map_app in H. simpl in H.
      apply NoDup_remove_2 in H. rewrite in_app_iff in H. tauto.
Qed.

Lemma build_self (b : dict) : NoDup (keys b) -> build_from b b = b.
Proof. intros H. now apply (build_again [] b). Qed.

Lemma build_set_present (d b : dict) k v :
  In k (keys d) -> ~ In k (keys b) ->
  build_from (set d k v) b = set (build_from d b) k v.
Proof.
  revert d. induction b as [|[k0 v0] b IH]; intros d Hd Hb; simpl;
    [reflexivity|].
  simpl in Hb.
  rewrite <- IH.
  - f_equal. apply set_comm; [|exact Hd].
    intros E. apply Hb. left. congruence.
  - apply in_keys_set. now right.
  - tauto.
Qed.

Lemma build_set (c b : dict) k v :
  NoDup (keys b) ->
  build_from c (set b k v) = set (build_from c b) k v.
Proof.
  revert c. induction b as [|[k0 v0] b IH]; intros c H; simpl;
    [reflexivity|].
  inversion H as [|? ? Hk Hb]; subst.
  destruct (str_eqb k k0) eqn:E; simpl.
  - apply str_eqb_eq in E. subst k0.
    rewrite <- (build_set_present (set c k v0) b k v).
    + now rewrite set_set.
    + apply in_keys_set. now left.
    + exact Hk.
  - now apply IH.
Qed.

(** Writing the entries of a bucket is the same as writing the entries
    the bucket was built from. *)
Lemma build_build (c b : dict) es :
  NoDup (keys b) ->
  build_from c (build_from b es) = build_from (build_from c b) es.
Proof.
  revert b. induction es as [|[k p] es IH]; intros b H; simpl;
    [reflexivity|].
  rewrite IH by now apply NoDup_keys_set.
  now rewrite build_set.
Qed.

Lemma kcls_app i b1 b2 : kcls i (b1 ++ b2) = kcls i b1 ++ kcls i b2.
Proof. apply filter_app. Qed.

Lemma kcls_set i (b : dict) k p :
  kcls i (set b k p) = if kinst k =? i then set (kcls i b) k p else kcls i b.
Proof.
  induction b as [|[k0 v0] b IH]; simpl.
  - now destruct (kinst k =? i).
  - destruct (str_eqb k k0) eqn:E; simpl.
    + apply str_eqb_eq in E. subst k0.
      destruct (kinst k =? i); simpl; [|reflexivity].
      now rewrite str_eqb_refl.
    + rewrite IH.
      destruct (kinst k =? i), (kinst k0 =? i); simpl; rewrite ?E;
        reflexivity.
Qed.

Lemma kcls_build i b es :
  kcls i (build_from b es) = build_from (kcls i b) (kcls i es).
Proof.
  revert b. induction es as [|[k p] es IH]; intros b; simpl; [reflexivity|].
  rewrite IH, kcls_set. now destruct (kinst k =? i).
Qed.

Lemma values_kcls i (b : dict) :
  Forall wk b -> cls inst i (values b) = values (kcls i b).
Proof.
  induction 1 as [|[k p] b [_ Hk] _ IH]; simpl; [reflexivity|].
  simpl in Hk. rewrite Hk, IH. now destruct (kinst k =? i).
Qed.

Lemma entries_values (b : dict) : Forall wk b -> entries (values b) = b.
Proof.
  induction 1 as [|[k p] b [Hf _] _ IH]; simpl; [reflexivity|].
  simpl in Hf. unfold entry_of. rewrite Hf. simpl. now rewrite IH.
Qed.

Lemma kcls_entries i (W : list value) :
  Forall (fun p => exists k, wk (k, p)) W ->
  kcls i (entries W) = entries (cls inst i W).
Proof.
  induction 1 as [|p W (k & Hf & Hk) _ IH]; simpl; [reflexivity|].
  simpl in Hf, Hk. rewrite kcls_app, IH.
  unfold entry_of at 1. rewrite Hf. simpl. rewrite Hk.
  destruct (kinst k =? i); simpl; [|reflexivity].
  unfold entry_of. now rewrite Hf.
Qed.

Lemma in_isort_iff {A} (key : A -> Z) x l : In x (isort key l) <-> In x l.
Proof.
  induction l as [|y l IH]; simpl; [tauto|].
  rewrite in_ins, IH. intuition.
Qed.

(** The entries of a normalised timeline are, key by key, those of the
    bucket it was read off. *)
Lemma kcls_entries_sorted i (b : dict) :
  Forall wk b -> kcls i (entries (isort inst (values b))) = kcls i b.
Proof.
  intros Hb. rewrite kcls_entries.
  - rewrite cls_isort, (values_kcls i b Hb).
    apply entries_values. now apply wk_filter.
  - apply Forall_forall. intros p Hp.
    apply in_isort_iff in Hp. unfold values in Hp.
    apply in_map_iff in Hp as ([k p'] & <- & Hin).
    exists k. rewrite Forall_forall in Hb. now apply Hb.
Qed.

Lemma wk_bucket l : Forall wk (bucket_of l).
Proof. apply wk_build; [constructor|apply wk_entries]. Qed.

Lemma NoDup_bucket l : NoDup (keys (bucket_of l)).
Proof. apply NoDup_keys_build. constructor. Qed.

Lemma kcls_bucket i l : kcls i (bucket_of l) = build_from [] (kcls i (entries l)).
Proof. unfold bucket_of. now rewrite kcls_build. Qed.

(** Two buckets with the same entries under each instant give the same
    timeline. *)
Lemma sorted_values_eq (b1 b2 : dict) :
  Forall wk b1 -> Forall wk b2 ->
  (forall i, kcls i b1 = kcls i b2) ->
  isort inst (values b1) = isort inst (values b2).
Proof.
  intros H1 H2 H. apply isort_cls_eq. intros i.
  now rewrite (values_kcls i b1 H1), (values_kcls i b2 H2), H.
Qed.

Lemma normalize_absorb_left (X Y : list value) :
  _normalize_timeline (VList (_normalize_timeline (VList X) ++ Y))
  = _normalize_timeline (VList (X ++ Y)).
Proof.
  rewrite !normalize_timeline_list.
  apply sorted_values_eq; try apply wk_bucket.
  intros i. fold (bucket_of X).
  rewrite !kcls_build, !entries_app, !kcls_app, !build_from_app.
  rewrite (kcls_entries_sorted i _ (wk_bucket X)).
  rewrite build_nodup by apply NoDup_keys_filter, NoDup_bucket.
  now rewrite kcls_bucket.
Qed.

Lemma normalize_absorb_right (X Y : list value) :
  _normalize_timeline (VList (X ++ _normalize_timeline (VList Y)))
  = _normalize_timeline (VList (X ++ Y)).
Proof.
  rewrite !normalize_timeline_list.
  apply sorted_values_eq; try apply wk_bucket.
  intros i. fold (bucket_of Y).
  rewrite !kcls_build, !entries_app, !kcls_app, !build_from_app.
  rewrite (kcls_entries_sorted i _ (wk_bucket Y)), kcls_bucket.
  simpl. rewrite build_build by constructor. reflexivity.
Qed.

Lemma merge_associative (A B C : list value) :
  merge (merge A B) C = merge A (merge B C).
Proof.
  unfold merge.
  now rewrite normalize_absorb_left, normalize_absorb_right, app_assoc.
Qed.

Lemma merge_idempotent (A : list value) :
  merge A A = _normalize_timeline (VList A).
Proof.
  unfold merge. rewrite !normalize_timeline_list. f_equal. f_equal.
  rewrite entries_app, build_from_app. fold (bucket_of A).
  change (build_from (bucket_of A) (entries A))
    with (build_from (build_from (bucket_of A) []) (entries A)).
  rewrite <- (build_build (bucket_of A) [] (entries A)) by constructor.
  fold (bucket_of A). apply build_self, NoDup_bucket.
Qed.

Lemma in_entries kp l :
  In kp (entries l) <-> exists e, In e l /\ normalize_entry e = Some kp.
Proof.
  unfold entries. rewrite in_flat_map. unfold entry_of.
  split; intros (e & He & H); exists e; split; try exact He.
  - destruct (normalize_entry e) as [x|]; [|destruct H].
    destruct H as [->|[]]. reflexivity.
  - rewrite H. now left.
Qed.

Lemma merge_commutative (A B : list value) :
  agree A B -> merge A B = merge B A.
Proof.
  intros Hag. unfold merge. rewrite !normalize_timeline_list.
  apply sorted_values_eq; try apply wk_bucket.
  intros i. rewrite !kcls_build, !entries_app, !kcls_app. simpl.
  destruct (kcls i (entries A)) as [|a ea] eqn:Ea;
    [now rewrite app_nil_r|].
  destruct (kcls i (entries B)) as [|b eb] eqn:Eb;
    [now rewrite app_nil_r|].
  f_equal. apply app_comm_constant; try discriminate.
  intros [ka pa] [kb pb] Ha Hb. rewrite <- Ea in Ha. rewrite <- Eb in Hb.
  apply filter_In in Ha as [Ha Ia], Hb as [Hb Ib].
  apply Z.eqb_eq in Ia, Ib. simpl in Ia, Ib.
  pose proof Ha as Ha'. pose proof Hb as Hb'.
  apply in_entries in Ha' as (x & Hx & Nx), Hb' as (y & Hy & Ny).
  destruct (normalize_entry_wk x _ Nx) as [Fa Ka].
  destruct (normalize_entry_wk y _ Ny) as [Fb Kb].
  simpl in Fa, Ka, Fb, Kb.
  assert (pa = pb) as <-.
  { apply (Hag x y ka pa kb pb Hx Hy Nx Ny). congruence. }
  congruence.
Qed.

End WithLibrary.

(** C1 (amended).  The merge of timelines, [_normalize_timeline] of the
    concatenation, is associative and idempotent for all timelines; it is
    commutative for two timelines whose points on the same instant are the
    same point once normalised.  (Where two points share a timestamp and
    differ in a metric, the point of the second operand is the one
    kept.) *)
Theorem merge_laws {L : PyLib} {LL : PyLibLaws L} :
  (forall A B C, merge (merge A B) C = merge A (merge B C))
  /\ (forall A, merge A A = _normalize_timeline (VList A))
  /\ (forall A B, agree A B -> merge A B = merge B A).
Proof.
  split; [|split].
  - apply merge_associative.
  - apply merge_idempotent.
  - apply merge_commutative.
Qed.

End TimelineFacts.

(** ** Hourly buckets and the 24-hour history *)

Module HistoryFacts.
Import Py StrDefs StrFacts DictDefs DictFacts ParseFacts ParserPost
  HistoryDefs.

Section WithLibrary.
Context {L : PyLib} {LL : PyLibLaws L}.

Lemma value_at_time_loop_ok v tl target metric :
  all_dicts tl ->
  value_at_time_loop v tl target metric
  = Ok (value_at v tl (DateTime.instant target) metric).
Proof.
  intros H. revert v. induction H as [|p tl Hp _ IH]; intros v; simpl;
    [reflexivity|].
  destruct p as [ | | | | | |d]; try discriminate.
  destruct (_parse_ts _) as [ts|]; [|reflexivity].
  unfold DateTime.ltb.
  destruct (DateTime.instant target <? DateTime.instant ts);
    [reflexivity|apply IH].
Qed.

Lemma value_at_time_ok tl target metric :
  all_dicts tl ->
  _value_at_time tl target metric
  = Ok (value_at None tl (DateTime.instant target) metric).
Proof. apply value_at_time_loop_ok. Qed.

Lemma in_range_true w :
  0 <= w < DateTime.MAXWALL -> DateTime.in_range w = true.
Proof.
  intros H. unfold DateTime.in_range.
  apply andb_true_iff. split; [apply Z.leb_le|apply Z.ltb_lt]; lia.
Qed.

Lemma add_ok d delta :
  0 <= DateTime.wall d + delta < DateTime.MAXWALL ->
  DateTime.add d delta
  = Ok (DateTime.mk (DateTime.wall d + delta) (DateTime.utcoffset d)).
Proof. intros H. unfold DateTime.add. now rewrite in_range_true. Qed.

Lemma add_inv d delta r :
  DateTime.add d delta = Ok r ->
  r = DateTime.mk (DateTime.wall d + delta) (DateTime.utcoffset d)
  /\ 0 <= DateTime.wall d + delta < DateTime.MAXWALL.
Proof.
  unfold DateTime.add, DateTime.in_range.
  destruct (0 <=? DateTime.wall d + delta) eqn:E1;
    destruct (DateTime.wall d + delta <? DateTime.MAXWALL) eqn:E2;
    try discriminate.
  intros H. injection H as <-. split; [reflexivity|lia].
Qed.

Lemma astimezone_ok d :
  0 <= DateTime.instant d ->
  DateTime.instant d + MSK_TZ < DateTime.MAXWALL ->
  DateTime.astimezone d MSK_TZ = Ok (msk_of d).
Proof.
  intros H1 H2. unfold DateTime.astimezone.
  rewrite add_ok by (simpl; dt_lia). cbn [bind DateTime.wall].
  rewrite add_ok by (simpl; dt_lia). unfold msk_of.
  reflexivity.
Qed.

Lemma format_hour_range_ok b e :
  0 <= DateTime.instant b ->
  DateTime.instant b + MSK_TZ < DateTime.MAXWALL ->
  0 <= DateTime.instant e ->
  DateTime.instant e + MSK_TZ < DateTime.MAXWALL ->
  _format_hour_range b e = Ok (range_text b e).
Proof.
  intros. unfold _format_hour_range.
  rewrite !astimezone_ok by assumption. reflexivity.
Qed.

Lemma hourly_loop_ok hrs prev tl start metric :
  all_dicts tl -> window_ok start ->
  Forall (fun h => 1 <= h <= 24) hrs ->
  hourly_loop hrs prev tl start metric
  = Ok (rows_of hrs prev tl start metric).
Proof.
  intros Hd (W1 & W2 & W3 & W4) Hh. revert prev.
  induction Hh as [|h hrs Hh _ IH]; intros prev; simpl; [reflexivity|].
  rewrite add_ok by dt_lia. cbn [bind].
  rewrite (value_at_time_ok tl _ metric Hd). cbn [bind].
  rewrite add_ok by (simpl; dt_lia). cbn [bind DateTime.wall DateTime.utcoffset].
  rewrite format_hour_range_ok by (simpl; dt_lia). cbn [bind].
  rewrite IH. cbn [bind]. unfold plus_hours.
  assert (E1 : DateTime.wall start + DateTime.hours h + - DateTime.hours 1
               = DateTime.wall start + DateTime.hours (h - 1)) by dt_lia.
  assert (E2 : DateTime.instant
                 (DateTime.mk (DateTime.wall start + DateTime.hours h)
                              (DateTime.utcoffset start))
               = DateTime.instant start + DateTime.hours h) by dt_lia.
  rewrite E2. change (- DateTime.hours 1) with (-3600000000) in E1.
  rewrite E1. reflexivity.
Qed.

Lemma hours_1_24_bounds : Forall (fun h => 1 <= h <= 24) hours_1_24.
Proof.
  unfold hours_1_24. apply Forall_forall. intros h Hh.
  apply in_map_iff in Hh as (n & <- & Hn). apply in_seq in Hn. lia.
Qed.

Lemma compute_hourly_metric_ok tl start metric :
  all_dicts tl -> window_ok start ->
  _compute_hourly_metric tl start metric = Ok (hourly_rows tl start metric).
Proof.
  intros Hd Hw. unfold _compute_hourly_metric.
  rewrite (value_at_time_ok tl start metric Hd). cbn [bind].
  apply hourly_loop_ok; auto using hours_1_24_bounds.
Qed.

Lemma metrics_loop_ok ms acc tl start ready_hours :
  all_dicts tl -> window_ok start ->
  metrics_loop ms acc tl start ready_hours
  = Ok (metrics_of ms acc tl start ready_hours).
Proof.
  intros Hd Hw. revert acc. induction ms as [|m ms IH]; intros acc; simpl;
    [reflexivity|].
  rewrite (compute_hourly_metric_ok tl start m Hd Hw). cbn [bind].
  apply IH.
Qed.

Lemma update_history_ok (tracking : dict) tl start now :
  _parse_ts (py_str (get tracking (lit "started_at_utc") (VStr [])))
    = Some start ->
  get tracking (lit "timeline") (VList []) = VList tl ->
  all_dicts tl -> window_ok start ->
  _update_history_24h tracking now
  = Ok (set tracking (lit "history_24h") (VDict (history_at tl start now))).
Proof.
  intros Hs Ht Hd Hw. unfold _update_history_24h. rewrite Hs, Ht.
  rewrite (metrics_loop_ok _ _ tl start _ Hd Hw). cbn [bind].
  unfold history_at.
  destruct (24 <=? ready_hours_of (DateTime.sub now start)); [|reflexivity].
  destruct Hw as (W1 & W2 & W3 & W4).
  rewrite add_ok by dt_lia. reflexivity.
Qed.

Lemma history_of_set tracking h :
  history_of (set tracking (lit "history_24h") (VDict h)) = h.
Proof. unfold history_of. now rewrite get_set_same. Qed.

Lemma ready_hours_of_bounds delta : 0 <= ready_hours_of delta <= 24.
Proof.
  unfold ready_hours_of.
  destruct (delta / DateTime.HOUR <? 0) eqn:E1.
  - simpl. lia.
  - destruct (24 <? delta / DateTime.HOUR) eqn:E2; lia.
Qed.

Lemma ready_hours_of_monotone d1 d2 :
  d1 <= d2 -> ready_hours_of d1 <= ready_hours_of d2.
Proof.
  intros H. unfold ready_hours_of.
  assert (Hq : d1 / DateTime.HOUR <= d2 / DateTime.HOUR).
  { apply Z.div_le_mono; [unfold DateTime.HOUR; lia|exact H]. }
  destruct (d1 / DateTime.HOUR <? 0) eqn:E1;
    destruct (d2 / DateTime.HOUR <? 0) eqn:E2;
    repeat match goal with
           | |- context [if ?c then _ else _] => destruct c eqn:?
           end; lia.
Qed.

(** What a successful call of [_update_history_24h] wrote as
    [ready_hours]. *)
Lemma update_history_ready_hours (tracking tracking' : dict) tl start now :
  _parse_ts (py_str (get tracking (lit "started_at_utc") (VStr [])))
    = Some start ->
  get tracking (lit "timeline") (VList []) = VList tl ->
  _update_history_24h tracking now = Ok tracking' ->
  history_field tracking' (lit "ready_hours")
  = VInt (ready_hours_of (DateTime.sub now start)).
Proof.
  intros Hs Ht. unfold _update_history_24h. rewrite Hs, Ht.
  destruct (metrics_loop _ _ _ _ _) as [metrics|e]; [|discriminate].
  cbn [bind].
  destruct (24 <=? ready_hours_of (DateTime.sub now start)).
  - destruct (DateTime.add start (DateTime.hours 24)) as [c|e];
      [|discriminate].
    cbn [bind]. intros H. injection H as <-.
    unfold history_field. rewrite history_of_set. reflexivity.
  - cbn [bind]. intros H. injection H as <-.
    unfold history_field. rewrite history_of_set. reflexivity.
Qed.

Lemma ready_hours_of_day delta :
  DateTime.DAY <= delta -> ready_hours_of delta = 24.
Proof.
  intros H. unfold ready_hours_of.
  assert (Hq : 24 <= delta / DateTime.HOUR).
  { apply Z.div_le_lower_bound; dt_lia. }
  destruct (delta / DateTime.HOUR <? 0) eqn:E1; [lia|].
  destruct (24 <? delta / DateTime.HOUR) eqn:E2; lia.
Qed.

Lemma history_at_finalized tl start now :
  DateTime.DAY <= DateTime.sub now start ->
  history_at tl start now =
    [ (lit "start_ts_utc", VStr (isoformat start));
      (lit "ready_hours", VInt 24);
      (lit "finalized", VBool true);
      (lit "updated_at_utc", VStr (isoformat now));
      (lit "metrics", VDict (metrics_of TRACK_METRICS [] tl start 24));
      (lit "completed_at_utc", VStr (isoformat (plus_hours start 24))) ].
Proof.
  intros H. unfold history_at. now rewrite (ready_hours_of_day _ H).
Qed.

Lemma get_other_than_history (tracking : dict) h k dflt :
  k <> lit "history_24h" ->
  get (set tracking (lit "history_24h") h) k dflt = get tracking k dflt.
Proof. intros Hk. apply get_set_other. congruence. Qed.

(** The value a three-point timeline gives at an instant. *)
Lemma value_at_three (d0 d1 d2 : dict) (t0 t1 t2 : DateTime.datetime)
  (v0 v1 v2 : Z) (metric : str) (tau : Z) :
  _parse_ts (py_str (get d0 (lit "ts_utc") (VStr []))) = Some t0 ->
  _parse_ts (py_str (get d1 (lit "ts_utc") (VStr []))) = Some t1 ->
  _parse_ts (py_str (get d2 (lit "ts_utc") (VStr []))) = Some t2 ->
  _metric_value (VDict d0) metric = Some v0 ->
  _metric_value (VDict d1) metric = Some v1 ->
  _metric_value (VDict d2) metric = Some v2 ->
  value_at None [VDict d0; VDict d1; VDict d2] tau metric =
    if tau <? DateTime.instant t0 then None
    else if tau <? DateTime.instant t1 then Some v0
    else if tau <? DateTime.instant t2 then Some v1
    else Some v2.
Proof.
  intros P0 P1 P2 M0 M1 M2. cbn [value_at].
  now rewrite P0, P1, P2, M0, M1, M2.
Qed.

End WithLibrary.

(** C2 (amended).  For a tracking record with a resolvable start, a
    timeline of points and a representable 24-hour window, updating the
    history at [now = start + 24h + 1s] writes [ready_hours = 24],
    [finalized = True] and [completed_at_utc = start + 24h]; a second
    update at any later [now] rewrites the history with the same start,
    ready hours, finalized flag, metrics and completion time, and with
    [updated_at_utc] set to the later [now]. *)
Theorem history_finalized_after_a_day `{PyLib} (tracking : dict)
  (tl : list value) (start now1 : DateTime.datetime) :
  _parse_ts (py_str (get tracking (lit "started_at_utc") (VStr [])))
    = Some start ->
  get tracking (lit "timeline") (VList []) = VList tl ->
  all_dicts tl -> window_ok start ->
  DateTime.sub now1 start = DateTime.DAY + DateTime.SECOND ->
  exists t1,
    _update_history_24h tracking now1 = Ok t1
    /\ history_field t1 (lit "ready_hours") = VInt 24
    /\ history_field t1 (lit "finalized") = VBool true
    /\ DateTime.add start (DateTime.hours 24) = Ok (plus_hours start 24)
    /\ history_field t1 (lit "completed_at_utc")
       = VStr (isoformat (plus_hours start 24))
    /\ forall now2,
         DateTime.instant now1 <= DateTime.instant now2 ->
         _update_history_24h t1 now2
         = Ok (set t1 (lit "history_24h")
                   (VDict (set (history_of t1) (lit "updated_at_utc")
                               (VStr (isoformat now2))))).
Proof.
  intros Hs Ht Hd Hw Hnow.
  assert (D1 : DateTime.DAY <= DateTime.sub now1 start) by dt_lia.
  eexists. split; [apply (update_history_ok tracking tl start now1 Hs Ht Hd Hw)|].
  unfold history_field. rewrite !history_of_set.
  rewrite (history_at_finalized tl start now1 D1).
  repeat split.
  - destruct Hw as (W1 & W2 & W3 & W4). apply add_ok. dt_lia.
  - intros now2 Hle.
    assert (D2 : DateTime.DAY <= DateTime.sub now2 start) by dt_lia.
    rewrite (update_history_ok _ tl start now2); try assumption.
    + rewrite !set_set.
      rewrite (history_at_finalized tl start now2 D2). reflexivity.
    + rewrite get_other_than_history by discriminate. exact Hs.
    + rewrite get_other_than_history by discriminate. exact Ht.
Qed.

(** C3.  For a timeline holding, for a metric, the values 10 at [t0], 20
    at [t0 + 70min] and 35 at [t0 + 130min], and a window that starts at
    [t0], the hourly computation returns 24 rows; the point at
    [t0 + 70min] falls in bucket 1 and the point at [t0 + 130min] in
    bucket 2, and the delta of bucket 1 is 20 - 10 = 10, the delta of
    bucket 2 is 35 - 20 = 15.  Buckets are counted from 0
    ([hour_bucket_of]): bucket [k] has the row of [hour = k + 1], so the
    rows carry the hours 1 to 24 and the deltas 0, 10, 15 and then 0 for
    every later hour. *)
Theorem hourly_deltas_of_three_points `{PyLib} (d0 d1 d2 : dict)
  (t0 t1 t2 start : DateTime.datetime) (metric : str) :
  _parse_ts (py_str (get d0 (lit "ts_utc") (VStr []))) = Some t0 ->
  _parse_ts (py_str (get d1 (lit "ts_utc") (VStr []))) = Some t1 ->
  _parse_ts (py_str (get d2 (lit "ts_utc") (VStr []))) = Some t2 ->
  DateTime.instant t1 = DateTime.instant t0 + 70 * DateTime.MINUTE ->
  DateTime.instant t2 = DateTime.instant t0 + 130 * DateTime.MINUTE ->
  _metric_value (VDict d0) metric = Some 10 ->
  _metric_value (VDict d1) metric = Some 20 ->
  _metric_value (VDict d2) metric = Some 35 ->
  DateTime.instant start = DateTime.instant t0 ->
  window_ok start ->
  exists rows,
    _compute_hourly_metric [VDict d0; VDict d1; VDict d2] start metric
    = Ok rows
    /\ map row_hour rows = map VInt hours_1_24
    /\ map row_delta rows
       = VInt 0 :: VInt 10 :: VInt 15 :: repeat (VInt 0) 21
    /\ hour_bucket_of start t1 = 1
    /\ row_delta (hour_bucket 1 rows) = VInt 10
    /\ hour_bucket_of start t2 = 2
    /\ row_delta (hour_bucket 2 rows) = VInt 15.
Proof.
  intros P0 P1 P2 I1 I2 M0 M1 M2 Is Hw.
  set (tl := [VDict d0; VDict d1; VDict d2]).
  assert (Hd : all_dicts tl) by (repeat constructor).
  exists (hourly_rows tl start metric).
  split; [now apply compute_hourly_metric_ok|].
  assert (V : forall tau,
             value_at None tl tau metric =
               if tau <? DateTime.instant t0 then None
               else if tau <? DateTime.instant t1 then Some 10
               else if tau <? DateTime.instant t2 then Some 20
               else Some 35).
  { intros tau. now apply value_at_three. }
  assert (V0 : value_at None tl (DateTime.instant start) metric = Some 10).
  { rewrite V, Is, I1, I2.
    repeat match goal with
           | |- context [?a <? ?b] => destruct (Z.ltb_spec a b)
           end; try reflexivity; dt_lia. }
  assert (V1 : value_at None tl (DateTime.instant start + DateTime.hours 1)
                 metric = Some 10).
  { rewrite V, Is, I1, I2.
    repeat match goal with
           | |- context [?a <? ?b] => destruct (Z.ltb_spec a b)
           end; try reflexivity; dt_lia. }
  assert (V2 : value_at None tl (DateTime.instant start + DateTime.hours 2)
                 metric = Some 20).
  { rewrite V, Is, I1, I2.
    repeat match goal with
           | |- context [?a <? ?b] => destruct (Z.ltb_spec a b)
           end; try reflexivity; dt_lia. }
  assert (V3 : forall h, 3 <= h ->
                 value_at None tl (DateTime.instant start + DateTime.hours h)
                   metric = Some 35).
  { intros h Hh. rewrite V, Is, I1, I2.
    repeat match goal with
           | |- context [?a <? ?b] => destruct (Z.ltb_spec a b)
           end; try reflexivity; dt_lia. }
  unfold hourly_rows. rewrite V0.
  change hours_1_24
    with [1; 2; 3; 4; 5; 6; 7; 8; 9; 10; 11; 12; 13; 14; 15; 16; 17; 18;
          19; 20; 21; 22; 23; 24].
  cbn [rows_of]. rewrite V1, V2. rewrite !V3 by lia.
  assert (B1 : hour_bucket_of start t1 = 1).
  { unfold hour_bucket_of. rewrite I1, Is.
    replace (DateTime.instant t0 + 70 * DateTime.MINUTE - DateTime.instant t0)
      with (70 * DateTime.MINUTE) by lia.
    reflexivity. }
  assert (B2 : hour_bucket_of start t2 = 2).
  { unfold hour_bucket_of. rewrite I2, Is.
    replace (DateTime.instant t0 + 130 * DateTime.MINUTE - DateTime.instant t0)
      with (130 * DateTime.MINUTE) by lia.
    reflexivity. }
  repeat split; solve [reflexivity | assumption].
Qed.

(** C9.  For a tracking window with a resolvable start and a timeline,
    the [ready_hours] that [_update_history_24h] writes is between 0 and
    24 and does not decrease when [now] moves forward; and the call does
    write a history whenever the window's 24 hours are representable. *)
Theorem ready_hours_monotone `{PyLib} (tracking : dict) (tl : list value)
  (start now1 now2 : DateTime.datetime) :
  _parse_ts (py_str (get tracking (lit "started_at_utc") (VStr [])))
    = Some start ->
  get tracking (lit "timeline") (VList []) = VList tl ->
  DateTime.instant now1 <= DateTime.instant now2 ->
  (forall t1 t2,
      _update_history_24h tracking now1 = Ok t1 ->
      _update_history_24h tracking now2 = Ok t2 ->
      exists r1 r2,
        history_field t1 (lit "ready_hours") = VInt r1
        /\ history_field t2 (lit "ready_hours") = VInt r2
        /\ 0 <= r1 /\ r1 <= r2 /\ r2 <= 24)
  /\ (all_dicts tl -> window_ok start ->
      exists t1 t2,
        _update_history_24h tracking now1 = Ok t1
        /\ _update_history_24h tracking now2 = Ok t2).
Proof.
  intros Hs Ht Hle. split.
  - intros t1 t2 H1 H2.
    exists (ready_hours_of (DateTime.sub now1 start)),
           (ready_hours_of (DateTime.sub now2 start)).
    rewrite (update_history_ready_hours tracking t1 tl start now1 Hs Ht H1).
    rewrite (update_history_ready_hours tracking t2 tl start now2 Hs Ht H2).
    pose proof (ready_hours_of_bounds (DateTime.sub now1 start)).
    pose proof (ready_hours_of_bounds (DateTime.sub now2 start)).
    assert (ready_hours_of (DateTime.sub now1 start)
            <= ready_hours_of (DateTime.sub now2 start)).
    { apply ready_hours_of_monotone. unfold DateTime.sub. lia. }
    repeat split; try reflexivity; lia.
  - intros Hd Hw. eexists. eexists.
    split; apply (update_history_ok tracking tl start _ Hs Ht Hd Hw).
Qed.

End HistoryFacts.

(** ** The implementation keeps the promises of the interface *)

Module Iso8601Facts.
Import Py Iso8601.

(** *** The laws *)

Lemma leap_day_cases y : leap_day y = 0 \/ leap_day y = 1.
Proof. unfold leap_day. destruct (is_leap y); auto. Qed.

Lemma is_leap_spec y :
  is_leap y = true <->
  (y mod 4 = 0 /\ (y mod 100 <> 0 \/ y mod 400 = 0)).
Proof.
  unfold is_leap. rewrite andb_true_iff, orb_true_iff, negb_true_iff.
  rewrite !Z.eqb_eq, Z.eqb_neq. reflexivity.
Qed.

Lemma month_day_spec y n :
  0 <= n < 365 + leap_day y ->
  let '(m, d) := month_day y n in
  1 <= m <= 12 /\ 1 <= d <= days_in_month y m
  /\ days_before_month y m + d - 1 = n.
Proof.
  intros Hn. unfold month_day, days_before_month, days_in_month.
  pose proof (leap_day_cases y) as Hc.
  generalize dependent (leap_day y). intros f Hn Hc.
  repeat match goal with
         | |- context [?a <? ?b] => destruct (Z.ltb_spec a b)
         end;
    cbn [Z.eqb Pos.eqb orb]; lia.
Qed.

Lemma ymd_of_days_roundtrip n :
  0 <= n < 3652059 ->
  let '(y, m, d) := ymd_of_days n in
  valid_ymd y m d = true /\ days_of_ymd y m d = n.
Proof.
  intros Hn. unfold ymd_of_days.
  pose proof (Z.div_mod n 146097 ltac:(lia)) as E400.
  pose proof (Z.mod_pos_bound n 146097 ltac:(lia)) as B400.
  set (n400 := n / 146097) in *. set (r400 := n mod 146097) in *.
  pose proof (Z.div_mod r400 36524 ltac:(lia)) as E100.
  pose proof (Z.mod_pos_bound r400 36524 ltac:(lia)) as B100.
  set (n100 := r400 / 36524) in *. set (r100 := r400 mod 36524) in *.
  pose proof (Z.div_mod r100 1461 ltac:(lia)) as E4.
  pose proof (Z.mod_pos_bound r100 1461 ltac:(lia)) as B4.
  set (n4 := r100 / 1461) in *. set (r4 := r100 mod 1461) in *.
  pose proof (Z.div_mod r4 365 ltac:(lia)) as E1.
  pose proof (Z.mod_pos_bound r4 365 ltac:(lia)) as B1.
  set (n1 := r4 / 365) in *. set (r1 := r4 mod 365) in *.
  clearbody n400 r400 n100 r100 n4 r4 n1 r1.
  assert (0 <= n400 <= 24) by lia.
  assert (0 <= n100 <= 4) by lia.
  assert (0 <= n4 <= 24) by lia.
  assert (0 <= n1 <= 4) by lia.
  set (year := n400 * 400 + n100 * 100 + n4 * 4 + n1 + 1).
  assert (Hy : 1 <= year <= 10000) by (unfold year; lia).
  destruct ((n1 =? 4) || (n100 =? 4)) eqn:Esp.
  - assert (Hs : n1 = 4 \/ n100 = 4).
    { apply orb_true_iff in Esp. rewrite !Z.eqb_eq in Esp. exact Esp. }
    assert (Hl : is_leap (year - 1) = true).
    { apply is_leap_spec. unfold year. Z.div_mod_to_equations. lia. }
    unfold valid_ymd, days_of_ymd, days_before_year, days_before_month,
      days_in_month, leap_day. rewrite Hl. cbn [Z.eqb Pos.eqb orb].
    split.
    + repeat (apply andb_true_iff; split); apply Z.leb_le; unfold year;
        Z.div_mod_to_equations; lia.
    + unfold year. Z.div_mod_to_equations. lia.
  - assert (Hs : n1 <> 4 /\ n100 <> 4).
    { apply orb_false_iff in Esp. rewrite !Z.eqb_neq in Esp. exact Esp. }
    assert (Hr : r1 < 365 + leap_day year).
    { pose proof (leap_day_cases year). lia. }
    assert (Hf : leap_day year = 1 -> n1 = 3).
    { unfold leap_day. destruct (is_leap year) eqn:El; [|discriminate].
      apply is_leap_spec in El. unfold year in El. intros _.
      Z.div_mod_to_equations. lia. }
    assert (Hd : days_before_year year = n - r1).
    { unfold days_before_year, year. Z.div_mod_to_equations. lia. }
    pose proof (month_day_spec year r1 ltac:(lia)) as Hm.
    destruct (month_day year r1) as [m d].
    destruct Hm as (Hm1 & Hm2 & Hm3).
    unfold valid_ymd, days_of_ymd. rewrite Hd. split; [|lia].
    repeat (apply andb_true_iff; split); apply Z.leb_le; lia.
Qed.

Lemma digit_ok n :
  0 <= n <= 9 ->
  DateTime.is_digit (digit n) = true /\ Z.of_N (digit n) - 48 = n.
Proof.
  intros H. unfold DateTime.is_digit, digit. split.
  - apply andb_true_iff. split; apply N.leb_le; lia.
  - lia.
Qed.

Lemma take_num_pad w acc n rest :
  0 <= n < 10 ^ Z.of_nat w ->
  take_num w acc (pad w n ++ rest) = Some (acc * 10 ^ Z.of_nat w + n, rest).
Proof.
  revert acc n. induction w as [|w IH]; intros acc n Hn.
  - simpl in *. f_equal. f_equal. lia.
  - rewrite Nat2Z.inj_succ, Z.pow_succ_r in * by lia.
    set (p := 10 ^ Z.of_nat w) in *.
    assert (Hp : 0 < p) by (apply Z.pow_pos_nonneg; lia).
    cbn [pad take_num app]. fold p.
    pose proof (Z.div_mod n p ltac:(lia)) as E.
    pose proof (Z.mod_pos_bound n p Hp) as B.
    assert (Hq : 0 <= n / p <= 9).
    { split; [apply Z.div_pos; lia|].
      assert (n / p < 10); [|lia].
      apply Z.div_lt_upper_bound; lia. }
    destruct (digit_ok (n / p) Hq) as [D1 D2].
    rewrite D1, D2, IH by exact B.
    f_equal. f_equal. lia.
Qed.

Lemma take_pad2 n rest :
  0 <= n < 100 -> take_num 2 0 (pad 2 n ++ rest) = Some (n, rest).
Proof. intros H. now rewrite take_num_pad. Qed.

Lemma take_pad4 n rest :
  0 <= n < 10000 -> take_num 4 0 (pad 4 n ++ rest) = Some (n, rest).
Proof. intros H. now rewrite take_num_pad. Qed.

Lemma take_pad6 n rest :
  0 <= n < 1000000 -> take_num 6 0 (pad 6 n ++ rest) = Some (n, rest).
Proof. intros H. now rewrite take_num_pad. Qed.

Lemma take_fraction_print us rest :
  0 <= us < 1000000 -> no_dot rest ->
  take_fraction (print_fraction us ++ rest) = Some (us, rest).
Proof.
  intros Hus Hr. unfold print_fraction.
  destruct (Z.eqb_spec us 0) as [->|Hne].
  - simpl. destruct rest as [|c r]; [reflexivity|].
    simpl in *. now rewrite Hr.
  - cbn [app take_fraction]. rewrite N.eqb_refl. now apply take_pad6.
Qed.

Lemma pad_digits w n :
  0 <= n < 10 ^ Z.of_nat w -> Forall (fun c => DateTime.is_digit c = true) (pad w n).
Proof.
  revert n. induction w as [|w IH]; intros n Hn; [constructor|].
  rewrite Nat2Z.inj_succ, Z.pow_succ_r in * by lia.
  set (p := 10 ^ Z.of_nat w) in *.
  assert (Hp : 0 < p) by (apply Z.pow_pos_nonneg; lia).
  cbn [pad]. fold p.
  constructor.
  - apply digit_ok. split; [apply Z.div_pos; lia|].
    assert (n / p < 10); [|lia]. apply Z.div_lt_upper_bound; lia.
  - apply IH. apply Z.mod_pos_bound. exact Hp.
Qed.

(** The time of day splits into fields that compose back. *)
Lemma time_of_day_fields t :
  0 <= t < DateTime.DAY ->
  0 <= t / DateTime.HOUR < 24
  /\ 0 <= (t / DateTime.MINUTE) mod 60 < 60
  /\ 0 <= (t / DateTime.SECOND) mod 60 < 60
  /\ 0 <= t mod DateTime.SECOND < 1000000
  /\ t / DateTime.HOUR * DateTime.HOUR
     + (t / DateTime.MINUTE) mod 60 * DateTime.MINUTE
     + (t / DateTime.SECOND) mod 60 * DateTime.SECOND
     + t mod DateTime.SECOND = t.
Proof.
  unfold DateTime.DAY, DateTime.HOUR, DateTime.MINUTE, DateTime.SECOND.
  intros H. Z.div_mod_to_equations. lia.
Qed.

Lemma parse_print_date_time w rest :
  0 <= w < DateTime.MAXWALL -> no_dot rest ->
  parse_date_time (print_date_time w ++ rest) = Some (w, rest).
Proof.
  intros Hw Hr. unfold print_date_time.
  assert (Hday : 0 <= w / DateTime.DAY < 3652059).
  { unfold DateTime.MAXWALL, DateTime.DAY, DateTime.HOUR in *.
    Z.div_mod_to_equations. lia. }
  pose proof (ymd_of_days_roundtrip _ Hday) as Hymd.
  destruct (ymd_of_days (w / DateTime.DAY)) as [[y m] d].
  destruct Hymd as [Hv Hd].
  assert (Ht : 0 <= w mod DateTime.DAY < DateTime.DAY).
  { apply Z.mod_pos_bound. reflexivity. }
  destruct (time_of_day_fields _ Ht) as (F1 & F2 & F3 & F4 & F5).
  pose proof Hv as Hv'. unfold valid_ymd in Hv'.
  repeat (apply andb_true_iff in Hv' as [Hv' ?]).
  assert (Hdim : days_in_month y m <= 31).
  { unfold days_in_month. pose proof (leap_day_cases y).
    repeat match goal with
           | |- context [if ?c then _ else _] => destruct c
           end; lia. }
  repeat (rewrite <- app_assoc || rewrite <- app_comm_cons).
  unfold parse_date_time.
  rewrite take_pad4 by lia. cbn [obind expect N.eqb Pos.eqb].
  rewrite take_pad2 by lia. cbn [obind expect N.eqb Pos.eqb].
  rewrite take_pad2 by lia. cbn [obind expect N.eqb Pos.eqb].
  rewrite take_pad2 by lia. cbn [obind expect N.eqb Pos.eqb].
  rewrite take_pad2 by lia. cbn [obind expect N.eqb Pos.eqb].
  rewrite take_pad2 by lia. cbn [obind].
  rewrite take_fraction_print by (assumption || lia). cbn [obind].
  rewrite Hv.
  assert (E1 : (w mod DateTime.DAY / DateTime.HOUR <? 24) = true)
    by (apply Z.ltb_lt; lia).
  assert (E2 : ((w mod DateTime.DAY / DateTime.MINUTE) mod 60 <? 60) = true)
    by (apply Z.ltb_lt; lia).
  assert (E3 : ((w mod DateTime.DAY / DateTime.SECOND) mod 60 <? 60) = true)
    by (apply Z.ltb_lt; lia).
  rewrite E1, E2, E3. cbn [andb].
  f_equal. f_equal. rewrite Hd.
  pose proof (Z.div_mod w DateTime.DAY ltac:(discriminate)). lia.
Qed.

Lemma offset_fields a :
  0 <= a < DateTime.DAY ->
  0 <= a / DateTime.HOUR < 24
  /\ 0 <= (a / DateTime.MINUTE) mod 60 < 60
  /\ 0 <= (a / DateTime.SECOND) mod 60 < 60
  /\ 0 <= a mod DateTime.SECOND < 1000000
  /\ (a / DateTime.SECOND) mod 60 * DateTime.SECOND + a mod DateTime.SECOND
     = a mod DateTime.MINUTE
  /\ a / DateTime.HOUR * DateTime.HOUR
     + (a / DateTime.MINUTE) mod 60 * DateTime.MINUTE
     + a mod DateTime.MINUTE = a.
Proof.
  unfold DateTime.DAY, DateTime.HOUR, DateTime.MINUTE, DateTime.SECOND.
  intros H. Z.div_mod_to_equations. lia.
Qed.

Lemma parse_offset_tail_print a :
  0 <= a < DateTime.DAY ->
  parse_offset_tail (offset_tail a) = Some (a mod DateTime.MINUTE).
Proof.
  intros Ha. destruct (offset_fields a Ha) as (F1 & F2 & F3 & F4 & F5 & F6).
  unfold offset_tail.
  destruct (Z.eqb_spec (a mod DateTime.MINUTE) 0) as [E|E].
  - simpl. now rewrite E.
  - cbn [parse_offset_tail expect N.eqb Pos.eqb obind].
    rewrite take_pad2 by lia. cbn [obind].
    rewrite <- (app_nil_r (print_fraction _)).
    rewrite take_fraction_print by (simpl; auto; lia). cbn [obind].
    assert (E3 : ((a / DateTime.SECOND) mod 60 <? 60) = true)
      by (apply Z.ltb_lt; lia).
    rewrite E3. f_equal. exact F5.
Qed.

Lemma print_offset_shape off :
  print_offset off =
    (if off <? 0 then 45%N else 43%N)
    :: pad 2 (Z.abs off / DateTime.HOUR) ++ 58%N
    :: pad 2 ((Z.abs off / DateTime.MINUTE) mod 60) ++ offset_tail (Z.abs off).
Proof. reflexivity. Qed.

Lemma parse_print_offset a :
  0 <= a < DateTime.DAY ->
  parse_offset (pad 2 (a / DateTime.HOUR) ++ 58%N
                :: pad 2 ((a / DateTime.MINUTE) mod 60) ++ offset_tail a)
  = Some a.
Proof.
  intros Ha. destruct (offset_fields a Ha) as (F1 & F2 & F3 & F4 & F5 & F6).
  unfold parse_offset.
  rewrite take_pad2 by lia. cbn [obind expect N.eqb Pos.eqb].
  rewrite take_pad2 by lia. cbn [obind].
  rewrite (parse_offset_tail_print a Ha). cbn [obind].
  assert (E1 : (a / DateTime.HOUR <? 24) = true) by (apply Z.ltb_lt; lia).
  assert (E2 : ((a / DateTime.MINUTE) mod 60 <? 60) = true)
    by (apply Z.ltb_lt; lia).
  rewrite E1, E2. cbn [andb]. f_equal. exact F6.
Qed.

Lemma valid_bounds d :
  DateTime.valid d = true ->
  0 <= DateTime.wall d < DateTime.MAXWALL
  /\ - DateTime.DAY < DateTime.utcoffset d < DateTime.DAY.
Proof.
  unfold DateTime.valid, DateTime.in_range. intros H.
  repeat (apply andb_true_iff in H as [H ?]).
  rewrite ?Z.leb_le, ?Z.ltb_lt in *. lia.
Qed.

Lemma iso_parse_print d :
  DateTime.valid d = true ->
  iso_parse (iso_print d) = Some (DateTime.Aware d).
Proof.
  intros Hv. destruct (valid_bounds d Hv) as [Hw Ho].
  destruct d as [w off]. cbn [DateTime.wall DateTime.utcoffset] in *.
  unfold iso_parse, iso_print. cbn [DateTime.wall DateTime.utcoffset].
  rewrite print_offset_shape.
  rewrite parse_print_date_time;
    [|exact Hw|simpl; now destruct (off <? 0)].
  cbn [obind].
  assert (Ha : 0 <= Z.abs off < DateTime.DAY) by lia.
  destruct (Z.ltb_spec off 0) as [Hneg|Hpos]; cbn [N.eqb Pos.eqb orb];
    rewrite (parse_print_offset _ Ha); cbn [obind].
  - replace (- Z.abs off) with off by lia. now rewrite Hv.
  - replace (Z.abs off) with off by lia. now rewrite Hv.
Qed.

Lemma iso_parse_valid s p :
  iso_parse s = Some p -> DateTime.parsed_valid p = true.
Proof.
  unfold iso_parse.
  destruct (parse_date_time s) as [[w r]|]; [|discriminate]. cbn [obind].
  destruct r as [|c r].
  - destruct (DateTime.in_range w) eqn:E; [|discriminate].
    intros H. injection H as <-. exact E.
  - destruct ((c =? 43)%N || (c =? 45)%N); [|discriminate].
    destruct (parse_offset r) as [a|]; [|discriminate]. cbn [obind].
    destruct (DateTime.valid _) eqn:E; [|discriminate].
    intros H. injection H as <-. exact E.
Qed.

Lemma last_app_digits (l1 l2 : str) :
  l2 <> [] -> Forall (fun c => DateTime.is_digit c = true) l2 ->
  DateTime.is_digit (last (l1 ++ l2) 0%N) = true.
Proof.
  intros Hne Hd.
  destruct (exists_last Hne) as (l & x & ->).
  rewrite app_assoc, last_last.
  apply Forall_app in Hd as [_ Hd]. now inversion Hd.
Qed.

Lemma pad2_digits n :
  0 <= n < 100 -> Forall (fun c => DateTime.is_digit c = true) (pad 2 n).
Proof. intros H. now apply pad_digits. Qed.

Lemma pad6_digits n :
  0 <= n < 1000000 -> Forall (fun c => DateTime.is_digit c = true) (pad 6 n).
Proof. intros H. now apply pad_digits. Qed.

Lemma print_offset_ends off :
  - DateTime.DAY < off < DateTime.DAY ->
  exists X Y, print_offset off = X ++ Y /\ Y <> []
              /\ Forall (fun c => DateTime.is_digit c = true) Y.
Proof.
  intros Ho. assert (Ha : 0 <= Z.abs off < DateTime.DAY) by lia.
  destruct (offset_fields _ Ha) as (F1 & F2 & F3 & F4 & F5 & F6).
  rewrite print_offset_shape. unfold offset_tail, print_fraction.
  destruct (Z.abs off mod DateTime.MINUTE =? 0).
  - exists ((if off <? 0 then 45%N else 43%N)
            :: pad 2 (Z.abs off / DateTime.HOUR) ++ [58%N]),
           (pad 2 ((Z.abs off / DateTime.MINUTE) mod 60)).
    split; [|split; [discriminate|apply pad2_digits; lia]].
    rewrite app_nil_r. cbn [app]. now rewrite <- app_assoc.
  - destruct (Z.abs off mod DateTime.SECOND =? 0).
    + exists ((if off <? 0 then 45%N else 43%N)
              :: pad 2 (Z.abs off / DateTime.HOUR) ++ 58%N
              :: pad 2 ((Z.abs off / DateTime.MINUTE) mod 60) ++ [58%N]),
             (pad 2 ((Z.abs off / DateTime.SECOND) mod 60)).
      split; [|split; [discriminate|apply pad2_digits; lia]].
      rewrite app_nil_r. cbn [app].
      now repeat (rewrite <- app_assoc || rewrite <- app_comm_cons).
    + exists ((if off <? 0 then 45%N else 43%N)
              :: pad 2 (Z.abs off / DateTime.HOUR) ++ 58%N
              :: pad 2 ((Z.abs off / DateTime.MINUTE) mod 60) ++ 58%N
              :: pad 2 ((Z.abs off / DateTime.SECOND) mod 60) ++ [46%N]),
             (pad 6 (Z.abs off mod DateTime.SECOND)).
      split; [|split; [discriminate|apply pad6_digits; lia]].
      cbn [app].
      now repeat (rewrite <- app_assoc || rewrite <- app_comm_cons).
Qed.

Lemma print_date_time_head w :
  0 <= w < DateTime.MAXWALL ->
  exists a r, print_date_time w = a :: r /\ DateTime.is_digit a = true.
Proof.
  intros Hw.
  assert (Hday : 0 <= w / DateTime.DAY < 3652059).
  { unfold DateTime.MAXWALL, DateTime.DAY, DateTime.HOUR in *.
    Z.div_mod_to_equations. lia. }
  pose proof (ymd_of_days_roundtrip _ Hday) as Hymd.
  unfold print_date_time.
  destruct (ymd_of_days (w / DateTime.DAY)) as [[y m] dd].
  destruct Hymd as [Hymd _]. unfold valid_ymd in Hymd.
  repeat (apply andb_true_iff in Hymd as [Hymd ?]).
  apply Z.leb_le in Hymd.
  assert (Hy : y <= 9999) by now apply Z.leb_le.
  change (pad 4 y)
    with (digit (y / 1000) :: pad 3 (y mod 10 ^ Z.of_nat 3)).
  eexists. eexists. split; [reflexivity|].
  apply digit_ok. clear - Hymd Hy. Z.div_mod_to_equations. lia.
Qed.

Lemma iso_print_shape d :
  DateTime.valid d = true -> DateTime.iso_shape (iso_print d) = true.
Proof.
  intros Hv. destruct (valid_bounds d Hv) as [Hw Ho].
  destruct (print_offset_ends _ Ho) as (X & Y & E & Hne & Hd).
  destruct (print_date_time_head _ Hw) as (a & r & Ea & Ha).
  unfold iso_print. rewrite E, app_assoc.
  pose proof (last_app_digits (print_date_time (DateTime.wall d) ++ X) Y
                Hne Hd) as Hl.
  unfold DateTime.iso_shape.
  destruct ((print_date_time (DateTime.wall d) ++ X) ++ Y) as [|c s] eqn:Es.
  - rewrite Ea in Es. discriminate.
  - rewrite Hl, andb_true_r. rewrite Ea in Es. injection Es as <- _.
    exact Ha.
Qed.

(** The implementation keeps the promises of the interface. *)
Lemma library_laws : PyLibLaws library.
Proof.
  constructor.
  - exact iso_parse_print.
  - exact iso_parse_valid.
  - exact iso_print_shape.
Qed.

End Iso8601Facts.

(** ** Reconciling tracking windows ([_merge_tracking]) *)

Module TrackingFacts.
Import Py ParserPost TrackingDefs.

(** The ranks [_merge_tracking] compares are those of records made of a
    history and a timeline only: their first component, the start rank, is
    infinite whatever the windows' start times are. *)
Lemma merge_rank_has_no_start `{PyLib} (history timeline : value) :
  fst (fst (_tracking_rank [ (lit "history_24h", history);
                             (lit "timeline", timeline) ]))
  = PrimFloat.infinity.
Proof. reflexivity. Qed.

#[local] Existing Instance Iso8601.library.
#[local] Existing Instance Iso8601Facts.library_laws.

(** C8 (the code's behaviour at the failing input).  [_tracking_rank]
    ranks the window that started earlier below the other; the merged
    record takes its start time, the earlier one, but keeps the history of
    the window that started later, whichever way round the two are
    merged: the ranks [_merge_tracking] compares are taken from records
    that hold no start time. *)
Theorem merge_tracking_ranks_without_start :
  rank_ltb (_tracking_rank (_normalize_tracking early))
           (_tracking_rank (_normalize_tracking late)) = true
  /\ lookup (_merge_tracking late early) (lit "started_at_utc")
     = Some (VStr (lit "2024-01-01T00:00:00+00:00"))
  /\ lookup (_merge_tracking late early) (lit "history_24h")
     = Some (VDict [ (lit "ready_hours", VInt 24);
                     (lit "finalized", VBool true) ])
  /\ lookup (_merge_tracking early late) (lit "history_24h")
     = Some (VDict [ (lit "ready_hours", VInt 24);
                     (lit "finalized", VBool true) ]).
Proof. repeat split; vm_compute; reflexivity. Qed.

End TrackingFacts.

(** ** The output of [_normalize_timeline] *)

Module PointFacts.
Import Py ParserPost DictDefs SortDefs TimelineDefs PointDefs.
Import StrFacts DictFacts SortFacts ParseFacts TimelineFacts.

Lemma ins_perm {A} (key : A -> Z) x l : Permutation (ins key x l) (x :: l).
Proof.
  induction l as [|y l IH]; simpl; [reflexivity|].
  destruct (key x <=? key y); [reflexivity|].
  rewrite IH. apply perm_swap.
Qed.

Lemma isort_perm {A} (key : A -> Z) l : Permutation (isort key l) l.
Proof.
  induction l as [|x l IH]; simpl; [reflexivity|].
  rewrite ins_perm. now constructor.
Qed.

Lemma isort_ordered_id {A} (key : A -> Z) l : ordered key l -> isort key l = l.
Proof.
  induction l as [|x l IH]; simpl; [reflexivity|].
  intros [Hx Hl]. rewrite (IH Hl).
  destruct l as [|y l]; simpl; [reflexivity|].
  destruct (key x <=? key y) eqn:E; [reflexivity|].
  specialize (Hx y (or_introl eq_refl)). lia.
Qed.

Lemma ordered_filter {A} (key : A -> Z) f l :
  ordered key l -> ordered key (filter f l).
Proof.
  induction l as [|x l IH]; simpl; [trivial|].
  intros [Hx Hl]. destruct (f x); simpl; [|now apply IH].
  split; [|now apply IH].
  intros y Hy. apply filter_In in Hy. now apply Hx.
Qed.

Lemma Forall_build (P : str * value -> Prop) b es :
  Forall P b -> Forall P es -> Forall P (build_from b es).
Proof.
  revert b. induction es as [|[k p] es IH]; intros b Hb Hes; simpl;
    [exact Hb|].
  inversion Hes as [|? ? Hk Hes']; subst.
  apply IH; [|exact Hes'].
  apply Forall_forall. intros kp Hkp.
  apply in_set in Hkp. destruct Hkp as [->|Hkp]; [exact Hk|].
  now apply (proj1 (Forall_forall _ _) Hb).
Qed.

Lemma NoDup_map_VStr (l : list str) : NoDup l -> NoDup (map VStr l).
Proof.
  induction 1 as [|x l Hx _ IH]; simpl; constructor; [|exact IH].
  intros Hin. apply in_map_iff in Hin. destruct Hin as (y & E & Hy).
  injection E as ->. contradiction.
Qed.

Section WithLibrary.
Context {L : PyLib}.

Lemma Forall_entries (P : str * value -> Prop) l :
  (forall e kp, normalize_entry e = Some kp -> P kp) -> Forall P (entries l).
Proof.
  intros H. induction l as [|e l IH]; simpl; [constructor|].
  apply Forall_app. split; [|exact IH].
  unfold entry_of. destruct (normalize_entry e) as [kp|] eqn:E;
    constructor; [now apply (H e)|constructor].
Qed.

Lemma Forall_bucket (P : str * value -> Prop) l :
  (forall e kp, normalize_entry e = Some kp -> P kp) ->
  Forall P (bucket_of l).
Proof.
  intros H. apply Forall_build; [constructor|now apply Forall_entries].
Qed.

Lemma Forall_normalized (P : value -> Prop) raw :
  (forall e k p, normalize_entry e = Some (k, p) -> P p) ->
  Forall P (_normalize_timeline raw).
Proof.
  intros H.
  destruct raw as [ | | | | |l| ]; try constructor.
  rewrite normalize_timeline_list. fold (bucket_of l).
  apply Forall_forall. intros p Hp.
  apply in_isort_iff in Hp. unfold values in Hp. apply in_map_iff in Hp.
  destruct Hp as ([k p'] & <- & Hin).
  assert (HF : Forall (fun kp => P (snd kp)) (bucket_of l)).
  { apply Forall_bucket. intros e [k0 p0] E. now apply (H e k0). }
  now apply (proj1 (Forall_forall _ _) HF (k, p')).
Qed.

Lemma normalize_entry_point e k p :
  normalize_entry e = Some (k, p) ->
  exists d ts, e = VDict d /\ k = isoformat ts
               /\ _parse_ts (strip (py_str (get d (lit "ts_utc") (VStr []))))
                  = Some ts
               /\ p = VDict (point_of k d).
Proof.
  destruct e as [ | | | | | |d]; try discriminate.
  rewrite normalize_entry_dict.
  destruct (_parse_ts _) as [ts|] eqn:E; [|discriminate].
  intros H. injection H as <- <-. now exists d, ts.
Qed.

Lemma point_of_shape ts e : point_shape (VDict (point_of (isoformat ts) e)).
Proof.
  exists (point_of (isoformat ts) e), ts.
  split; [reflexivity|]. split; [reflexivity|]. split; [reflexivity|].
  assert (C : forall v, clean_metric v = VNone
                        \/ isinstance_int (clean_metric v) = true).
  { intros v. unfold clean_metric.
    destruct (isinstance_int v) eqn:E; [now right|now left]. }
  unfold TRACK_METRICS.
  repeat (constructor; [apply C|]). constructor.
Qed.

(** The timestamps of the points of a bucket are its keys. *)
Lemma ts_of_bucket l :
  map ts_of (values (bucket_of l)) = map VStr (keys (bucket_of l)).
Proof.
  assert (HF : Forall (fun kp => ts_of (snd kp) = VStr (fst kp)) (bucket_of l)).
  { apply Forall_bucket. intros e [k p] E.
    apply normalize_entry_point in E.
    destruct E as (d & ts & _ & _ & _ & ->). reflexivity. }
  induction HF as [|[k p] b Hk _ IH]; simpl; [reflexivity|].
  simpl in Hk. now rewrite Hk, IH.
Qed.

End WithLibrary.

(** X1.  The output of [_normalize_timeline] is well formed: its points
    are in time order, no two of them carry the same [ts_utc], and each is
    a dictionary of the timestamp and the five metrics, a metric being an
    [int] or [None]. *)
Theorem normalized_timeline_well_formed `{PyLib} (raw : value) :
  ordered inst (_normalize_timeline raw)
  /\ NoDup (map ts_of (_normalize_timeline raw))
  /\ Forall point_shape (_normalize_timeline raw).
Proof.
  split; [|split].
  - destruct raw as [ | | | | |l| ]; try exact I.
    rewrite normalize_timeline_list. apply ordered_isort.
  - destruct raw as [ | | | | |l| ]; try constructor.
    rewrite normalize_timeline_list. fold (bucket_of l).
    apply (Permutation_NoDup (l := map ts_of (values (bucket_of l)))).
    + apply Permutation_map. symmetry. apply isort_perm.
    + rewrite ts_of_bucket. apply NoDup_map_VStr, NoDup_bucket.
  - apply Forall_normalized. intros e k p E.
    apply normalize_entry_point in E.
    destruct E as (d & ts & _ & -> & _ & ->). apply point_of_shape.
Qed.

End PointFacts.

(** ** Normal timelines, and the scan of [_value_at_time] over them *)

Module NormalFacts.
Import Py ParserPost DictDefs SortDefs TimelineDefs HistoryDefs PointDefs.
Import StrFacts DictFacts SortFacts ParseFacts TimelineFacts HistoryFacts.
Import PointFacts.





Lemma filter_none {A} (f : A -> bool) l :
  (forall x, In x l -> f x = false) -> filter f l = [].
Proof.
  induction l as [|x l IH]; simpl; [reflexivity|].
  intros H. rewrite (H x (or_introl eq_refl)). apply IH.
  intros y Hy. apply H. now right.
Qed.

Lemma filter_filter {A} (f : A -> bool) l : filter f (filter f l) = filter f l.
Proof.
  induction l as [|x l IH]; simpl; [reflexivity|].
  destruct (f x) eqn:E; simpl; [rewrite E, IH|]; auto.
Qed.

Section WithLibrary.
Context {L : PyLib} {LL : PyLibLaws L}.

Lemma values_entries tl :
  Forall (fun p => exists k, wk (k, p)) tl -> values (entries tl) = tl.
Proof.
  induction 1 as [|p tl (k & Hf & _) _ IH]; [reflexivity|].
  simpl in Hf. unfold values, entries in *. simpl.
  unfold entry_of at 1. rewrite Hf. simpl. now rewrite IH.
Qed.

Lemma normal_fixed tl : normal tl -> _normalize_timeline (VList tl) = tl.
Proof.
  intros (Hwk & Hnd & Hord).
  rewrite normalize_timeline_list, build_nodup by exact Hnd.
  rewrite values_entries by exact Hwk.
  now apply isort_ordered_id.
Qed.

Lemma normalized_normal raw : normal (_normalize_timeline raw).
Proof.
  destruct raw as [ | | | | |l| ];
    try (split; [constructor|split; [constructor|exact I]]).
  rewrite normalize_timeline_list. fold (bucket_of l).
  split; [|split].
  - apply Forall_forall. intros p Hp.
    apply in_isort_iff in Hp. unfold values in Hp. apply in_map_iff in Hp.
    destruct Hp as ([k p'] & <- & Hin). exists k.
    apply (proj1 (Forall_forall _ _) (wk_bucket l) _ Hin).
  - apply (Permutation_NoDup (l := keys (bucket_of l))); [|apply NoDup_bucket].
    unfold keys. apply Permutation_map.
    rewrite <- (entries_values (bucket_of l)) at 1 by apply wk_bucket.
    unfold entries. apply Permutation_flat_map. symmetry. apply isort_perm.
  - apply ordered_isort.
Qed.

Lemma keys_entries_filter f tl k :
  In k (keys (entries (filter f tl))) -> In k (keys (entries tl)).
Proof.
  unfold keys. rewrite !in_map_iff.
  intros (kp & E & Hin). exists kp. split; [exact E|].
  apply in_entries in Hin. destruct Hin as (e & He & Hn).
  apply filter_In in He. apply in_entries. exists e. tauto.
Qed.

Lemma normal_filter f tl : normal tl -> normal (filter f tl).
Proof.
  intros (Hwk & Hnd & Hord). split; [|split].
  - apply Forall_forall. intros p Hp. apply filter_In in Hp.
    now apply (proj1 (Forall_forall _ _) Hwk).
  - clear Hwk Hord. induction tl as [|x tl IH]; simpl; [constructor|].
    simpl in Hnd. unfold keys in Hnd. rewrite map_app in Hnd.
    assert (Htl : NoDup (keys (entries tl))).
    { now apply NoDup_app_remove_l in Hnd. }
    destruct (f x); [|now apply IH].
    simpl. unfold keys. rewrite map_app. fold (keys (entries (filter f tl))).
    unfold entry_of in *. destruct (normalize_entry x) as [[k p]|]; simpl in *;
      [|now apply IH].
    inversion Hnd as [|? ? Hk _]; subst.
    constructor; [|now apply IH].
    intros Hin. apply Hk. now apply keys_entries_filter in Hin.
  - now apply ordered_filter.
Qed.

Lemma normalized_stamped raw : Forall stamped (_normalize_timeline raw).
Proof.
  apply Forall_normalized. intros e k p E.
  apply normalize_entry_point in E.
  destruct E as (d & ts & _ & -> & Hts & ->).
  apply parse_ts_valid in Hts.
  exists (point_of (isoformat ts) d). split; [reflexivity|].
  unfold sort_key.
  change (get (point_of (isoformat ts) d) (lit "ts_utc") VNone)
    with (VStr (isoformat ts)).
  change (get (point_of (isoformat ts) d) (lit "ts_utc") (VStr []))
    with (VStr (isoformat ts)).
  simpl py_str. now rewrite parse_ts_isoformat.
Qed.

Lemma stamped_dicts tl : Forall stamped tl -> all_dicts tl.
Proof.
  unfold all_dicts. apply Forall_impl. now intros p (d & -> & _).
Qed.

Lemma value_at_sorted acc tl tau metric :
  Forall stamped tl -> ordered inst tl ->
  value_at acc tl tau metric
  = fold_left
      (fun acc p =>
         match _metric_value p metric with
         | Some v => Some v
         | None => acc
         end)
      (upto tau tl) acc.
Proof.
  intros Hst. revert acc.
  induction Hst as [|p tl (d & -> & Hp) _ IH]; intros acc Hord;
    [reflexivity|].
  destruct Hord as [Hhd Hord].
  cbn [value_at]. rewrite Hp.
  unfold upto. cbn [filter]. unfold inst at 1.
  destruct (tau <? DateTime.instant (sort_key (VDict d))) eqn:E.
  - replace (DateTime.instant (sort_key (VDict d)) <=? tau) with false by lia.
    rewrite filter_none; [reflexivity|].
    intros y Hy. specialize (Hhd y Hy). unfold inst in *. lia.
  - replace (DateTime.instant (sort_key (VDict d)) <=? tau) with true by lia.
    cbn [fold_left]. now apply IH.
Qed.

End WithLibrary.

(** X2.  [_normalize_timeline] is idempotent. *)
Theorem normalize_timeline_idempotent {L : PyLib} {LL : PyLibLaws L}
  (raw : value) :
  _normalize_timeline (VList (_normalize_timeline raw))
  = _normalize_timeline raw.
Proof. apply normal_fixed, normalized_normal. Qed.


(** X4.  on a normalised timeline [_value_at_time] returns the value of
    the metric at the last point at or before the target that has one. *)
Theorem value_at_time_on_normalized {L : PyLib} {LL : PyLibLaws L}
  (raw : value) (target : DateTime.datetime) (metric : str) :
  _value_at_time (_normalize_timeline raw) target metric
  = Ok (last_value (upto (DateTime.instant target) (_normalize_timeline raw))
                   metric).
Proof.
  rewrite value_at_time_ok by apply stamped_dicts, normalized_stamped.
  f_equal. apply value_at_sorted; [apply normalized_stamped|].
  apply normalized_normal.
Qed.

End NormalFacts.

(** ** The tracking horizon *)

Module HorizonFacts.
Import Py ParserPost ParserPostTracking.
Import DictDefs SortDefs TimelineDefs HistoryDefs PointDefs WindowDefs.
Import StrFacts DictFacts SortFacts ParseFacts TimelineFacts HistoryFacts.
Import PointFacts NormalFacts.

(** Two literals of the source are different strings. *)
Ltac lit_neq :=
  let E := fresh "E" in intros E; vm_compute in E; discriminate E.

Section WithLibrary.
Context {L : PyLib} {LL : PyLibLaws L}.

Lemma within_horizon_ok tl h :
  Forall stamped tl ->
  within_horizon tl h = Ok (upto (DateTime.instant h) tl).
Proof.
  induction 1 as [|p tl (d & -> & Hp) _ IH]; [reflexivity|].
  cbn [within_horizon]. rewrite Hp, IH. reflexivity.
Qed.

Lemma apply_tracking_horizon_eq tracking :
  _apply_tracking_horizon tracking =
    match start_of tracking with
    | None => Ok (set tracking (lit "timeline") (VList (timeline_of tracking)))
    | Some start =>
        if DateTime.in_range (DateTime.wall start + DateTime.DAY)
        then Ok (set tracking (lit "timeline")
                     (VList (upto (DateTime.instant start + DateTime.DAY)
                                  (timeline_of tracking))))
        else Raise OverflowError
    end.
Proof.
  unfold _apply_tracking_horizon. fold (start_of tracking).
  fold (timeline_of tracking).
  destruct (start_of tracking) as [start|]; [|reflexivity].
  unfold DateTime.add. change (DateTime.hours 24) with DateTime.DAY.
  destruct (DateTime.in_range _); [|reflexivity].
  simpl bind.
  rewrite within_horizon_ok by apply normalized_stamped.
  simpl bind. do 4 f_equal. unfold DateTime.instant.
  cbn [DateTime.wall DateTime.utcoffset]. lia.
Qed.

Lemma start_of_set_timeline tracking v :
  start_of (set tracking (lit "timeline") v) = start_of tracking.
Proof.
  unfold start_of. now rewrite get_set_other by lit_neq.
Qed.

Lemma timeline_of_set_timeline tracking tl :
  normal tl -> timeline_of (set tracking (lit "timeline") (VList tl)) = tl.
Proof.
  intros H. unfold timeline_of. rewrite get_set_same. now apply normal_fixed.
Qed.

Lemma apply_tracking_horizon_again tracking r :
  _apply_tracking_horizon tracking = Ok r ->
  _apply_tracking_horizon r = Ok r.
Proof.
  rewrite apply_tracking_horizon_eq.
  destruct (start_of tracking) as [start|] eqn:Es.
  - destruct (DateTime.in_range _) eqn:Er; [|discriminate].
    intros H. injection H as <-.
    rewrite apply_tracking_horizon_eq, start_of_set_timeline, Es, Er.
    rewrite timeline_of_set_timeline
      by apply normal_filter, normalized_normal.
    unfold upto. now rewrite filter_filter, set_set.
  - intros H. injection H as <-.
    rewrite apply_tracking_horizon_eq, start_of_set_timeline, Es.
    rewrite timeline_of_set_timeline by apply normalized_normal.
    now rewrite set_set.
Qed.

End WithLibrary.

(** X5.  [_apply_tracking_horizon] rewrites the timeline and nothing else:
    with no resolvable start the timeline is normalised; with a start it is
    cut to the normalised points at or before start + 24 h; the call fails,
    with [OverflowError], only when start + 24 h is past year 9999. *)
Theorem horizon_keeps_the_first_day {L : PyLib} {LL : PyLibLaws L}
  (tracking : dict) :
  _apply_tracking_horizon tracking =
    match start_of tracking with
    | None => Ok (set tracking (lit "timeline") (VList (timeline_of tracking)))
    | Some start =>
        if DateTime.in_range (DateTime.wall start + DateTime.DAY)
        then Ok (set tracking (lit "timeline")
                     (VList (upto (DateTime.instant start + DateTime.DAY)
                                  (timeline_of tracking))))
        else Raise OverflowError
    end.
Proof. apply apply_tracking_horizon_eq. Qed.

(** X6.  applying the horizon a second time changes nothing. *)
Theorem horizon_idempotent {L : PyLib} {LL : PyLibLaws L}
  (tracking r : dict) :
  _apply_tracking_horizon tracking = Ok r ->
  _apply_tracking_horizon r = Ok r.
Proof. apply apply_tracking_horizon_again. Qed.

End HorizonFacts.

(** ** Tracking records: normal form and merge *)

Module RecordFacts.
Import Py ParserPost.
Import DictDefs SortDefs TimelineDefs HistoryDefs PointDefs WindowDefs.
Import RecordDefs.
Import StrFacts DictFacts SortFacts ParseFacts TimelineFacts HistoryFacts.
Import PointFacts NormalFacts HorizonFacts.

Lemma get_cons_same (d : dict) k v dflt : get ((k, v) :: d) k dflt = v.
Proof. unfold get. simpl. now rewrite str_eqb_refl. Qed.

Lemma get_cons_other (d : dict) k k' v dflt :
  k <> k' -> get ((k, v) :: d) k' dflt = get d k' dflt.
Proof.
  intros H. unfold get. simpl.
  destruct (str_eqb k' k) eqn:E; [|reflexivity].
  apply str_eqb_eq in E. congruence.
Qed.

(** Reads a literal key off a dictionary given entry by entry. *)
Ltac get_lit :=
  repeat first [ rewrite get_cons_same
               | rewrite get_cons_other by lit_neq
               | progress change (get [] ?k ?d) with d ].

Section WithLibrary.
Context {L : PyLib} {LL : PyLibLaws L}.

Lemma normalize_tracking_eq v :
  _normalize_tracking v
  = assemble (start_of (as_dict v)) (timeline_of (as_dict v))
             (history_in (as_dict v)).
Proof.
  unfold _normalize_tracking, assemble, history_in, json_copy.
  fold (start_of (as_dict v)). fold (timeline_of (as_dict v)).
  destruct (start_of (as_dict v)) as [d|];
    destruct (timeline_of (as_dict v)) as [|p tl];
    destruct (isinstance_dict (get (as_dict v) (lit "history_24h") VNone));
    reflexivity.
Qed.

Lemma parse_ts_empty : _parse_ts [] = None.
Proof. reflexivity. Qed.

Lemma start_of_assemble s tl h :
  (forall d, s = Some d -> DateTime.valid d = true) ->
  start_of (assemble s tl h) = s.
Proof.
  intros Hs. unfold start_of, assemble.
  destruct s as [d|], tl as [|p tl], h as [x|]; simpl app; get_lit;
    simpl py_str; try reflexivity;
    apply parse_ts_isoformat; now apply Hs.
Qed.

Lemma timeline_of_assemble s tl h :
  normal tl -> timeline_of (assemble s tl h) = tl.
Proof.
  intros Hn. unfold timeline_of, assemble.
  destruct s as [d|], tl as [|p tl], h as [x|]; simpl app; get_lit;
    try reflexivity; now apply normal_fixed.
Qed.

Lemma history_in_assemble s tl h :
  (forall x, h = Some x -> isinstance_dict x = true) ->
  history_in (assemble s tl h) = h.
Proof.
  intros Hh. unfold history_in, assemble.
  destruct s as [d|], tl as [|p tl], h as [x|]; simpl app; get_lit;
    try reflexivity; now rewrite (Hh x eq_refl).
Qed.

Lemma normalize_assemble s tl h :
  (forall d, s = Some d -> DateTime.valid d = true) ->
  normal tl ->
  (forall x, h = Some x -> isinstance_dict x = true) ->
  _normalize_tracking (VDict (assemble s tl h)) = assemble s tl h.
Proof.
  intros Hs Hn Hh. rewrite normalize_tracking_eq. cbn [as_dict].
  now rewrite start_of_assemble, timeline_of_assemble, history_in_assemble.
Qed.

Lemma start_of_valid tracking d :
  start_of tracking = Some d -> DateTime.valid d = true.
Proof. apply parse_ts_valid. Qed.

Lemma history_in_dict tracking x :
  history_in tracking = Some x -> isinstance_dict x = true.
Proof.
  unfold history_in.
  destruct (isinstance_dict _) eqn:E; [|discriminate].
  intros H. now injection H as <-.
Qed.

Lemma normalize_tracking_again v :
  _normalize_tracking (VDict (_normalize_tracking v)) = _normalize_tracking v.
Proof.
  rewrite (normalize_tracking_eq v). apply normalize_assemble.
  - apply start_of_valid.
  - apply normalized_normal.
  - apply history_in_dict.
Qed.

Lemma timeline_of_raw v :
  timeline_of (as_dict v) = _normalize_timeline (VList (raw_points v)).
Proof.
  unfold timeline_of, raw_points.
  now destruct (get (as_dict v) (lit "timeline") VNone).
Qed.

Lemma started_text_assemble s tl h :
  py_str (get (assemble s tl h) (lit "started_at_utc") (VStr []))
  = match s with Some d => isoformat d | None => [] end.
Proof.
  unfold assemble.
  destruct s as [d|], tl as [|p tl], h as [x|]; simpl app; get_lit;
    reflexivity.
Qed.

Lemma lookup_get (d : dict) k :
  or_empty (lookup d k)
  = match get d k (VList []) with VList l => l | _ => [] end.
Proof. unfold get. now destruct (lookup d k) as [[ | | | | | | ]|]. Qed.

Lemma timeline_entry_assemble s tl h :
  get (assemble s tl h) (lit "timeline") (VList []) = VList tl.
Proof.
  unfold assemble.
  destruct s as [d|], tl as [|p tl], h as [x|]; simpl app; get_lit;
    reflexivity.
Qed.

Lemma candidates_eq (sb se : option DateTime.datetime) :
  (forall d, sb = Some d -> DateTime.valid d = true) ->
  (forall d, se = Some d -> DateTime.valid d = true) ->
  min_started
    (fold_left
       (fun (acc : list DateTime.datetime) (candidate : str) =>
          match _parse_ts candidate with
          | Some ts => acc ++ [ts]
          | None => acc
          end)
       [ match sb with Some d => isoformat d | None => [] end;
         match se with Some d => isoformat d | None => [] end ]
       [])
  = earliest sb se.
Proof.
  intros Hb He. cbn [fold_left].
  destruct sb as [x|], se as [y|];
    repeat (rewrite parse_ts_isoformat by auto);
    rewrite ?parse_ts_empty; reflexivity.
Qed.

Lemma earliest_valid (a b : dict) d :
  earliest (start_of a) (start_of b) = Some d -> DateTime.valid d = true.
Proof.
  unfold earliest.
  destruct (start_of a) as [x|] eqn:Ex, (start_of b) as [y|] eqn:Ey;
    try discriminate; intros E; injection E as <-;
    try destruct (DateTime.ltb y x);
    eauto using start_of_valid.
Qed.

Lemma history_entry_assemble s tl h :
  (forall x, h = Some x -> isinstance_dict x = true) ->
  (if isinstance_dict (get (assemble s tl h) (lit "history_24h") VNone)
   then get (assemble s tl h) (lit "history_24h") VNone
   else VDict [])
  = match h with Some x => x | None => VDict [] end.
Proof.
  intros Hh. unfold assemble.
  destruct s as [d|], tl as [|p tl], h as [x|]; simpl app; get_lit;
    try reflexivity; now rewrite (Hh x eq_refl).
Qed.

Lemma history_or_empty_dict tracking :
  isinstance_dict (history_or_empty tracking) = true.
Proof.
  unfold history_or_empty.
  destruct (history_in tracking) as [x|] eqn:E; [|reflexivity].
  now apply history_in_dict in E.
Qed.

Lemma tracking_rank_pair (history : value) (tl : list value) :
  isinstance_dict history = true ->
  _tracking_rank [ (lit "history_24h", history); (lit "timeline", VList tl) ]
  = (PrimFloat.infinity, - finalized_flag history,
     - Z.of_nat (List.length tl)).
Proof.
  intros Hd. unfold _tracking_rank, finalized_flag. get_lit.
  rewrite Hd. cbn [py_str andb]. rewrite parse_ts_empty.
  now destruct (truthy _).
Qed.

Lemma rank_ltb_no_start (f1 f2 n1 n2 : Z) :
  rank_ltb (PrimFloat.infinity, - f2, - n2) (PrimFloat.infinity, - f1, - n1)
  = (f1 <? f2) || (f1 =? f2) && (n1 <? n2).
Proof.
  unfold rank_ltb.
  change (PrimFloat.eqb PrimFloat.infinity PrimFloat.infinity) with true.
  cbn [negb].
  destruct (Z.eqb_spec (- f2) (- f1)), (Z.eqb_spec f1 f2); try lia;
    cbn [negb andb orb].
  - destruct (Z.ltb_spec f1 f2); [lia|].
    cbn [orb]. destruct (Z.ltb_spec (- n2) (- n1)), (Z.ltb_spec n1 n2);
      try reflexivity; lia.
  - destruct (Z.ltb_spec (- f2) (- f1)), (Z.ltb_spec f1 f2);
      try reflexivity; try lia.
Qed.

(** The record [_merge_tracking] writes. *)
Lemma merge_tracking_form b e :
  _merge_tracking b e
  = assemble (earliest (start_of (as_dict b)) (start_of (as_dict e)))
             (merge (raw_points b) (raw_points e))
             (let kept :=
                preferred (history_or_empty (as_dict b))
                          (history_or_empty (as_dict e))
                          (timeline_of (as_dict b)) (timeline_of (as_dict e)) in
              if truthy kept then Some kept else None).
Proof.
  unfold _merge_tracking. rewrite !normalize_tracking_eq.
  set (sb := start_of (as_dict b)). set (se := start_of (as_dict e)).
  assert (Hsb : forall d, sb = Some d -> DateTime.valid d = true)
    by apply start_of_valid.
  assert (Hse : forall d, se = Some d -> DateTime.valid d = true)
    by apply start_of_valid.
  rewrite !history_entry_assemble by apply history_in_dict.
  fold (history_or_empty (as_dict b)). fold (history_or_empty (as_dict e)).
  rewrite !started_text_assemble, !lookup_get, !timeline_entry_assemble.
  rewrite candidates_eq by assumption.
  rewrite !tracking_rank_pair by apply history_or_empty_dict.
  rewrite rank_ltb_no_start.
  fold (preferred (history_or_empty (as_dict b)) (history_or_empty (as_dict e))
                  (timeline_of (as_dict b)) (timeline_of (as_dict e))).
  cbn zeta. generalize (preferred (history_or_empty (as_dict b))
                                  (history_or_empty (as_dict e))
                                  (timeline_of (as_dict b))
                                  (timeline_of (as_dict e))).
  intros kept. rewrite !timeline_of_raw.
  rewrite normalize_absorb_left, normalize_absorb_right.
  fold (merge (raw_points b) (raw_points e)).
  unfold assemble.
  destruct (earliest sb se) as [d|],
           (merge (raw_points b) (raw_points e)) as [|p tl],
           (truthy kept); reflexivity.
Qed.

Lemma preferred_dict hb he tb te :
  isinstance_dict hb = true -> isinstance_dict he = true ->
  isinstance_dict (preferred hb he tb te) = true.
Proof. intros Hb He. unfold preferred. now destruct (_ || _). Qed.

Lemma merge_tracking_eq b e :
  exists h,
    (forall x, h = Some x -> isinstance_dict x = true)
    /\ _merge_tracking b e
       = assemble (earliest (start_of (as_dict b)) (start_of (as_dict e)))
                  (merge (raw_points b) (raw_points e)) h.
Proof.
  eexists. split; [|apply merge_tracking_form].
  cbn zeta. intros x. destruct (truthy _); [|discriminate].
  intros H. injection H as <-.
  apply preferred_dict; apply history_or_empty_dict.
Qed.

End WithLibrary.

(** X7.  the start of a merged record is the earlier of the two starts
    that resolve, the base's on a tie. *)
Theorem merge_tracking_start {L : PyLib} {LL : PyLibLaws L}
  (base_tracking extra_tracking : value) :
  start_of (_merge_tracking base_tracking extra_tracking)
  = earliest (start_of (as_dict base_tracking))
             (start_of (as_dict extra_tracking))
  /\ lookup (_merge_tracking base_tracking extra_tracking)
            (lit "started_at_utc")
     = option_map (fun d => VStr (isoformat d))
                  (earliest (start_of (as_dict base_tracking))
                            (start_of (as_dict extra_tracking))).
Proof.
  destruct (merge_tracking_eq base_tracking extra_tracking) as (h & Hh & ->).
  split; [apply start_of_assemble, earliest_valid|].
  unfold assemble.
  destruct (earliest _ _) as [d|],
           (merge (raw_points base_tracking) (raw_points extra_tracking))
             as [|p tl],
           h as [x|]; reflexivity.
Qed.

(** X8.  the timeline of a merged record is the merge of the two
    timelines: the normal form of the raw points of both. *)
Theorem merge_tracking_timeline {L : PyLib} {LL : PyLibLaws L}
  (base_tracking extra_tracking : value) :
  get (_merge_tracking base_tracking extra_tracking) (lit "timeline")
      (VList [])
  = VList (merge (raw_points base_tracking) (raw_points extra_tracking)).
Proof.
  destruct (merge_tracking_eq base_tracking extra_tracking) as (h & Hh & ->).
  apply timeline_entry_assemble.
Qed.

(** X9.  the history of a merged record is the one [_merge_tracking]
    prefers of the two, when that is not empty: the finalized one; if
    both or neither are finalized, that of the record with more points;
    else the base's.  The start times play no part. *)
Theorem merge_tracking_history {L : PyLib} {LL : PyLibLaws L}
  (base_tracking extra_tracking : value) :
  lookup (_merge_tracking base_tracking extra_tracking) (lit "history_24h")
  = let kept :=
      preferred (history_or_empty (as_dict base_tracking))
                (history_or_empty (as_dict extra_tracking))
                (timeline_of (as_dict base_tracking))
                (timeline_of (as_dict extra_tracking)) in
    if truthy kept then Some kept else None.
Proof.
  rewrite merge_tracking_form. cbn zeta.
  generalize (preferred (history_or_empty (as_dict base_tracking))
                        (history_or_empty (as_dict extra_tracking))
                        (timeline_of (as_dict base_tracking))
                        (timeline_of (as_dict extra_tracking))).
  intros kept. unfold assemble.
  destruct (earliest _ _) as [d|],
           (merge (raw_points base_tracking) (raw_points extra_tracking))
             as [|p tl],
           (truthy kept); reflexivity.
Qed.

(** X10.  [_normalize_tracking] is idempotent, and a merged record is in
    normal form: normalising it changes nothing. *)
Theorem tracking_normal_forms {L : PyLib} {LL : PyLibLaws L} :
  (forall raw_tracking,
      _normalize_tracking (VDict (_normalize_tracking raw_tracking))
      = _normalize_tracking raw_tracking)
  /\ (forall base_tracking extra_tracking,
        _normalize_tracking
          (VDict (_merge_tracking base_tracking extra_tracking))
        = _merge_tracking base_tracking extra_tracking).
Proof.
  split; [apply normalize_tracking_again|].
  intros base_tracking extra_tracking.
  destruct (merge_tracking_eq base_tracking extra_tracking) as (h & Hh & ->).
  apply normalize_assemble;
    [apply earliest_valid|apply normalized_normal|exact Hh].
Qed.

End RecordFacts.

(** ** The hourly rows and the history of a window *)

Module WindowFacts.
Import Py ParserPost.
Import DictDefs HistoryDefs WindowDefs.
Import StrFacts DictFacts ParseFacts HistoryFacts HorizonFacts.

Lemma ready_hours_of_full delta :
  (24 <=? ready_hours_of delta) = (DateTime.DAY <=? delta).
Proof.
  unfold ready_hours_of.
  assert (Hq : 24 <= delta / DateTime.HOUR <-> DateTime.DAY <= delta).
  { unfold DateTime.DAY, DateTime.HOUR. split; intros Hd.
    - Z.div_mod_to_equations. lia.
    - apply Z.div_le_lower_bound; lia. }
  revert Hq. generalize (delta / DateTime.HOUR). intros q Hq.
  destruct (q <? 0) eqn:E1; [|destruct (24 <? q) eqn:E2];
    destruct (DateTime.DAY <=? delta) eqn:E3;
    first [ reflexivity
          | apply Z.leb_le; lia
          | apply Z.leb_gt; lia
          | exfalso; lia ].
Qed.

Section WithLibrary.
Context {L : PyLib}.

(** What a call that returns has written. *)
Lemma update_history_inv (tracking r : dict) tl start now :
  start_of tracking = Some start ->
  get tracking (lit "timeline") (VList []) = VList tl ->
  _update_history_24h tracking now = Ok r ->
  exists metrics,
    let ready_hours := ready_hours_of (DateTime.sub now start) in
    let history :=
      [ (lit "start_ts_utc", VStr (isoformat start));
        (lit "ready_hours", VInt ready_hours);
        (lit "finalized", VBool (24 <=? ready_hours));
        (lit "updated_at_utc", VStr (isoformat now));
        (lit "metrics", VDict metrics) ] in
    r = set tracking (lit "history_24h")
            (VDict (if 24 <=? ready_hours
                    then history ++ [ (lit "completed_at_utc",
                                       VStr (isoformat (plus_hours start 24))) ]
                    else history)).
Proof.
  unfold start_of, _update_history_24h. intros -> -> Hr.
  destruct (metrics_loop _ _ _ _ _) as [metrics|]; [|discriminate].
  cbn [bind] in Hr. exists metrics. cbn zeta.
  destruct (24 <=? ready_hours_of (DateTime.sub now start)).
  - destruct (DateTime.add start (DateTime.hours 24)) as [c|] eqn:Ea;
      [|discriminate].
    apply add_inv in Ea. destruct Ea as [-> _].
    cbn [bind] in Hr. injection Hr as <-. reflexivity.
  - cbn [bind] in Hr. now injection Hr as <-.
Qed.

Lemma hourly_loop_rows hrs prev tl start metric rows :
  hourly_loop hrs prev tl start metric = Ok rows ->
  map row_hour rows = map VInt hrs.
Proof.
  revert prev rows. induction hrs as [|h hrs IH]; intros prev rows; simpl.
  - intros Hinj. now injection Hinj as <-.
  - destruct (DateTime.add start (DateTime.hours h)) as [e|]; [|discriminate].
    cbn [bind].
    destruct (_value_at_time tl e metric) as [found|]; [|discriminate].
    cbn [bind].
    destruct (DateTime.add e _) as [b|]; [|discriminate]. cbn [bind].
    destruct (_format_hour_range b e) as [range|]; [|discriminate].
    cbn [bind].
    destruct (hourly_loop hrs _ tl start metric) as [more|] eqn:Em;
      [|discriminate].
    cbn [bind]. intros Hinj. injection Hinj as <-.
    simpl. f_equal. now apply (IH _ _ Em).
Qed.

Lemma hourly_loop_sum hrs h prev tl start metric rows e v :
  hourly_loop (hrs ++ [h]) prev tl start metric = Ok rows ->
  DateTime.add start (DateTime.hours h) = Ok e ->
  _value_at_time tl e metric = Ok (Some v) ->
  exists deltas,
    map row_delta rows = map VInt deltas
    /\ prev + fold_right Z.add 0 deltas = v.
Proof.
  intros Hrows He Hv. revert prev rows Hrows.
  induction hrs as [|h0 hrs IH]; intros prev rows; simpl.
  - rewrite He. cbn [bind]. rewrite Hv. cbn [bind].
    destruct (DateTime.add e _) as [b|]; [|discriminate]. cbn [bind].
    destruct (_format_hour_range b e) as [range|]; [|discriminate].
    cbn [bind]. intros Hinj. injection Hinj as <-.
    exists [v - prev]. split; [reflexivity|]. simpl. lia.
  - destruct (DateTime.add start (DateTime.hours h0)) as [e0|];
      [|discriminate].
    cbn [bind].
    destruct (_value_at_time tl e0 metric) as [found|]; [|discriminate].
    cbn [bind].
    destruct (DateTime.add e0 _) as [b|]; [|discriminate]. cbn [bind].
    destruct (_format_hour_range b e0) as [range|]; [|discriminate].
    cbn [bind].
    destruct (hourly_loop (hrs ++ [h]) _ tl start metric) as [more|] eqn:Em;
      [|discriminate].
    cbn [bind]. intros Hinj. injection Hinj as <-.
    destruct (IH _ _ Em) as (deltas & Hd & Hs).
    exists ((or_else found prev - prev) :: deltas).
    split; [simpl; now rewrite Hd|]. simpl. lia.
Qed.

End WithLibrary.

(** X11.  a call of [_update_history_24h] that returns has changed no entry
    of the record other than [history_24h], and has changed nothing at
    all when the start does not resolve or the timeline is not a list. *)
Theorem update_history_writes_only_history `{PyLib}
  (tracking r : dict) (now : DateTime.datetime) :
  _update_history_24h tracking now = Ok r ->
  (forall k dflt, k <> lit "history_24h" -> get r k dflt = get tracking k dflt)
  /\ (start_of tracking = None
      \/ (forall tl, get tracking (lit "timeline") (VList []) <> VList tl) ->
      r = tracking).
Proof.
  intros Hr. split.
  - intros k dflt Hk.
    destruct (start_of tracking) as [start|] eqn:Es.
    + destruct (get tracking (lit "timeline") (VList [])) as [ | | | | |tl| ]
        eqn:Et;
        try (unfold _update_history_24h in Hr; fold (start_of tracking) in Hr;
             rewrite Es, Et in Hr; injection Hr as <-; reflexivity).
      destruct (update_history_inv tracking r tl start now Es Et Hr)
        as (metrics & ->).
      apply get_set_other. congruence.
    + unfold _update_history_24h in Hr. fold (start_of tracking) in Hr.
      rewrite Es in Hr. now injection Hr as <-.
  - unfold _update_history_24h in Hr. fold (start_of tracking) in Hr.
    intros [Es|Et].
    + rewrite Es in Hr. now injection Hr as <-.
    + destruct (start_of tracking) as [start|];
        [|now injection Hr as <-].
      destruct (get tracking (lit "timeline") (VList [])) as [ | | | | |tl| ];
        try (now injection Hr as <-).
      now destruct (Et tl).
Qed.

(** X12.  the history is finalized exactly when 24 hours have passed since
    the start, and carries [completed_at_utc], the start plus 24 hours,
    exactly then. *)
Theorem finalized_exactly_after_a_day `{PyLib}
  (tracking r : dict) (tl : list value) (start now : DateTime.datetime) :
  start_of tracking = Some start ->
  get tracking (lit "timeline") (VList []) = VList tl ->
  _update_history_24h tracking now = Ok r ->
  history_field r (lit "finalized")
  = VBool (DateTime.DAY <=? DateTime.sub now start)
  /\ lookup (history_of r) (lit "completed_at_utc")
     = if DateTime.DAY <=? DateTime.sub now start
       then Some (VStr (isoformat (plus_hours start 24)))
       else None.
Proof.
  intros Es Et Hr.
  destruct (update_history_inv tracking r tl start now Es Et Hr)
    as (metrics & ->).
  unfold history_field. rewrite history_of_set.
  cbn zeta. rewrite ready_hours_of_full.
  destruct (DateTime.DAY <=? DateTime.sub now start); split; reflexivity.
Qed.

(** X13.  the rows of a metric are numbered 1 to 24, and their deltas add
    up to the value at the end of the window less the value at its start
    (0 when there is none). *)
Theorem hourly_deltas_add_up `{PyLib}
  (tl : list value) (start end_ts : DateTime.datetime) (metric : str)
  (rows : list value) (base : option Z) (v : Z) :
  _compute_hourly_metric tl start metric = Ok rows ->
  _value_at_time tl start metric = Ok base ->
  DateTime.add start (DateTime.hours 24) = Ok end_ts ->
  _value_at_time tl end_ts metric = Ok (Some v) ->
  map row_hour rows = map VInt hours_1_24
  /\ exists deltas,
       map row_delta rows = map VInt deltas
       /\ fold_right Z.add 0 deltas = v - or_else base 0.
Proof.
  unfold _compute_hourly_metric. intros Hrows Hbase He Hv.
  rewrite Hbase in Hrows. cbn [bind] in Hrows.
  split; [now apply (hourly_loop_rows _ _ _ _ _ _ Hrows)|].
  change hours_1_24 with (map Z.of_nat (seq 1 23) ++ [24]) in Hrows.
  destruct (hourly_loop_sum _ _ _ _ _ _ _ _ _ Hrows He Hv) as (ds & Hd & Hs).
  exists ds. split; [exact Hd|lia].
Qed.

End WindowFacts.

(** ** Timestamps with a trailing Z *)

Module StampFacts.
Import Py ParserPost ParsersBridge.
Import StrFacts ParseFacts.

Lemma endswith_Z (s : str) : endswith (s ++ lit "Z") (lit "Z") = true.
Proof.
  unfold endswith. rewrite rev_app_distr.
  change (rev (lit "Z")) with [90%N]. simpl. now destruct (rev s).
Qed.

Lemma endswith_offset (s : str) :
  endswith (s ++ lit "+00:00") (lit "Z") = false.
Proof.
  unfold endswith. rewrite rev_app_distr.
  change (rev (lit "Z")) with [90%N].
  change (rev (lit "+00:00")) with [48; 48; 58; 48; 48; 43]%N. reflexivity.
Qed.

Lemma drop_last_Z (s : str) : drop_last (s ++ lit "Z") = s.
Proof.
  unfold drop_last. change (lit "Z") with [90%N]. apply removelast_last.
Qed.

Lemma app_not_nil (s t : str) : t <> [] -> s ++ t <> [].
Proof. destruct s; simpl; [auto|discriminate]. Qed.

(** X14.  a trailing [Z] is read as the offset [+00:00], by [_parse_ts]
    and by [_parse_iso_to_epoch]. *)
Theorem zulu_is_utc `{PyLib} (s : str) :
  _parse_ts (s ++ lit "Z") = _parse_ts (s ++ lit "+00:00")
  /\ _parse_iso_to_epoch (s ++ lit "Z")
     = _parse_iso_to_epoch (s ++ lit "+00:00").
Proof.
  unfold _parse_ts, _parse_iso_to_epoch.
  rewrite endswith_Z, endswith_offset, drop_last_Z.
  destruct (s ++ lit "Z") eqn:E1;
    [now apply app_not_nil in E1|].
  destruct (s ++ lit "+00:00") eqn:E2;
    [now apply app_not_nil in E2|].
  split; reflexivity.
Qed.

End StampFacts.

(** ** The intake queue: order, capacity and the consumer *)

Module IntakeFacts.
Import Py Builtins ParserEvents ParserEventsWorker.
Import DictDefs StrDefs TimelineDefs.
Import StrFacts DictFacts TimelineFacts QueueFacts HorizonFacts.

Lemma qsize_append (q : queue) e :
  qsize (mkQueue (maxsize q) (items q ++ [e])) = qsize q + 1.
Proof. unfold qsize. simpl. rewrite length_app. simpl. lia. Qed.

Section WithLibrary.
Context {L : PyLib}.

(** A submission that is refused before the queue is tried. *)
Ltac rejected :=
  right; eexists;
  split; [reflexivity|let E := fresh "E" in intros E; revert E; lit_neq].

(** The two ways a submission ends. *)
Lemma enqueue_cases (e : value) (q : queue) :
  (well_formed e = true /\ full q = false
   /\ enqueue_parser_event e q
      = ((true, lit "queued"), mkQueue (maxsize q) (items q ++ [e])))
  \/ (exists reason, enqueue_parser_event e q = ((false, reason), q)
                     /\ (reason = lit "queue_full" ->
                         well_formed e = true /\ full q = true)).
Proof.
  unfold enqueue_parser_event, well_formed, put_nowait.
  destruct e as [ | | | | | |ev]; try rejected.
  destruct (recognized_type _); cbn [negb andb]; [|rejected].
  destruct (truthy _); cbn [negb]; [|rejected].
  destruct (full q); [right|left]; eauto.
Qed.

Lemma stats_step_good (d : dict) (acc : dict) :
  let good (kv : str * value) :=
    clean (fst kv) = true /\ fst kv <> [] /\ isinstance_dict (snd kv) = true in
  Forall good acc -> NoDup (keys acc) ->
  let out :=
    fold_left
      (fun out kv =>
         let target := strip (py_str (VStr (fst kv))) in
         match target with
         | [] => out
         | _ => if isinstance_dict (snd kv) then set out target (snd kv)
                else out
         end)
      d acc in
  Forall good out /\ NoDup (keys out).
Proof.
  intros good. revert acc.
  induction d as [|[k v] d IH]; intros acc Hg Hn; [now split|].
  cbn [fold_left]. apply IH.
  - cbn [fst snd py_str].
    destruct (strip k) as [|c r] eqn:Ek; [exact Hg|].
    destruct (isinstance_dict v) eqn:Ev; [|exact Hg].
    apply Forall_forall. intros kv Hin. apply in_set in Hin.
    destruct Hin as [->|Hin]; [|now apply (proj1 (Forall_forall _ _) Hg)].
    repeat split; cbn [fst snd]; [|discriminate|exact Ev].
    rewrite <- Ek. apply clean_strip.
  - cbn [fst snd py_str].
    destruct (strip k) as [|c r]; [exact Hn|].
    destruct (isinstance_dict v); [|exact Hn].
    now apply NoDup_keys_set.
Qed.

Lemma stats_fold_good (d acc : dict) :
  Forall (fun kv => clean (fst kv) = true /\ fst kv <> []
                    /\ isinstance_dict (snd kv) = true) d ->
  fold_left
    (fun out kv =>
       let target := strip (py_str (VStr (fst kv))) in
       match target with
       | [] => out
       | _ => if isinstance_dict (snd kv) then set out target (snd kv)
              else out
       end)
    d acc
  = build_from acc d.
Proof.
  intros Hd. revert acc.
  induction Hd as [|[k v] d (Hc & Hk & Hv) _ IH]; intros acc; [reflexivity|].
  cbn [fold_left build_from fst snd py_str] in *.
  rewrite (strip_clean k Hc), Hv.
  destruct k as [|c r]; [congruence|]. apply IH.
Qed.

End WithLibrary.

(** X15.  the submissions that are accepted join the queue at its tail,
    in the order they were made; the others leave it as it was. *)
Theorem accepted_events_queue_in_order `{PyLib}
  (events : list value) (q : queue) :
  let '(results, q') := submit_all events q in
  List.length results = List.length events
  /\ maxsize q' = maxsize q
  /\ items q'
     = items q
       ++ map fst (filter (fun er => fst (snd er)) (combine events results)).
Proof.
  revert q. induction events as [|e events IH]; intros q.
  - simpl. now rewrite app_nil_r.
  - cbn [submit_all].
    specialize (IH (snd (enqueue_parser_event e q))).
    destruct (enqueue_cases e q) as [(_ & _ & E)|(reason & E & _)];
      rewrite E in *; cbn [snd] in IH;
      destruct (submit_all events _) as [results q'];
      destruct IH as (Hl & Hm & Hi);
      cbn [List.length combine filter snd fst map];
      (split; [now rewrite Hl|split; [exact Hm|]]).
    + rewrite Hi. cbn [items]. now rewrite <- app_assoc.
    + exact Hi.
Qed.

(** X16.  a bounded queue never holds more than its bound, whatever is
    submitted. *)
Theorem queue_stays_within_bound `{PyLib} (events : list value) (q : queue) :
  0 < maxsize q ->
  qsize q <= maxsize q ->
  qsize (snd (submit_all events q)) <= maxsize q.
Proof.
  intros Hpos. revert q Hpos.
  induction events as [|e events IH]; intros q Hpos Hq; [exact Hq|].
  cbn [submit_all].
  specialize (IH (snd (enqueue_parser_event e q))).
  destruct (enqueue_cases e q) as [(_ & Hf & E)|(reason & E & _)];
    rewrite E in *; cbn [snd maxsize] in IH;
    destruct (submit_all events _) as [results q'];
    cbn [snd] in *; apply IH; try assumption.
  rewrite qsize_append. unfold full in Hf.
  destruct (maxsize q <=? 0) eqn:E0; [lia|].
  apply Z.leb_gt in Hf. lia.
Qed.

(** X17.  the keys of a normalised statistics map are non-empty, stripped
    and distinct, its values are dictionaries, and normalising it again
    changes nothing. *)
Theorem stats_map_normal_form `{PyLib} (raw : value) :
  Forall (fun kv => clean (fst kv) = true /\ fst kv <> []
                    /\ isinstance_dict (snd kv) = true)
         (_normalize_stats_map raw)
  /\ NoDup (keys (_normalize_stats_map raw))
  /\ _normalize_stats_map (VDict (_normalize_stats_map raw))
     = _normalize_stats_map raw.
Proof.
  assert (G : Forall (fun kv => clean (fst kv) = true /\ fst kv <> []
                                /\ isinstance_dict (snd kv) = true)
                     (_normalize_stats_map raw)
              /\ NoDup (keys (_normalize_stats_map raw))).
  { destruct raw as [ | | | | | |d]; try (split; constructor).
    apply (stats_step_good d []); constructor. }
  destruct G as [Hg Hn]. split; [exact Hg|]. split; [exact Hn|].
  unfold _normalize_stats_map at 1.
  rewrite stats_fold_good by exact Hg. now apply build_nodup.
Qed.

(** X18.  an event that the intake accepts is one the consumer applies:
    [_apply_event_sync] hands its statistics, not empty, to the updater of
    its type, and does not raise. *)
Theorem queued_events_are_applied `{PyLib} (event : value) (q : queue) :
  fst (fst (enqueue_parser_event event q)) = true ->
  exists stats_by_url,
    stats_by_url <> []
    /\ (_apply_event_sync event = UpdatesAccounts stats_by_url
        \/ _apply_event_sync event = UpdatesPosts stats_by_url).
Proof.
  unfold enqueue_parser_event, _apply_event_sync, recognized_type.
  destruct event as [ | | | | | |ev]; try discriminate.
  set (event_type := strip (py_str (get ev (lit "type") (VStr [])))).
  set (stats := _normalize_stats_map (get ev (lit "stats_by_url") VNone)).
  destruct (str_eqb event_type (lit "accounts_stats_batch")) eqn:Ea;
    [|destruct (str_eqb event_type (lit "posts_stats_batch")) eqn:Ep];
    cbn [orb negb]; try discriminate;
    (destruct (truthy (VDict stats)) eqn:Et; cbn [negb]; [|discriminate]);
    intros _; exists stats;
    (split; [intros E; rewrite E in Et; discriminate|auto]).
Qed.

(** X19.  the outcomes of the HTTP intake.  A configured token that the
    request does not carry gives 403, whatever the body; a body that is
    not a JSON object gives 400; a full queue gives 429; in all these the
    queue is untouched.  Status 200 means that the payload, stamped with
    its time of receipt if it had none, is the last item of the queue. *)
Theorem ingest_outcomes `{PyLib} (env_token : option str) (now_iso : str)
  (req : request) (q : queue) :
  let expected := strip (match env_token with Some t => t | None => [] end) in
  let incoming :=
    strip (match token_header req with Some t => t | None => [] end) in
  let '(resp, q') := parser_events_ingest env_token now_iso req q in
  (expected <> [] /\ incoming <> expected ->
   resp = failure 403 "forbidden" /\ q' = q)
  /\ (status_code resp = 200 /\
      (exists payload,
          body req = Some (VDict payload)
          /\ q' = mkQueue (maxsize q)
                    (items q
                     ++ [VDict (fst (setdefault payload (lit "received_at_utc")
                                                (VStr now_iso)))])
          /\ get (content resp) (lit "queue_size") VNone = VInt (qsize q'))
      \/ status_code resp = 400 /\ q' = q
      \/ status_code resp = 403 /\ q' = q
         /\ expected <> [] /\ incoming <> expected
      \/ status_code resp = 429 /\ q' = q /\ full q = true).
Proof.
  cbn zeta. unfold parser_events_ingest.
  set (expected := strip (match env_token with Some t => t | None => [] end)).
  set (incoming :=
         strip (match token_header req with Some t => t | None => [] end)).
  assert (Hex : truthy (VStr expected) = true <-> expected <> []).
  { destruct expected; simpl; split; congruence. }
  assert (Hin : negb (str_eqb incoming expected) = true
                <-> incoming <> expected).
  { rewrite negb_true_iff. apply str_eqb_neq. }
  destruct (truthy (VStr expected) && negb (str_eqb incoming expected))
    eqn:Eg.
  - apply andb_true_iff in Eg. destruct Eg as [E1 E2].
    apply Hex in E1. apply Hin in E2.
    split; [auto|]. right. right. left. auto.
  - assert (Hno : ~ (expected <> [] /\ incoming <> expected)).
    { intros [E1 E2]. apply Hex in E1. apply Hin in E2.
      rewrite E1, E2 in Eg. discriminate. }
    destruct (body req) as [[ | | | | | |payload]|] eqn:Eb;
      try (split; [intros Hc; now destruct (Hno Hc)|];
           right; left; split; reflexivity).
    destruct (setdefault payload (lit "received_at_utc") (VStr now_iso))
      as [stamped ret] eqn:Es.
    destruct (enqueue_cases (VDict stamped) q)
      as [(_ & _ & E)|(reason & E & Hfull)]; rewrite E; cbn [negb].
    + split; [intros Hc; now destruct (Hno Hc)|].
      left. split; [reflexivity|]. exists payload.
      rewrite Es. repeat split.
    + split; [intros Hc; now destruct (Hno Hc)|].
      destruct (str_eqb reason (lit "queue_full")) eqn:Er.
      * apply str_eqb_eq in Er. right. right. right.
        repeat split. now apply Hfull.
      * right. left. split; reflexivity.
Qed.

End IntakeFacts.

(** ** Stopping, restarting and the control actions *)

Module ControlFacts.
Import Py ParsersBridge ParsersBridgeControl SupervisorDefs ControlDefs.
Import StrFacts SupervisorFacts.

Lemma launched_app a b : launched (a ++ b) = launched a ++ launched b.
Proof. unfold launched. apply flat_map_app. Qed.

Lemma launched_started effs : launched (map Started effs) = spawned effs.
Proof.
  induction effs as [|e effs IH]; [reflexivity|].
  simpl. rewrite IH. now destruct e.
Qed.

Lemma launched_stop k w s : launched (snd (stop k w s)) = [].
Proof.
  assert (K : forall pids, launched (map Kill pids) = []).
  { induction pids; simpl; auto. }
  assert (C : forall k h, launched (_close_log_handle k h) = []).
  { now intros ? [h|]. }
  destruct k; unfold stop, stop_posts_parser, stop_accounts_parser;
    cbn [_posts_process _accounts_process];
    [ destruct (_posts_process s) as [p|]
    | destruct (_accounts_process s) as [p|] ];
    try destruct (_is_running w (Some p));
    cbn [snd]; rewrite !launched_app, K, C; reflexivity.
Qed.

Lemma stop_expected k w s : expected_running k (fst (stop k w s)) = false.
Proof.
  destruct k; unfold stop, stop_posts_parser, stop_accounts_parser;
    cbn [_posts_process _accounts_process];
    [ destruct (_posts_process s) as [p|]
    | destruct (_accounts_process s) as [p|] ];
    try destruct (_is_running w (Some p)); reflexivity.
Qed.

Lemma start_expected k w s :
  expected_running k (fst (fst (start k w s))) = true.
Proof.
  destruct k; unfold start, start_posts_parser, start_accounts_parser,
    _ensure_watchdog;
    cbn [_posts_process _accounts_process _posts_started_at
         _accounts_started_at _posts_log_handle _accounts_log_handle
         _watchdog_started _posts_expected_running
         _accounts_expected_running];
    repeat match goal with
           | |- context [if ?c then _ else _] => destruct c
           | |- context [match popen ?w ?k with _ => _ end] =>
               destruct (popen w k)
           end; reflexivity.
Qed.

(** Closes one part of the description of a stop. *)
Ltac stop_part Hl :=
  match goal with
  | |- launched _ = [] => exact Hl
  | |- _is_running _ _ = false =>
      first [ reflexivity
            | match goal with H : _is_running _ _ = false |- _ => exact H end ]
  | |- _ = _ => reflexivity
  | |- forall pid, In pid _ -> In (Kill pid) _ =>
      let Hp := fresh "Hp" in
      intros pid Hp; simpl; rewrite ?in_app_iff; auto using in_map
  | |- forall h, _ = Some h -> In (CloseLog _ h) _ =>
      let Hh := fresh "Hh" in
      intros h Hh; rewrite Hh; simpl; rewrite ?in_app_iff; simpl; auto 6
  | |- forall p, _ = Some p -> _ =>
      let Hq := fresh "Hq" in
      let Hpoll := fresh "Hpoll" in
      intros q Hq Hpoll;
      first [ discriminate Hq
            | injection Hq as <-;
              first [ solve [repeat split; simpl; auto]
                    | exfalso;
                      match goal with
                      | H : _is_running _ _ = false |- _ =>
                          simpl in H; rewrite Hpoll in H; discriminate H
                      end ] ]
  end.

(** X20.  after [stop] a worker is not expected to run, its log stream is
    released, the supervisor owns no running handle of it, and every
    process that the enumeration found has been sent a kill; a handle
    that was running has been terminated and forgotten with its start
    time.  No process is launched. *)
Theorem stop_clears_the_worker (k : kind) (w : os) (s : state) :
  let '(s', done) := stop k w s in
  expected_running k s' = false
  /\ log_handle_of k s' = None
  /\ _is_running w (process_of k s') = false
  /\ (forall pid, In pid (find_pids w k) -> In (Kill pid) done)
  /\ (forall p, process_of k s = Some p -> poll w p = None ->
                In (Terminate p) done
                /\ process_of k s' = None /\ started_at_of k s' = None)
  /\ (forall h, log_handle_of k s = Some h -> In (CloseLog k h) done)
  /\ launched done = [].
Proof.
  pose proof (launched_stop k w s) as Hl.
  destruct (stop k w s) as [s' done] eqn:E. cbn [snd] in Hl.
  destruct k; unfold stop, stop_posts_parser, stop_accounts_parser in E;
    cbn [_posts_process _accounts_process _posts_log_handle
         _accounts_log_handle] in E;
    unfold expected_running, log_handle_of, process_of, started_at_of.
  - destruct (_posts_process s) as [p|] eqn:Ep;
      [destruct (_is_running w (Some p)) eqn:Er|];
      injection E as <- <-;
      cbn [_posts_expected_running _posts_log_handle _posts_process
           _posts_started_at];
      repeat match goal with |- _ /\ _ => split end; stop_part Hl.
  - destruct (_accounts_process s) as [p|] eqn:Ep;
      [destruct (_is_running w (Some p)) eqn:Er|];
      injection E as <- <-;
      cbn [_accounts_expected_running _accounts_log_handle _accounts_process
           _accounts_started_at];
      repeat match goal with |- _ /\ _ => split end; stop_part Hl.
Qed.

(** Runs [start] through its branches. *)
Ltac start_cases :=
  unfold start, start_posts_parser, start_accounts_parser, _ensure_watchdog;
  cbn [_posts_process _accounts_process _posts_started_at
       _accounts_started_at _posts_log_handle _accounts_log_handle
       _watchdog_started _posts_expected_running
       _accounts_expected_running];
  repeat match goal with
         | |- context [if ?c then _ else _] => destruct c eqn:?
         | |- context [match popen ?w ?k with _ => _ end] =>
             destruct (popen w k) eqn:?
         end.

Ltac stop_cases s w :=
  unfold stop, stop_posts_parser, stop_accounts_parser;
  cbn [_posts_process _accounts_process _posts_log_handle
       _accounts_log_handle];
  repeat match goal with
         | |- context [match ?p with Some _ => _ | None => _ end] =>
             destruct p eqn:?
         | |- context [if ?c then _ else _] => destruct c eqn:?
         end.

Lemma start_frame k w s : same_worker (other k) s (fst (fst (start k w s))).
Proof. destruct k; start_cases; repeat split. Qed.

Lemma stop_frame k w s :
  same_worker (other k) s (fst (stop k w s))
  /\ _watchdog_started (fst (stop k w s)) = _watchdog_started s.
Proof. destruct k; stop_cases s w; repeat split. Qed.

Lemma stop_log k w s : log_handle_of k (fst (stop k w s)) = None.
Proof. destruct k; stop_cases s w; reflexivity. Qed.

Lemma stop_kills k w s pid :
  In pid (find_pids w k) -> In (Kill pid) (snd (stop k w s)).
Proof.
  intros Hp. destruct k; stop_cases s w; cbn [snd]; simpl;
    rewrite ?in_app_iff; auto using in_map.
Qed.

Lemma restart_eq k w1 w2 s :
  restart k w1 w2 s
  = (fst (fst (start k w2 (fst (stop k w1 s)))),
     snd (stop k w1 s) ++ [Sleep 1]
     ++ map Started (snd (fst (start k w2 (fst (stop k w1 s))))),
     snd (start k w2 (fst (stop k w1 s)))).
Proof.
  destruct k; unfold restart, restart_posts_parser, restart_accounts_parser,
    stop, start.
  - destruct (stop_posts_parser w1 s) as [s1 ops]. cbn [fst snd].
    now destruct (start_posts_parser w2 s1) as [[s2 effs] raised].
  - destruct (stop_accounts_parser w1 s) as [s1 ops]. cbn [fst snd].
    now destruct (start_accounts_parser w2 s1) as [[s2 effs] raised].
Qed.

Lemma same_worker_trans k s1 s2 s3 :
  same_worker k s1 s2 -> same_worker k s2 s3 -> same_worker k s1 s3.
Proof.
  unfold same_worker. intros (A1 & A2 & A3 & A4) (B1 & B2 & B3 & B4).
  repeat split; congruence.
Qed.

(** X21.  a call for one kind leaves the worker of the other kind as it
    was: its process handle, start time, log stream and expected flag.
    This holds of [start], of [stop] and of [restart]; [stop] leaves the
    watchdog flag too. *)
Theorem one_kind_at_a_time (k : kind) (w w' : os) (s : state) :
  same_worker (other k) s (fst (fst (start k w s)))
  /\ same_worker (other k) s (fst (stop k w s))
  /\ same_worker (other k) s (fst (fst (restart k w w' s)))
  /\ _watchdog_started (fst (stop k w s)) = _watchdog_started s.
Proof.
  split; [apply start_frame|]. split; [apply stop_frame|].
  split; [|apply stop_frame].
  rewrite restart_eq. cbn [fst].
  eapply same_worker_trans; [apply stop_frame|apply start_frame].
Qed.

(** X22.  [restart] stops, pauses one second and starts: afterwards the
    worker is expected to run, and at most one process has been launched,
    of the kind restarted. *)
Theorem restart_expects_the_worker (k : kind) (w_stop w_start : os)
  (s : state) :
  let '(s', done, raised) := restart k w_stop w_start s in
  expected_running k s' = true
  /\ In (Sleep 1) done
  /\ (launched done = [] \/ exists p, launched done = [(k, p)]).
Proof.
  rewrite restart_eq. split; [apply start_expected|].
  split; [rewrite !in_app_iff; right; left; now left|].
  rewrite !launched_app, launched_stop, launched_started. cbn [app launched].
  destruct (start_spawns_at_most_one k w_start (fst (stop k w_stop s)))
    as [->|(_ & p & ->)]; [now left|right; now exists p].
Qed.

(** X23.  [start] when no instance is live.  Without the script nothing is
    done beyond marking the worker expected.  With it, if [Popen]
    succeeds, exactly that process is launched, owned, and timed by the
    clock, with a usable log stream and the watchdog on; if [Popen]
    raises, the exception escapes, nothing is launched and the handle is
    as before. *)
Theorem start_when_down (k : kind) (w : os) (s : state) :
  live w s k = false ->
  let '(s', effs, raised) := start k w s in
  expected_running k s' = true
  /\ (script_exists w k = false ->
      effs = [] /\ raised = None /\ process_of k s' = process_of k s
      /\ started_at_of k s' = started_at_of k s
      /\ log_handle_of k s' = log_handle_of k s
      /\ _watchdog_started s' = _watchdog_started s)
  /\ (script_exists w k = true ->
      forall p, popen w k = Ok p ->
        raised = None /\ spawned effs = [(k, p)]
        /\ process_of k s' = Some p
        /\ started_at_of k s' = Some (time w)
        /\ log_usable (log_handle_of k s') = true
        /\ _watchdog_started s' = true)
  /\ (script_exists w k = true ->
      forall e, popen w k = Raise e ->
        raised = Some e /\ spawned effs = []
        /\ process_of k s' = process_of k s).
Proof.
  intros Hl.
  pose proof (start_expected k w s) as He.
  destruct (start k w s) as [[s' effs] raised] eqn:E. cbn [fst] in He.
  split; [exact He|]. clear He.
  destruct k; unfold live in Hl; unfold start in E;
    unfold start_posts_parser, start_accounts_parser in E;
    cbn [_posts_process _accounts_process _posts_started_at
         _accounts_started_at _posts_log_handle _accounts_log_handle
         _watchdog_started _posts_expected_running
         _accounts_expected_running] in E;
    rewrite Hl in E;
    unfold process_of, started_at_of, log_handle_of.
  - destruct (script_exists w Posts) eqn:Es; cbn [negb] in E.
    + split; [discriminate|].
      destruct (log_usable (_posts_log_handle s)) eqn:Eu;
        destruct (popen w Posts) as [p|e] eqn:Ep;
        unfold _ensure_watchdog in E;
        cbn [_watchdog_started] in E;
        try destruct (_watchdog_started s) eqn:Ew;
        injection E as <- <- <-;
        (split; intros _ q Hq; [try discriminate Hq; injection Hq as <-
                               |try discriminate Hq; injection Hq as <-]);
        cbn [_posts_process _posts_started_at _posts_log_handle
             _watchdog_started];
        repeat split; auto.
    + injection E as <- <- <-.
      split; [intros _; repeat split|split; discriminate].
  - destruct (script_exists w Accounts) eqn:Es; cbn [negb] in E.
    + split; [discriminate|].
      destruct (log_usable (_accounts_log_handle s)) eqn:Eu;
        destruct (popen w Accounts) as [p|e] eqn:Ep;
        unfold _ensure_watchdog in E;
        cbn [_watchdog_started] in E;
        try destruct (_watchdog_started s) eqn:Ew;
        injection E as <- <- <-;
        (split; intros _ q Hq; [try discriminate Hq; injection Hq as <-
                               |try discriminate Hq; injection Hq as <-]);
        cbn [_accounts_process _accounts_started_at _accounts_log_handle
             _watchdog_started];
        repeat split; auto.
    + injection E as <- <- <-.
      split; [intros _; repeat split|split; discriminate].
Qed.

Lemma control_stop_all_eq W s :
  control_parsers_action (lit "stop_all") W s
  = (fst (stop Posts (at_stop W Posts)
               (fst (stop Accounts (at_stop W Accounts) s))),
     snd (stop Accounts (at_stop W Accounts) s)
     ++ snd (stop Posts (at_stop W Posts)
                  (fst (stop Accounts (at_stop W Accounts) s))),
     None).
Proof.
  unfold control_parsers_action.
  change (str_eqb (lit "stop_all") (lit "start_all")) with false.
  change (str_eqb (lit "stop_all") (lit "stop_all")) with true.
  cbv iota. unfold and_then, stopping, stop.
  destruct (stop_accounts_parser (at_stop W Accounts) s) as [s1 ops1].
  cbn [fst snd].
  now destruct (stop_posts_parser (at_stop W Posts) s1) as [s2 ops2].
Qed.

Lemma control_start_all_eq W s :
  control_parsers_action (lit "start_all") W s
  = and_then (starting (start Accounts (at_start W Accounts) s))
             (fun s => starting (start Posts (at_start W Posts) s)).
Proof. reflexivity. Qed.

(** X24.  an action that [control_parsers_action] does not know changes
    nothing and does nothing. *)
Theorem unknown_action_does_nothing (action : str) (W : answers)
  (s : state) :
  ~ In action known_actions ->
  control_parsers_action action W s = (s, [], None).
Proof.
  intros Hn.
  assert (N : forall a, In a known_actions -> str_eqb action a = false).
  { intros a Ha. apply str_eqb_neq. intros ->. contradiction. }
  unfold control_parsers_action.
  rewrite !N by (unfold known_actions; simpl; auto 12).
  reflexivity.
Qed.

(** X25.  the action [stop_all] stops both workers: afterwards neither is
    expected to run, neither has a log stream, every process found for
    either script has been sent a kill, nothing has been launched and no
    exception escapes. *)
Theorem stop_all_stops_both (W : answers) (s : state) :
  let '(s', done, raised) := control_parsers_action (lit "stop_all") W s in
  raised = None
  /\ launched done = []
  /\ forall k,
       expected_running k s' = false
       /\ log_handle_of k s' = None
       /\ (forall pid, In pid (find_pids (at_stop W k) k) ->
                       In (Kill pid) done).
Proof.
  rewrite control_stop_all_eq.
  split; [reflexivity|].
  split; [now rewrite launched_app, !launched_stop|].
  set (s1 := fst (stop Accounts (at_stop W Accounts) s)).
  destruct (stop_frame Posts (at_stop W Posts) s1)
    as [(_ & _ & Hlog & Hexp) _].
  cbn [other] in Hlog, Hexp.
  intros [|]; (split; [|split]).
  - apply stop_expected.
  - apply stop_log.
  - intros pid Hp. apply in_or_app. right. now apply stop_kills.
  - rewrite Hexp. apply stop_expected.
  - rewrite Hlog. apply stop_log.
  - intros pid Hp. apply in_or_app. left. now apply stop_kills.
Qed.

(** X26.  the action [start_all] starts the accounts worker, then the
    posts worker.  The accounts worker is marked expected in any case; an
    exception of its start escapes and leaves the posts worker as it was,
    not even marked expected; without one the posts worker is marked
    expected too. *)
Theorem start_all_starts_accounts_first (W : answers) (s : state) :
  let first := start Accounts (at_start W Accounts) s in
  let '(s', done, raised) := control_parsers_action (lit "start_all") W s in
  expected_running Accounts s' = true
  /\ (forall e, snd first = Some e ->
        raised = Some e /\ s' = fst (fst first) /\ same_worker Posts s s')
  /\ (snd first = None -> expected_running Posts s' = true).
Proof.
  cbn zeta. rewrite control_start_all_eq.
  pose proof (start_expected Accounts (at_start W Accounts) s) as Ha.
  pose proof (start_frame Accounts (at_start W Accounts) s) as Hf.
  destruct (start Accounts (at_start W Accounts) s) as [[s1 effs1] r1].
  cbn [fst snd other] in *. unfold and_then, starting.
  destruct r1 as [e|].
  - split; [exact Ha|]. split; [|discriminate].
    intros e' He. injection He as <-. auto.
  - pose proof (start_expected Posts (at_start W Posts) s1) as Hp.
    pose proof (start_frame Posts (at_start W Posts) s1) as Hf2.
    destruct (start Posts (at_start W Posts) s1) as [[s2 effs2] r2].
    cbn [fst snd other] in *.
    split; [|split; [discriminate|intros _; exact Hp]].
    destruct Hf2 as (_ & _ & _ & ->). exact Ha.
Qed.

End ControlFacts.

(** ** The posts to fetch and the stored statistics *)

Module PostsFacts.
Import Py Builtins ParserPost ParserPostTracking ParsersBridgeControl.
Import DictDefs StrDefs PostsDefs.
Import StrFacts DictFacts.

Lemma existsb_str_eqb x l : existsb (str_eqb x) l = true <-> In x l.
Proof.
  rewrite existsb_exists. split.
  - intros (y & Hy & E). apply str_eqb_eq in E. now subst.
  - intros H. exists x. split; [exact H|apply str_eqb_refl].
Qed.

Lemma setdefault_eq (d : dict) k v :
  setdefault d k v
  = (match lookup d k with Some _ => d | None => set d k v end, get d k v).
Proof. unfold setdefault, get. now destruct (lookup d k). Qed.

Lemma setdefault_keeps (d : dict) k v k' x :
  lookup d k' = Some x -> lookup (fst (setdefault d k v)) k' = Some x.
Proof.
  intros H. rewrite setdefault_eq. cbn [fst].
  destruct (lookup d k) eqn:E; [exact H|].
  rewrite lookup_set_other; [exact H|]. intros ->. congruence.
Qed.

Lemma setdefault_has (d : dict) k v : lookup (fst (setdefault d k v)) k <> None.
Proof.
  rewrite setdefault_eq. cbn [fst].
  destruct (lookup d k) eqn:E; [congruence|].
  rewrite lookup_set_same. discriminate.
Qed.

Lemma setdefault_there (d : dict) k v :
  lookup d k <> None -> fst (setdefault d k v) = d.
Proof. rewrite setdefault_eq. cbn [fst]. now destruct (lookup d k). Qed.

(** X27.  [_ensure_stats] returns the dictionary stored under [stats],
    which holds [accounts] and [posts] afterwards; no entry that was
    there is changed, in [stats] or beside it, and a second call changes
    nothing. *)
Theorem ensure_stats_completes_the_record (data data' stats : dict) :
  _ensure_stats data = Ok (data', stats) ->
  get data' (lit "stats") VNone = VDict stats
  /\ lookup stats (lit "accounts") <> None
  /\ lookup stats (lit "posts") <> None
  /\ (forall k v,
        lookup (as_dict (get data (lit "stats") (VDict []))) k = Some v ->
        lookup stats k = Some v)
  /\ (forall k, k <> lit "stats" -> lookup data' k = lookup data k)
  /\ _ensure_stats data' = Ok (data', stats).
Proof.
  unfold _ensure_stats. rewrite setdefault_eq.
  destruct (get data (lit "stats") (VDict [])) as [ | | | | | |st] eqn:Eg;
    try discriminate.
  set (data1 := match lookup data (lit "stats") with
                | Some _ => data
                | None => set data (lit "stats") (VDict [])
                end).
  destruct (setdefault st (lit "accounts") (VDict [])) as [st1 r1] eqn:E1.
  destruct (setdefault st1 (lit "posts") (VDict [])) as [st2 r2] eqn:E2.
  intros H. injection H as <- <-.
  assert (H1 : st1 = fst (setdefault st (lit "accounts") (VDict [])))
    by now rewrite E1.
  assert (H2 : st2 = fst (setdefault st1 (lit "posts") (VDict [])))
    by now rewrite E2.
  assert (Hp : lookup st2 (lit "posts") <> None)
    by (rewrite H2; apply setdefault_has).
  assert (Ha : lookup st2 (lit "accounts") <> None).
  { destruct (lookup st1 (lit "accounts")) as [x|] eqn:Ex.
    - rewrite H2, (setdefault_keeps _ _ _ _ _ Ex). discriminate.
    - exfalso. revert Ex. rewrite H1. apply setdefault_has. }
  split; [apply get_set_same|]. split; [exact Ha|]. split; [exact Hp|].
  split; [|split].
  - cbn [as_dict]. intros k v Hk. rewrite H2. apply setdefault_keeps.
    rewrite H1. now apply setdefault_keeps.
  - intros k Hk. rewrite lookup_set_other by congruence.
    subst data1. destruct (lookup data (lit "stats")); [reflexivity|].
    apply lookup_set_other. congruence.
  - rewrite setdefault_eq, get_set_same, lookup_set_same.
    rewrite !setdefault_eq.
    destruct (lookup st2 (lit "accounts")); [|congruence].
    destruct (lookup st2 (lit "posts")); [|congruence].
    now rewrite set_set.
Qed.

Section WithLibrary.
Context {L : PyLib}.

Lemma collect_step_keeps st item :
  collected st -> collected (collect_step st item).
Proof.
  destruct st as [posts seen]. intros (Hn & Hs & Hc).
  unfold collect_step. cbn [fst snd] in *.
  destruct (strip (py_str item)) as [|c r] eqn:Ev; [now split|].
  destruct (existsb (str_eqb (c :: r)) seen) eqn:Ee; [now split|].
  assert (Hnew : ~ In (c :: r) posts).
  { intros Hin. apply Hs in Hin. apply existsb_str_eqb in Hin.
    rewrite Hin in Ee. discriminate. }
  unfold collected. cbn [fst snd]. split; [|split].
  - apply NoDup_app; [exact Hn|repeat constructor; auto|].
    intros x Hx [<-|[]]. contradiction.
  - intros x. rewrite in_app_iff. simpl. rewrite Hs. tauto.
  - apply Forall_app. split; [exact Hc|].
    constructor; [|constructor]. split; [discriminate|].
    rewrite <- Ev. apply clean_strip.
Qed.

Lemma collect_step_mem st item v :
  collected st ->
  In v (fst (collect_step st item))
  <-> In v (fst st) \/ (v <> [] /\ v = strip (py_str item)).
Proof.
  destruct st as [posts seen]. intros (Hn & Hs & Hc).
  unfold collect_step. cbn [fst snd] in *.
  destruct (strip (py_str item)) as [|c r] eqn:Ev.
  - cbn [fst]. split; [auto|]. intros [H|[H1 H2]]; [exact H|congruence].
  - destruct (existsb (str_eqb (c :: r)) seen) eqn:Ee; cbn [fst].
    + apply existsb_str_eqb in Ee. apply Hs in Ee.
      split; [auto|]. intros [H|[_ ->]]; assumption.
    + rewrite in_app_iff. simpl. split.
      * intros [H|[<-|[]]]; [now left|right]. split; [discriminate|easy].
      * intros [H|[_ ->]]; auto.
Qed.

Lemma collect_items_keeps items st :
  collected st -> collected (fold_left collect_step items st).
Proof.
  revert st. induction items as [|i items IH]; intros st H; [exact H|].
  cbn [fold_left]. apply IH. now apply collect_step_keeps.
Qed.

Lemma collect_items_mem items st v :
  collected st ->
  In v (fst (fold_left collect_step items st))
  <-> In v (fst st)
      \/ (v <> [] /\ exists item, In item items /\ v = strip (py_str item)).
Proof.
  revert st. induction items as [|i items IH]; intros st H.
  - cbn [fold_left]. split; [auto|]. intros [Hv|(_ & x & [] & _)]. exact Hv.
  - cbn [fold_left]. rewrite IH by now apply collect_step_keeps.
    rewrite collect_step_mem by exact H. split.
    + intros [[Hv|(Hne & ->)]|(Hne & x & Hx & ->)]; auto.
      * right. split; [exact Hne|]. exists i. split; [now left|easy].
      * right. split; [exact Hne|]. exists x. split; [now right|easy].
    + intros [Hv|(Hne & x & [<-|Hx] & ->)]; auto.
      right. split; [exact Hne|]. now exists x.
Qed.

Lemma collect_loop_keeps users st st' :
  collected st -> collect_loop users st = Some st' -> collected st'.
Proof.
  revert st. induction users as [|[path data] users IH]; intros st H; simpl.
  - intros E. now injection E as <-.
  - destruct (iterate (posts_field data)) as [items|]; [|discriminate].
    apply IH. now apply collect_items_keeps.
Qed.

Lemma collect_loop_mem users st st' v :
  collected st -> collect_loop users st = Some st' ->
  In v (fst st')
  <-> In v (fst st)
      \/ (v <> []
          /\ exists path data items item,
               In (path, data) users
               /\ iterate (posts_field data) = Some items
               /\ In item items /\ v = strip (py_str item)).
Proof.
  revert st. induction users as [|[path data] users IH]; intros st H; simpl.
  - intros E. injection E as <-. split; [auto|].
    intros [Hv|(_ & ? & ? & ? & ? & [] & _)]. exact Hv.
  - destruct (iterate (posts_field data)) as [items|] eqn:Ei; [|discriminate].
    intros E. rewrite (IH _ (collect_items_keeps items st H) E).
    rewrite collect_items_mem by exact H. split.
    + intros [[Hv|(Hne & x & Hx & ->)]
             |(Hne & p & d & its & x & Hu & Hi & Hx & ->)];
        auto.
      * right. split; [exact Hne|]. exists path, data, items, x. auto.
      * right. split; [exact Hne|]. exists p, d, its, x. auto.
    + intros [Hv|(Hne & p & d & its & x & [Hu|Hu] & Hi & Hx & ->)]; auto.
      * injection Hu as <- <-. rewrite Ei in Hi. injection Hi as <-.
        left. right. split; [exact Hne|]. now exists x.
      * right. split; [exact Hne|]. exists p, d, its, x. auto.
Qed.

Lemma collected_nil : collected ([], []).
Proof. repeat split; auto; constructor. Qed.

Lemma collect_posts_loop users posts :
  _collect_posts users = Some posts ->
  exists seen, collect_loop users ([], []) = Some (posts, seen).
Proof.
  unfold _collect_posts.
  destruct (collect_loop users ([], [])) as [[p s]|]; [|discriminate].
  intros E. injection E as <-. now exists s.
Qed.

Lemma collect_loop_lists users st :
  Forall (fun u => exists l, posts_field (snd u) = VList l) users ->
  exists st', collect_loop users st = Some st'.
Proof.
  intros H. revert st.
  induction H as [|[path data] users (l & Hl) _ IH]; intros st; simpl;
    [now exists st|].
  cbn [snd] in Hl. rewrite Hl. cbn [iterate]. apply IH.
Qed.

End WithLibrary.

(** X28.  the posts [_collect_posts] returns are exactly the non-empty
    stripped texts of the items of the users' [posts] fields, each of them
    once. *)
Theorem collected_posts_are_the_stripped_items `{PyLib}
  (users : list (str * value)) (posts : list str) :
  _collect_posts users = Some posts ->
  NoDup posts
  /\ Forall (fun v => v <> [] /\ clean v = true) posts
  /\ forall v,
       In v posts
       <-> v <> []
           /\ exists path data items item,
                In (path, data) users
                /\ iterate (posts_field data) = Some items
                /\ In item items /\ v = strip (py_str item).
Proof.
  intros E. apply collect_posts_loop in E. destruct E as (seen & E).
  pose proof (collect_loop_keeps _ _ _ collected_nil E) as (Hn & _ & Hc).
  split; [exact Hn|]. split; [exact Hc|].
  intros v. rewrite (collect_loop_mem _ _ _ v collected_nil E). cbn [fst].
  simpl. tauto.
Qed.

(** X29.  when the [posts] fields of the user files are lists, the
    watchdog's [_has_posts_tasks] answers true exactly when the parser's
    [_collect_posts] finds a post to fetch in the same directory. *)
Theorem watchdog_sees_the_posts_to_fetch `{PyLib} (dir : directory) :
  Forall (fun u => exists l, posts_field (snd u) = VList l)
         (_load_users dir) ->
  exists posts,
    _collect_posts (_load_users dir) = Some posts
    /\ (_has_posts_tasks dir = true <-> posts <> []).
Proof.
  intros Hl.
  destruct (collect_loop_lists (_load_users dir) ([], []) Hl)
    as ([posts seen] & E).
  exists posts. split; [unfold _collect_posts; now rewrite E|].
  assert (Hm := fun v => collect_loop_mem _ _ _ v collected_nil E).
  cbn [fst] in Hm.
  assert (Hne : posts <> [] <-> exists v, In v posts).
  { destruct posts as [|x r].
    - split; [congruence|intros [v []]].
    - split; [intros _; exists x; now left|discriminate]. }
  rewrite Hne. clear Hne.
  unfold _has_posts_tasks, _load_users in *.
  destruct dir as [files|].
  - rewrite existsb_exists. split.
    + intros ([path [data|]] & Hf & Hi); cbn [snd] in Hi; [|discriminate].
      destruct data as [ | | | | | |d]; try discriminate.
      destruct (get d (lit "posts") (VList [])) as [ | | | | |l| ] eqn:Eg;
        try discriminate.
      cbn [has_item] in Hi. apply existsb_exists in Hi.
      destruct Hi as (item & Hitem & Ht).
      exists (strip (py_str item)). apply Hm. right.
      split; [now destruct (strip (py_str item))|].
      exists path, (VDict d), l, item. repeat split; auto.
      * apply in_flat_map. exists (path, Some (VDict d)). split; [exact Hf|].
        now left.
      * cbn [posts_field]. now rewrite Eg.
    + intros (v & Hv). apply Hm in Hv.
      destruct Hv
        as [[]|(Hne & path & data & items & item & Hu & Hi & Hx & ->)].
      apply in_flat_map in Hu. destruct Hu as ([p [c|]] & Hf & Hu);
        cbn [snd fst] in Hu; [|destruct Hu].
      destruct c as [ | | | | | |d]; try (now destruct Hu).
      destruct Hu as [Hu|[]]. injection Hu as <- <-.
      exists (p, Some (VDict d)). split; [exact Hf|]. cbn [snd].
      cbn [posts_field] in Hi.
      assert (Hd : exists l, get d (lit "posts") (VList []) = VList l).
      { apply (proj1 (Forall_forall _ _) Hl (p, VDict d)).
        apply in_flat_map. exists (p, Some (VDict d)). split; [exact Hf|].
        now left. }
      destruct Hd as (l & Hd). rewrite Hd in *. cbn [iterate] in Hi.
      injection Hi as <-. cbn [has_item]. apply existsb_exists.
      exists item. split; [exact Hx|].
      now destruct (strip (py_str item)).
  - split; [discriminate|]. intros (v & Hv). apply Hm in Hv.
    destruct Hv as [[]|(_ & ? & ? & ? & ? & [] & _)].
Qed.

End PostsFacts.

(** ** The tracking of a post across the users *)

Module GlobalFacts.
Import Py ParserPost ParserPostTracking.
Import DictDefs TimelineDefs PointDefs WindowDefs RecordDefs.
Import StrFacts DictFacts TimelineFacts.
Import PointFacts NormalFacts HorizonFacts RecordFacts.

Section WithLibrary.
Context {L : PyLib} {LL : PyLibLaws L}.

Lemma raw_points_assemble s tl h : raw_points (VDict (assemble s tl h)) = tl.
Proof.
  unfold raw_points, assemble. cbn [as_dict].
  destruct s as [d|], tl as [|p tl], h as [x|]; simpl app; get_lit;
    reflexivity.
Qed.

Lemma assemble_nil s tl h : assemble s tl h = [] -> tl = [].
Proof.
  unfold assemble. destruct s, tl, h; simpl; congruence.
Qed.

Lemma normalize_app_nothing X Y :
  _normalize_timeline (VList Y) = [] ->
  _normalize_timeline (VList (X ++ Y)) = _normalize_timeline (VList X).
Proof.
  intros H. rewrite <- normalize_absorb_right, H. now rewrite app_nil_r.
Qed.

Lemma global_step_points g P url0 snapshot :
  (forall url, raw_points (get g url VNone)
               = _normalize_timeline (VList (P url))) ->
  forall url,
    raw_points (get (global_step g url0 snapshot) url VNone)
    = _normalize_timeline (VList (P url ++ entry_points url (url0, snapshot))).
Proof.
  intros HI url. unfold global_step, entry_points. cbn [fst snd].
  destruct snapshot as [ | | | | | |snap];
    try (destruct (str_eqb url0 url); rewrite app_nil_r; apply HI).
  set (tr := get snap (lit "tracking") VNone).
  pose proof (normalize_tracking_eq tr) as En.
  destruct (_normalize_tracking tr) as [|e0 rest] eqn:Et.
  - symmetry in En. apply assemble_nil in En. rewrite timeline_of_raw in En.
    destruct (str_eqb url0 url).
    + rewrite normalize_app_nothing by exact En. apply HI.
    + rewrite app_nil_r. apply HI.
  - destruct (str_eqb url0 url) eqn:Eu.
    + apply str_eqb_eq in Eu. subst url0. rewrite get_set_same.
      destruct (merge_tracking_eq (get g url VNone) (VDict (e0 :: rest)))
        as (h & _ & ->).
      rewrite raw_points_assemble, HI. rewrite En at 1.
      rewrite raw_points_assemble, timeline_of_raw. unfold merge.
      now rewrite normalize_absorb_left, normalize_absorb_right.
    + apply str_eqb_neq in Eu. rewrite get_set_other by exact Eu.
      rewrite app_nil_r. apply HI.
Qed.

Lemma global_inner_points posts_stats g P :
  (forall url, raw_points (get g url VNone)
               = _normalize_timeline (VList (P url))) ->
  forall url,
    raw_points
      (get (fold_left (fun g kv => global_step g (fst kv) (snd kv))
                      posts_stats g) url VNone)
    = _normalize_timeline
        (VList (P url ++ flat_map (entry_points url) posts_stats)).
Proof.
  revert g P. induction posts_stats as [|[u snapshot] ps IH]; intros g P HI url.
  - cbn [fold_left flat_map]. rewrite app_nil_r. apply HI.
  - cbn [fold_left flat_map fst snd]. rewrite app_assoc.
    apply (IH _ (fun url => P url ++ entry_points url (u, snapshot))).
    now apply global_step_points.
Qed.

Lemma global_outer_points users g P :
  (forall url, raw_points (get g url VNone)
               = _normalize_timeline (VList (P url))) ->
  forall url,
    raw_points
      (get (fold_left
              (fun global_map user =>
                 match posts_stats_of (snd user) with
                 | VDict posts_stats =>
                     fold_left (fun g kv => global_step g (fst kv) (snd kv))
                               posts_stats global_map
                 | _ => global_map
                 end)
              users g) url VNone)
    = _normalize_timeline (VList (P url ++ tracked_points url users)).
Proof.
  revert g P. induction users as [|user users IH]; intros g P HI url.
  - cbn [fold_left tracked_points flat_map]. rewrite app_nil_r. apply HI.
  - cbn [fold_left tracked_points flat_map]. rewrite app_assoc.
    fold (tracked_points url users).
    destruct (posts_stats_of (snd user)) as [ | | | | | |ps];
      try (rewrite app_nil_r; now apply IH).
    apply (IH _ (fun url => P url ++ flat_map (entry_points url) ps)).
    now apply global_inner_points.
Qed.

End WithLibrary.

(** X30.  the timeline that [_collect_global_post_tracking] holds for a
    post is the merge of the timelines that the users hold for it: the
    normal form of all their raw points, in the order of the users. *)
Theorem global_timeline_merges_the_users {L : PyLib} {LL : PyLibLaws L}
  (users : list (str * value)) (url : str) :
  raw_points (get (_collect_global_post_tracking users) url VNone)
  = _normalize_timeline (VList (tracked_points url users)).
Proof.
  apply (global_outer_points users [] (fun _ => [])). reflexivity.
Qed.

End GlobalFacts.

(** ** The properties on concrete inputs *)

Module Examples.
Import Py ParserPost ExampleData.

#[local] Existing Instance Iso8601.library.
#[local] Existing Instance Iso8601Facts.library_laws.

Lemma window_ok_t0 : HistoryDefs.window_ok t0.
Proof. unfold HistoryDefs.window_ok. vm_compute. repeat split; congruence. Qed.

Lemma three_points_dicts : HistoryDefs.all_dicts three_points.
Proof. repeat constructor. Qed.

(** C1 (counterexample).  Two timelines with one point each, on the same
    timestamp, with 1 and 2 views: the merge keeps the point of its second
    operand, so the two orders give different timelines. *)
Lemma merge_not_commutative :
  merge A1 B1 = [ normal_point "2024-01-01T00:00:00+00:00" 2 ]
  /\ merge B1 A1 = [ normal_point "2024-01-01T00:00:00+00:00" 1 ]
  /\ merge A1 B1 <> merge B1 A1.
Proof.
  assert (E1 : merge A1 B1 = [ normal_point "2024-01-01T00:00:00+00:00" 2 ])
    by (vm_compute; reflexivity).
  assert (E2 : merge B1 A1 = [ normal_point "2024-01-01T00:00:00+00:00" 1 ])
    by (vm_compute; reflexivity).
  split; [exact E1|]. split; [exact E2|].
  rewrite E1, E2. intros E. vm_compute in E. discriminate E.
Qed.

Lemma agree_A1_B2 : TimelineDefs.agree A1 B2.
Proof.
  intros a b ka pa kb pb Ha Hb Na Nb Hi.
  destruct Ha as [<-|[]]. destruct Hb as [<-|[]].
  vm_compute in Na. vm_compute in Nb.
  injection Na as <- <-. injection Nb as <- <-.
  vm_compute in Hi. discriminate Hi.
Qed.

(** C1 (witness).  Two timelines whose points lie on different instants
    merge to the same timeline in both orders. *)
Lemma merge_laws_witness :
  TimelineDefs.agree A1 B2 /\ merge A1 B2 = merge B2 A1.
Proof.
  split; [exact agree_A1_B2|].
  exact (proj2 (proj2 TimelineFacts.merge_laws) A1 B2 agree_A1_B2).
Defined.

(** C3 (witness).  The specification's example, with the window starting
    at 2024-01-01T00:00:00Z: the points of 01:10 and 02:10 fall in the
    buckets 1 and 2, whose deltas are 10 and 15. *)
Lemma hourly_deltas_witness :
  exists rows,
    _compute_hourly_metric [VDict d0; VDict d1; VDict d2] t0 (lit "views")
    = Ok rows
    /\ map HistoryDefs.row_hour rows = map VInt hours_1_24
    /\ map HistoryDefs.row_delta rows
       = VInt 0 :: VInt 10 :: VInt 15 :: repeat (VInt 0) 21
    /\ HistoryDefs.hour_bucket_of t0 (after t0 (clock 1 10 0)) = 1
    /\ HistoryDefs.row_delta (HistoryDefs.hour_bucket 1 rows) = VInt 10
    /\ HistoryDefs.hour_bucket_of t0 (after t0 (clock 2 10 0)) = 2
    /\ HistoryDefs.row_delta (HistoryDefs.hour_bucket 2 rows) = VInt 15.
Proof.
  apply (HistoryFacts.hourly_deltas_of_three_points
           d0 d1 d2 t0 (after t0 (clock 1 10 0)) (after t0 (clock 2 10 0))
           t0 (lit "views"));
    try (vm_compute; reflexivity).
  exact window_ok_t0.
Defined.

(** C2 (counterexample).  The history written at [start + 24h + 1s] is
    finalized; updating it again one second later gives a different
    record: [updated_at_utc] has moved. *)
Lemma second_update_changes_window :
  exists t1 t2,
    _update_history_24h tracked now1 = Ok t1
    /\ HistoryDefs.history_field t1 (lit "finalized") = VBool true
    /\ _update_history_24h t1 now2 = Ok t2
    /\ HistoryDefs.history_field t1 (lit "updated_at_utc")
       = VStr (lit "2024-01-02T00:00:01+00:00")
    /\ HistoryDefs.history_field t2 (lit "updated_at_utc")
       = VStr (lit "2024-01-02T00:00:02+00:00")
    /\ t2 <> t1.
Proof.
  destruct (_update_history_24h tracked now1) as [t1|e] eqn:E1;
    [|vm_compute in E1; discriminate E1].
  destruct (_update_history_24h t1 now2) as [t2|e] eqn:E2.
  2:{ exfalso. revert E2. vm_compute in E1. injection E1 as <-.
      vm_compute. discriminate. }
  assert (F1 : HistoryDefs.history_field t1 (lit "updated_at_utc")
               = VStr (lit "2024-01-02T00:00:01+00:00")).
  { vm_compute in E1. injection E1 as <-. vm_compute. reflexivity. }
  assert (F2 : HistoryDefs.history_field t2 (lit "updated_at_utc")
               = VStr (lit "2024-01-02T00:00:02+00:00")).
  { revert E2. vm_compute in E1. injection E1 as <-.
    vm_compute. intros E2. injection E2 as <-. reflexivity. }
  exists t1, t2. repeat split; try assumption.
  - vm_compute in E1. injection E1 as <-. vm_compute. reflexivity.
  - intros E. rewrite E, F1 in F2. vm_compute in F2. discriminate F2.
Qed.

(** C2 (witness). *)
Lemma history_finalized_witness :
  exists t1,
    _update_history_24h tracked now1 = Ok t1
    /\ HistoryDefs.history_field t1 (lit "ready_hours") = VInt 24
    /\ HistoryDefs.history_field t1 (lit "finalized") = VBool true
    /\ DateTime.add t0 (DateTime.hours 24)
       = Ok (HistoryDefs.plus_hours t0 24)
    /\ HistoryDefs.history_field t1 (lit "completed_at_utc")
       = VStr (isoformat (HistoryDefs.plus_hours t0 24))
    /\ forall now2,
         DateTime.instant now1 <= DateTime.instant now2 ->
         _update_history_24h t1 now2
         = Ok (set t1 (lit "history_24h")
                   (VDict (set (HistoryDefs.history_of t1)
                               (lit "updated_at_utc")
                               (VStr (isoformat now2))))).
Proof.
  apply (HistoryFacts.history_finalized_after_a_day
           tracked three_points t0 now1);
    try (vm_compute; reflexivity).
  - exact three_points_dicts.
  - exact window_ok_t0.
Defined.

(** C9 (witness).  Five and a half hours and thirty hours after the
    start. *)
Lemma ready_hours_monotone_witness :
  (forall t1 t2,
      _update_history_24h tracked (after t0 (clock 5 30 0)) = Ok t1 ->
      _update_history_24h tracked (after t0 (clock 30 0 0)) = Ok t2 ->
      exists r1 r2,
        HistoryDefs.history_field t1 (lit "ready_hours") = VInt r1
        /\ HistoryDefs.history_field t2 (lit "ready_hours") = VInt r2
        /\ 0 <= r1 /\ r1 <= r2 /\ r2 <= 24)
  /\ (HistoryDefs.all_dicts three_points -> HistoryDefs.window_ok t0 ->
      exists t1 t2,
        _update_history_24h tracked (after t0 (clock 5 30 0)) = Ok t1
        /\ _update_history_24h tracked (after t0 (clock 30 0 0)) = Ok t2).
Proof.
  apply (HistoryFacts.ready_hours_monotone
           tracked three_points t0
           (after t0 (clock 5 30 0)) (after t0 (clock 30 0 0)));
    try (vm_compute; reflexivity).
  vm_compute. discriminate.
Defined.

(** C6 (witness).  The empty batch of the specification, against an empty
    queue of the default size. *)
Lemma empty_stats_rejected_witness :
  ParserEvents.enqueue_parser_event
    (VDict empty_batch)
    (ParserEvents.mkQueue ParserEvents.DEFAULT_QUEUE_SIZE [])
  = ((false, lit "empty_stats"),
     ParserEvents.mkQueue ParserEvents.DEFAULT_QUEUE_SIZE [])
  /\ ParserEvents.qsize
       (snd (ParserEvents.enqueue_parser_event
               (VDict empty_batch)
               (ParserEvents.mkQueue ParserEvents.DEFAULT_QUEUE_SIZE [])))
     = ParserEvents.qsize
         (ParserEvents.mkQueue ParserEvents.DEFAULT_QUEUE_SIZE []).
Proof.
  apply (QueueFacts.empty_stats_rejected empty_batch); reflexivity.
Defined.

(** C7 (witness).  A queue of capacity 2 that holds 2 events. *)
Lemma queue_full_witness :
  (forall es, forallb ParserEvents.well_formed es = true ->
     ParserEvents.submit_all es full_queue
     = (map (fun _ => (false, lit "queue_full")) es, full_queue))
  /\ (forall e q' e',
        ParserEvents.get_item full_queue = Some (e, q') ->
        ParserEvents.well_formed e' = true ->
        ParserEvents.enqueue_parser_event e' q'
        = ((true, lit "queued"),
           ParserEvents.mkQueue 2 (ParserEvents.items q' ++ [e']))).
Proof.
  apply (QueueFacts.queue_full_until_drained 2 full_queue);
    [lia|reflexivity|reflexivity].
Defined.

Lemma in_grace_at_50s :
  HealthDefs.in_grace started 1704067150%float.
Proof.
  exists 1704067100%float. repeat split; vm_compute; reflexivity.
Qed.

Lemma past_grace_at_500s :
  ~ HealthDefs.in_grace started 1704067600%float.
Proof.
  intros (t & E & _ & H). injection E as <-.
  vm_compute in H. discriminate H.
Qed.

(** C4 (witness).  Fifty seconds after the start the record is not
    stale; five hundred seconds after it, four hundred after the last
    request, it is stale with [request_timeout]. *)
Lemma health_stale_witness :
  ParsersBridge._health_stale heartbeat started 1704067150%float = (false, [])
  /\ ParsersBridge._health_stale heartbeat started 1704067600%float
     = (true, lit "request_timeout").
Proof.
  split.
  - exact (proj1 (HealthFacts.health_stale_classification
                    heartbeat started 1704067150%float) in_grace_at_50s).
  - apply (proj2 (HealthFacts.health_stale_classification
                    heartbeat started 1704067600%float) past_grace_at_500s).
    split; [vm_compute; discriminate|].
    exists 1704067200%float. split; vm_compute; reflexivity.
Defined.

Lemma world_shows_stray : SupervisorDefs.shows world idle stray.
Proof.
  intros k p [E|[]]. injection E as <- <-. right. simpl. now left.
Qed.

Lemma one_stray : SupervisorDefs.at_most_one stray.
Proof. intros k. destruct k; simpl; lia. Qed.

(** C5 (witness).  A posts worker that the supervisor does not own is
    alive, and the enumeration finds it: [start] spawns nothing, and the
    worker stays the only one of its kind. *)
Lemma start_while_live_witness :
  (SupervisorDefs.start ParsersBridge.Posts world idle
   = (ParsersBridge.mkState None None (Some 1704067200%float) None None None
                            true true false,
      [ParsersBridge.StartWatchdogThread], None)
   /\ ParsersBridge.spawned
        (snd (fst (SupervisorDefs.start ParsersBridge.Posts world idle))) = [])
  /\ SupervisorDefs.shows world idle stray
  /\ SupervisorDefs.at_most_one stray
  /\ SupervisorDefs.at_most_one
       (ParsersBridge.spawned
          (snd (fst (SupervisorDefs.start ParsersBridge.Posts world idle)))
        ++ stray).
Proof.
  split; [|split; [|split]].
  - exact (proj1 (SupervisorFacts.start_while_live
                    ParsersBridge.Posts world idle) eq_refl).
  - exact world_shows_stray.
  - exact one_stray.
  - exact (proj1 (proj2 (SupervisorFacts.start_while_live
                           ParsersBridge.Posts world idle))
             stray world_shows_stray one_stray).
Defined.

(** C5 (counterexample).  No worker is alive; the posts worker is
    expected to run and the watchdog is on.  Two calls of
    [start_posts_parser] overlap, the watchdog thread's and a request
    handler's: each sets the flag and makes its test against an operating
    system that reports exactly the live processes, and finds no
    instance; then each runs the rest of its body and launches a process,
    5000 and then 5001.  Both are alive, the enumeration lists both, and
    the supervisor holds the second. *)
Lemma overlapping_starts_counterexample :
  SupervisorDefs.overlap_run ([], after_exit, []) (twins, holding_second, [])
  /\ ParsersBridge.find_pids
       (SupervisorDefs.os_of twins (fun _ => true) 1704067200%float
                             (launches 5001))
       ParsersBridge.Posts = [5001; 5000]
  /\ ~ SupervisorDefs.at_most_one twins.
Proof.
  split; [|split].
  - exact (SupervisorFacts.overlapping_calls
             ParsersBridge.Posts (fun _ => true) 1704067200%float
             (launches 5000) (launches 5001) [] after_exit).
  - reflexivity.
  - intros H. specialize (H ParsersBridge.Posts). simpl in H. lia.
Qed.

End Examples.

(** ** The further properties on concrete inputs *)

Module Samples.
Import Py Builtins ParserPost ParserPostTracking ParserEvents.
Import ParserEventsWorker ParsersBridge ParsersBridgeControl.
Import ExampleData SampleData.

#[local] Existing Instance Iso8601.library.
#[local] Existing Instance Iso8601Facts.library_laws.

(** X2 (witness). The three points of the specification's example. *)
Lemma normalize_timeline_idempotent_witness :
  _normalize_timeline (VList (_normalize_timeline (VList three_points)))
  = _normalize_timeline (VList three_points).
Proof.
  exact (NormalFacts.normalize_timeline_idempotent (VList three_points)).
Defined.


(** X4 (witness). The example read at 01:30, twenty minutes after its second
    point. *)
Lemma value_at_time_witness :
  _value_at_time (_normalize_timeline (VList three_points))
                 (after t0 (clock 1 30 0)) (lit "views")
  = Ok (PointDefs.last_value
          (PointDefs.upto (DateTime.instant (after t0 (clock 1 30 0)))
                          (_normalize_timeline (VList three_points)))
          (lit "views")).
Proof.
  exact (NormalFacts.value_at_time_on_normalized
           (VList three_points) (after t0 (clock 1 30 0)) (lit "views")).
Defined.

(** X5 (witness). A window with a point on its third day. *)
Lemma horizon_first_day_witness :
  _apply_tracking_horizon long_tracked
  = match WindowDefs.start_of long_tracked with
    | None =>
        Ok (set long_tracked (lit "timeline")
                (VList (WindowDefs.timeline_of long_tracked)))
    | Some start =>
        if DateTime.in_range (DateTime.wall start + DateTime.DAY)
        then Ok (set long_tracked (lit "timeline")
                     (VList (PointDefs.upto
                               (DateTime.instant start + DateTime.DAY)
                               (WindowDefs.timeline_of long_tracked))))
        else Raise OverflowError
    end.
Proof. exact (HorizonFacts.horizon_keeps_the_first_day long_tracked). Defined.

(** X6 (witness). The point of 3 January is cut; a second pass keeps the three
    others. *)
Lemma horizon_idempotent_witness :
  exists r,
    _apply_tracking_horizon long_tracked = Ok r
    /\ _apply_tracking_horizon r = Ok r.
Proof.
  eexists. split; [vm_compute; reflexivity|].
  apply (HorizonFacts.horizon_idempotent long_tracked).
  vm_compute. reflexivity.
Defined.

(** X7 (witness). The windows of 2 January and of 1 January. *)
Lemma merge_tracking_start_witness :
  WindowDefs.start_of (_merge_tracking TrackingDefs.late TrackingDefs.early)
  = WindowDefs.earliest
      (WindowDefs.start_of (as_dict TrackingDefs.late))
      (WindowDefs.start_of (as_dict TrackingDefs.early))
  /\ lookup (_merge_tracking TrackingDefs.late TrackingDefs.early)
            (lit "started_at_utc")
     = option_map (fun d => VStr (isoformat d))
         (WindowDefs.earliest
            (WindowDefs.start_of (as_dict TrackingDefs.late))
            (WindowDefs.start_of (as_dict TrackingDefs.early))).
Proof.
  exact (RecordFacts.merge_tracking_start TrackingDefs.late TrackingDefs.early).
Defined.

(** X9 (witness). The finalized window of 2 January and the open one of 1
    January. *)
Lemma merge_tracking_history_witness :
  lookup (_merge_tracking TrackingDefs.late TrackingDefs.early)
         (lit "history_24h")
  = let kept :=
      RecordDefs.preferred
        (RecordDefs.history_or_empty (as_dict TrackingDefs.late))
        (RecordDefs.history_or_empty (as_dict TrackingDefs.early))
        (WindowDefs.timeline_of (as_dict TrackingDefs.late))
        (WindowDefs.timeline_of (as_dict TrackingDefs.early)) in
    if truthy kept then Some kept else None.
Proof.
  exact (RecordFacts.merge_tracking_history TrackingDefs.late
                                            TrackingDefs.early).
Defined.

(** X8 (witness). The example and the same window with a later point. *)
Lemma merge_tracking_timeline_witness :
  get (_merge_tracking (VDict tracked) (VDict long_tracked)) (lit "timeline")
      (VList [])
  = VList (merge (WindowDefs.raw_points (VDict tracked))
                 (WindowDefs.raw_points (VDict long_tracked))).
Proof.
  exact (RecordFacts.merge_tracking_timeline (VDict tracked)
                                             (VDict long_tracked)).
Defined.

(** X10 (witness). A raw record, and a merge of two. *)
Lemma tracking_normal_forms_witness :
  _normalize_tracking (VDict (_normalize_tracking (VDict long_tracked)))
  = _normalize_tracking (VDict long_tracked)
  /\ _normalize_tracking
       (VDict (_merge_tracking TrackingDefs.late (VDict long_tracked)))
     = _merge_tracking TrackingDefs.late (VDict long_tracked).
Proof.
  split.
  - exact (proj1 RecordFacts.tracking_normal_forms (VDict long_tracked)).
  - exact (proj2 RecordFacts.tracking_normal_forms
                 TrackingDefs.late (VDict long_tracked)).
Defined.

(** X11 (witness). The example, a day and a second after its start. *)
Lemma update_history_witness :
  exists r,
    _update_history_24h tracked now1 = Ok r
    /\ (forall k dflt, k <> lit "history_24h" ->
                       get r k dflt = get tracked k dflt)
    /\ (WindowDefs.start_of tracked = None
        \/ (forall tl, get tracked (lit "timeline") (VList []) <> VList tl) ->
        r = tracked).
Proof.
  eexists. split; [vm_compute; reflexivity|].
  apply (WindowFacts.update_history_writes_only_history tracked _ now1).
  vm_compute. reflexivity.
Defined.

(** X12 (witness). Three hours into the window the history is not finalized. *)
Lemma finalized_witness :
  exists r,
    WindowDefs.start_of tracked = Some t0
    /\ get tracked (lit "timeline") (VList []) = VList three_points
    /\ _update_history_24h tracked (after t0 (clock 3 0 0)) = Ok r
    /\ HistoryDefs.history_field r (lit "finalized")
       = VBool (DateTime.DAY <=? DateTime.sub (after t0 (clock 3 0 0)) t0)
    /\ lookup (HistoryDefs.history_of r) (lit "completed_at_utc")
       = if DateTime.DAY <=? DateTime.sub (after t0 (clock 3 0 0)) t0
         then Some (VStr (isoformat (HistoryDefs.plus_hours t0 24)))
         else None.
Proof.
  eexists.
  assert (E1 : WindowDefs.start_of tracked = Some t0)
    by (vm_compute; reflexivity).
  assert (E2 : get tracked (lit "timeline") (VList []) = VList three_points)
    by reflexivity.
  split; [exact E1|]. split; [exact E2|].
  split; [vm_compute; reflexivity|].
  apply (WindowFacts.finalized_exactly_after_a_day
           tracked _ three_points t0 (after t0 (clock 3 0 0)) E1 E2).
  vm_compute. reflexivity.
Defined.

(** X13 (witness). The views of the example grow from 10 to 35 over the day. *)
Lemma hourly_deltas_add_up_witness :
  exists rows deltas,
    _compute_hourly_metric three_points t0 (lit "views") = Ok rows
    /\ _value_at_time three_points t0 (lit "views") = Ok (Some 10)
    /\ DateTime.add t0 (DateTime.hours 24) = Ok (after t0 (clock 24 0 0))
    /\ _value_at_time three_points (after t0 (clock 24 0 0)) (lit "views")
       = Ok (Some 35)
    /\ map HistoryDefs.row_hour rows = map VInt hours_1_24
    /\ map HistoryDefs.row_delta rows = map VInt deltas
    /\ fold_right Z.add 0 deltas = 35 - or_else (Some 10) 0.
Proof.
  destruct (_compute_hourly_metric three_points t0 (lit "views"))
    as [rows|e] eqn:E; [|vm_compute in E; discriminate E].
  assert (E1 : _value_at_time three_points t0 (lit "views") = Ok (Some 10))
    by (vm_compute; reflexivity).
  assert (E2 : DateTime.add t0 (DateTime.hours 24)
               = Ok (after t0 (clock 24 0 0)))
    by (vm_compute; reflexivity).
  assert (E3 : _value_at_time three_points (after t0 (clock 24 0 0))
                              (lit "views") = Ok (Some 35))
    by (vm_compute; reflexivity).
  destruct (WindowFacts.hourly_deltas_add_up
              three_points t0 (after t0 (clock 24 0 0)) (lit "views")
              rows (Some 10) 35 E E1 E2 E3) as (Hh & deltas & Hd & Hs).
  exists rows, deltas. repeat split; assumption.
Defined.

(** X16 (witness). Three submissions to a queue of capacity 2 that holds one
    event. *)
Lemma queue_bound_witness :
  0 < maxsize half_queue
  /\ qsize half_queue <= maxsize half_queue
  /\ qsize (snd (submit_all [posts_batch; posts_batch; posts_batch]
                            half_queue))
     <= maxsize half_queue.
Proof.
  assert (H1 : 0 < maxsize half_queue) by reflexivity.
  assert (H2 : qsize half_queue <= maxsize half_queue)
    by (vm_compute; discriminate).
  split; [exact H1|]. split; [exact H2|].
  exact (IntakeFacts.queue_stays_within_bound
           [posts_batch; posts_batch; posts_batch] half_queue H1 H2).
Defined.

(** X18 (witness). A batch of post statistics. *)
Lemma queued_events_witness :
  fst (fst (enqueue_parser_event posts_batch half_queue)) = true
  /\ exists stats_by_url,
       stats_by_url <> []
       /\ (_apply_event_sync posts_batch = UpdatesAccounts stats_by_url
           \/ _apply_event_sync posts_batch = UpdatesPosts stats_by_url).
Proof.
  assert (H1 : fst (fst (enqueue_parser_event posts_batch half_queue)) = true)
    by (vm_compute; reflexivity).
  split; [exact H1|].
  exact (IntakeFacts.queued_events_are_applied posts_batch half_queue H1).
Defined.

(** X23 (witness). With nothing running, [start] launches the posts worker. *)
Lemma start_when_down_witness :
  SupervisorDefs.live quiet idle Posts = false
  /\ let '(s', effs, raised) := SupervisorDefs.start Posts quiet idle in
     ControlDefs.expected_running Posts s' = true
     /\ (script_exists quiet Posts = false ->
         effs = [] /\ raised = None
         /\ ControlDefs.process_of Posts s' = ControlDefs.process_of Posts idle
         /\ ControlDefs.started_at_of Posts s'
            = ControlDefs.started_at_of Posts idle
         /\ ControlDefs.log_handle_of Posts s'
            = ControlDefs.log_handle_of Posts idle
         /\ _watchdog_started s' = _watchdog_started idle)
     /\ (script_exists quiet Posts = true ->
         forall p, popen quiet Posts = Ok p ->
           raised = None /\ spawned effs = [(Posts, p)]
           /\ ControlDefs.process_of Posts s' = Some p
           /\ ControlDefs.started_at_of Posts s' = Some (time quiet)
           /\ log_usable (ControlDefs.log_handle_of Posts s') = true
           /\ _watchdog_started s' = true)
     /\ (script_exists quiet Posts = true ->
         forall e, popen quiet Posts = Raise e ->
           raised = Some e /\ spawned effs = []
           /\ ControlDefs.process_of Posts s'
              = ControlDefs.process_of Posts idle).
Proof.
  assert (H1 : SupervisorDefs.live quiet idle Posts = false) by reflexivity.
  split; [exact H1|].
  exact (ControlFacts.start_when_down Posts quiet idle H1).
Defined.

(** X24 (witness). The action [pause]. *)
Lemma unknown_action_witness :
  ~ In (lit "pause") ControlDefs.known_actions
  /\ control_parsers_action (lit "pause")
       (mkAnswers (fun _ => world) (fun _ => quiet)) idle
     = (idle, [], None).
Proof.
  assert (H1 : ~ In (lit "pause") ControlDefs.known_actions).
  { intros H. vm_compute in H.
    repeat (destruct H as [H|H]; [discriminate H|]). exact H. }
  split; [exact H1|].
  exact (ControlFacts.unknown_action_does_nothing
           (lit "pause") (mkAnswers (fun _ => world) (fun _ => quiet)) idle H1).
Defined.

(** X27 (witness). A user file without statistics. *)
Lemma ensure_stats_witness :
  exists data' stats,
    _ensure_stats [ (lit "posts", VList []) ] = Ok (data', stats)
    /\ get data' (lit "stats") VNone = VDict stats
    /\ lookup stats (lit "accounts") <> None
    /\ lookup stats (lit "posts") <> None
    /\ (forall k v,
          lookup (as_dict (get [ (lit "posts", VList []) ] (lit "stats")
                               (VDict []))) k = Some v ->
          lookup stats k = Some v)
    /\ (forall k, k <> lit "stats" ->
                  lookup data' k = lookup [ (lit "posts", VList []) ] k)
    /\ _ensure_stats data' = Ok (data', stats).
Proof.
  do 2 eexists. split; [vm_compute; reflexivity|].
  apply (PostsFacts.ensure_stats_completes_the_record
           [ (lit "posts", VList []) ]).
  vm_compute. reflexivity.
Defined.

(** X28 (witness). A directory of three files, one of them a user with posts. *)
Lemma collected_posts_witness :
  exists posts,
    _collect_posts (_load_users users_dir) = Some posts
    /\ NoDup posts
    /\ Forall (fun v => v <> [] /\ StrDefs.clean v = true) posts
    /\ forall v,
         In v posts
         <-> v <> []
             /\ exists path data items item,
                  In (path, data) (_load_users users_dir)
                  /\ iterate (posts_field data) = Some items
                  /\ In item items /\ v = strip (py_str item).
Proof.
  eexists. split; [vm_compute; reflexivity|].
  apply (PostsFacts.collected_posts_are_the_stripped_items
           (_load_users users_dir)).
  vm_compute. reflexivity.
Defined.

Lemma users_dir_lists :
  Forall (fun u => exists l, posts_field (snd u) = VList l)
         (_load_users users_dir).
Proof.
  apply Forall_forall. intros u Hu. vm_compute in Hu.
  destruct Hu as [<-|[]]. eexists. vm_compute. reflexivity.
Defined.

(** X29 (witness). The same directory. *)
Lemma watchdog_sees_posts_witness :
  Forall (fun u => exists l, posts_field (snd u) = VList l)
         (_load_users users_dir)
  /\ exists posts,
       _collect_posts (_load_users users_dir) = Some posts
       /\ (_has_posts_tasks users_dir = true <-> posts <> []).
Proof.
  split; [exact users_dir_lists|].
  exact (PostsFacts.watchdog_sees_the_posts_to_fetch users_dir users_dir_lists).
Defined.

(** X30 (witness). Two users that track one post. *)
Lemma global_timeline_witness :
  WindowDefs.raw_points
    (get (_collect_global_post_tracking two_trackers)
         (lit "https://www.threads.com/@a/post/1") VNone)
  = _normalize_timeline
      (VList (RecordDefs.tracked_points
                (lit "https://www.threads.com/@a/post/1") two_trackers)).
Proof.
  exact (GlobalFacts.global_timeline_merges_the_users
           two_trackers (lit "https://www.threads.com/@a/post/1")).
Defined.

End Samples.
